(** * Health-care appointment chat bot: the React client and the booking core

    The repository's sources are the chat client (ChatScreen and its child
    components, the useChat hook).  The client is embedded shallowly:
    JavaScript values as an inductive type, strings as lists of UTF-16 code
    units, localStorage as a finite map, React state as a record that the
    queued state updates are committed to, and an async function as the part
    that runs before its `await` and the part that runs once the promise has
    settled.  An event on the page is followed in two stages: the handler up
    to its return ([Client.step]), and the whole of it with the render of
    the new state and the persisting effects ([Display.page_step]).

    The scheduling core behind the chat endpoint (ledger, availability
    engine, booking transaction) has no source file here; module [Core] models
    it from the specification. *)

From Stdlib Require Import ZArith NArith QArith List String Ascii Lia.
From stdpp Require Import base option list gmap strings pretty.

Set Warnings "-register-all".
Local Open Scope N_scope.

(** ** JavaScript values *)

Module JS.

(** A string is its sequence of UTF-16 code units. *)
Definition jsstr : Type := list N.

(** ASCII literals of the source text. *)
Definition lit (s : string) : jsstr := map N_of_ascii (list_ascii_of_string s).

Inductive value : Type :=
  | VUndefined
  | VNull
  | VBool (b : bool)
  | VNum (q : Q)
  | VStr (s : jsstr)
  | VArr (items : list value)
  | VObj (fields : list (jsstr * value)).

(** The exceptions that occur: of the language, of axios, and what React
    throws when it cannot make or mount an element tree ([ReactError]; the
    kind of exception it is then is not told apart). *)
Inductive exn : Type := TypeError | SyntaxError | AxiosError | ReactError.

(** The result of evaluating an expression: a value, or a thrown exception. *)
Inductive outcome (A : Type) : Type :=
  | Done (a : A)
  | Thrown (e : exn).
Arguments Done {A} a.
Arguments Thrown {A} e.

#[global] Instance outcome_ret : MRet outcome := fun A a => Done a.
#[global] Instance outcome_bind : MBind outcome := fun A B f m =>
  match m with Done a => f a | Thrown e => Thrown e end.

Definition of_nat (n : nat) : value := VNum (inject_Z (Z.of_nat n)).

(** ToBoolean. *)
Definition truthy (v : value) : bool :=
  match v with
  | VUndefined | VNull => false
  | VBool b => b
  | VNum q => negb (Qeq_bool q 0)
  | VStr s => match s with [] => false | _ => true end
  | VArr _ | VObj _ => true
  end.

(** [v === "s"] against a string literal. *)
Definition strict_eq_str (v : value) (s : jsstr) : bool :=
  match v with VStr t => bool_decide (t = s) | _ => false end.

(** [v === 0]. *)
Definition strict_eq_zero (v : value) : bool :=
  match v with VNum q => Qeq_bool q 0 | _ => false end.

(** Own property of an object literal; the first binding of a name counts. *)
Fixpoint assoc (k : jsstr) (fields : list (jsstr * value)) : value :=
  match fields with
  | [] => VUndefined
  | (k', v) :: rest => if bool_decide (k' = k) then v else assoc k rest
  end.

(** The index that the property name [k] denotes in a sequence of [n]
    elements, when [k] is the canonical numeral of some [i < n]. *)
Definition array_index (k : jsstr) (n : nat) : option nat :=
  List.find (fun i => bool_decide (lit (pretty i) = k)) (seq 0 n).

(** [v.k] for data properties.  Reading a property of [undefined] or [null]
    throws a TypeError; a primitive has no data property of its own except
    a string's length and characters; methods are not values of this model
    and are embedded as functions of their own ([trim], [array_map]). *)
Definition get_prop (v : value) (k : jsstr) : outcome value :=
  match v with
  | VUndefined | VNull => Thrown TypeError
  | VBool _ | VNum _ => Done VUndefined
  | VStr s =>
      if bool_decide (k = lit "length") then Done (of_nat (length s))
      else match array_index k (length s) with
           | Some i => Done (from_option (fun c => VStr [c]) VUndefined (s !! i))
           | None => Done VUndefined
           end
  | VArr l =>
      if bool_decide (k = lit "length") then Done (of_nat (length l))
      else match array_index k (length l) with
           | Some i => Done (default VUndefined (l !! i))
           | None => Done VUndefined
           end
  | VObj fields => Done (assoc k fields)
  end.

(** [undefined] and [null], the values without properties. *)
Definition nullish (v : value) : bool :=
  match v with VUndefined | VNull => true | _ => false end.

(** [v?.k]: optional chaining short-circuits on [undefined] and [null]. *)
Definition get_prop_opt (v : value) (k : jsstr) : outcome value :=
  match v with
  | VUndefined | VNull => Done VUndefined
  | _ => get_prop v k
  end.

(** WhiteSpace and LineTerminator code points, the characters that
    String.prototype.trim strips. *)
Definition is_ws (c : N) : bool :=
  (c =? 9) || (c =? 10) || (c =? 11) || (c =? 12) || (c =? 13) || (c =? 32)
  || (c =? 160) || (c =? 5760) || ((8192 <=? c) && (c <=? 8202))
  || (c =? 8232) || (c =? 8233) || (c =? 8239) || (c =? 8287)
  || (c =? 12288) || (c =? 65279).

Fixpoint trimStart (s : jsstr) : jsstr :=
  match s with
  | [] => []
  | c :: rest => if is_ws c then trimStart rest else s
  end.

Definition trimEnd (s : jsstr) : jsstr := rev (trimStart (rev s)).

Definition trim (s : jsstr) : jsstr := trimEnd (trimStart s).

(** [text.trim()]: only a string has the method. *)
Definition call_trim (text : value) : outcome jsstr :=
  match text with
  | VStr s => Done (trim s)
  | _ => Thrown TypeError
  end.

(** A string of whitespace only (the empty string included). *)
Definition blank (s : jsstr) : bool := forallb is_ws s.

Definition is_high_surrogate (c : N) : bool := (55296 <=? c) && (c <=? 56319).
Definition is_low_surrogate (c : N) : bool := (56320 <=? c) && (c <=? 57343).

(** The string iterator yields code points: a surrogate pair is one item. *)
Fixpoint code_points (s : jsstr) : list value :=
  match s with
  | [] => []
  | c :: rest =>
      match rest with
      | d :: rest' =>
          if is_high_surrogate c && is_low_surrogate d
          then VStr [c; d] :: code_points rest'
          else VStr [c] :: code_points rest
      | [] => [VStr [c]]
      end
  end.

(** [...p] inside an array literal: arrays and strings are iterable. *)
Definition spread (p : value) : outcome (list value) :=
  match p with
  | VArr l => Done l
  | VStr s => Done (code_points s)
  | _ => Thrown TypeError
  end.

Fixpoint mapM_index {A B} (f : A -> nat -> outcome B) (l : list A) (i : nat)
  : outcome (list B) :=
  match l with
  | [] => Done []
  | x :: rest =>
      y ← f x i;
      ys ← mapM_index f rest (S i);
      Done (y :: ys)
  end.

(** [xs.map((x, i) => f x i)]: defined on arrays; on any other JSON value
    the property [map] is no function and the call throws. *)
Definition array_map {B} (xs : value) (f : value -> nat -> outcome B)
  : outcome (list B) :=
  match xs with
  | VArr l => mapM_index f l 0
  | _ => Thrown TypeError
  end.

End JS.

(** ** The chat client *)

Module Client.
Import JS.

(** *** localStorage *)

Abbreviation storage := (gmap jsstr jsstr).

Definition getItem (k : jsstr) (ls : storage) : value :=
  match ls !! k with Some s => VStr s | None => VNull end.
Definition setItem (k s : jsstr) (ls : storage) : storage := <[k := s]> ls.
Definition removeItem (k : jsstr) (ls : storage) : storage := delete k ls.

(** *** hooks/useChat.js *)

Record request : Type := POST { url : jsstr; body : value }.

(** How a promise settles. *)
Inductive settled : Type :=
  | Fulfilled (v : value)
  | Rejected (e : exn).

(** [axios.post("http://localhost:8000/api/chat", { message, session_id })] *)
Definition useChat_post (sessionId message : value) : request :=
  POST (lit "http://localhost:8000/api/chat")
       (VObj [(lit "message", message); (lit "session_id", sessionId)]).

(** [return res.data.response], once axios has settled with [http]. *)
Definition useChat_return (http : settled) : settled :=
  match http with
  | Fulfilled res =>
      match data ← get_prop res (lit "data"); get_prop data (lit "response") with
      | Done response => Fulfilled response
      | Thrown e => Rejected e
      end
  | Rejected e => Rejected e
  end.

(** *** ChatScreen: state *)

Record state : Type := State {
  session : value;
  messages : value;
  slots : value;
  bookingDetails : value;
  loading : bool;
  initialized : bool;
  doctors : value
}.

(** The page: localStorage and the mounted ChatScreen. *)
Record app : Type := App { localStorage : storage; screen : state }.

(** A transcript entry [{ sender, text }]. *)
Definition bubble (sender : jsstr) (text : value) : value :=
  VObj [(lit "sender", VStr sender); (lit "text", text)].

(** Calls of the state setters.  A setter never throws where it is called;
    React runs the queued updates when it renders next. *)
Inductive update : Type :=
  | setMessages (v : value)
  | setMessages_append (m : value)   (* setMessages((p) => [...p, m]) *)
  | setSlots (v : value)
  | setBookingDetails (v : value)
  | setLoading (b : bool)
  | setInitialized (b : bool)
  | setDoctors (v : value).

Definition apply_update (u : update) (s : state) : outcome state :=
  match u with
  | setMessages v =>
      Done (State (session s) v (slots s) (bookingDetails s) (loading s)
                  (initialized s) (doctors s))
  | setMessages_append m =>
      p ← spread (messages s);
      Done (State (session s) (VArr (p ++ [m])) (slots s) (bookingDetails s)
                  (loading s) (initialized s) (doctors s))
  | setSlots v =>
      Done (State (session s) (messages s) v (bookingDetails s) (loading s)
                  (initialized s) (doctors s))
  | setBookingDetails v =>
      Done (State (session s) (messages s) (slots s) v (loading s)
                  (initialized s) (doctors s))
  | setLoading b =>
      Done (State (session s) (messages s) (slots s) (bookingDetails s) b
                  (initialized s) (doctors s))
  | setInitialized b =>
      Done (State (session s) (messages s) (slots s) (bookingDetails s)
                  (loading s) b (doctors s))
  | setDoctors v =>
      Done (State (session s) (messages s) (slots s) (bookingDetails s)
                  (loading s) (initialized s) v)
  end.

Fixpoint commit (us : list update) (s : state) : outcome state :=
  match us with
  | [] => Done s
  | u :: rest => s' ← apply_update u s; commit rest s'
  end.

(** The slot list that a run of setter calls leaves: that of the last
    [setSlots] among them. *)
Definition slots_after (us : list update) (before : value) : value :=
  fold_left (fun v u => match u with setSlots x => x | _ => v end) us before.

(** What a handler does before it returns: the setters it called, what it
    left in localStorage, and the requests it sent. *)
Record effects : Type := Effects {
  queued : list update;
  stored : storage;
  sent : list request
}.

Definition handler : Type := storage -> effects.

(** A handler, up to its return, and the updates it queued applied to the
    state: the state that ChatScreen is rendered with next, the
    localStorage that the handler leaves, the requests it sent.  The render
    of that state and the persisting effects come after it and are no part
    of [run]: [Done] says that the handler returned and the updates
    applied, not that the page can display the state ([Display.display],
    [Display.page_step]). *)
Definition run (h : handler) (w : app) : outcome (app * list request) :=
  let e := h (localStorage w) in
  s ← commit (queued e) (screen w);
  Done (App (stored e) s, sent e).

(** *** ChatScreen: sendUserMessage *)

Definition apology : value :=
  bubble (lit "agent") (VStr (lit "Sorry, something went wrong. Please try again.")).

(** From the call to the [await]. *)
Definition sendUserMessage (session text : value) : handler := fun ls =>
  match call_trim text with
  | Thrown _ => Effects [] ls []           (* the returned promise rejects *)
  | Done trimmed =>
      if negb (truthy (VStr trimmed)) then Effects [] ls []
      else
        Effects [ setMessages_append (bubble (lit "user") text);
                  setSlots (VArr []);
                  setLoading true ]
                (removeItem (lit "chat_slots") ls)
                [useChat_post session text]
  end.

(** The [try] block after [await mutateAsync(text)] gave [res]. *)
Definition sendUserMessage_try (res : value) : outcome (list update) :=
  a1 ← get_prop res (lit "action");
  u1 ← (if strict_eq_str a1 (lit "reply")
        then m ← get_prop res (lit "message");
             Done [setMessages_append (bubble (lit "agent") m)]
        else Done []);
  a2 ← get_prop res (lit "action");
  u2 ← (if strict_eq_str a2 (lit "slots")
        then m ← get_prop res (lit "message");
             s ← get_prop res (lit "slots");
             Done [setMessages_append (bubble (lit "agent") m); setSlots s]
        else Done []);
  a3 ← get_prop res (lit "action");
  u3 ← (if strict_eq_str a3 (lit "booking_confirmed")
        then m ← get_prop res (lit "message");
             d ← get_prop res (lit "details");
             Done [setMessages_append (bubble (lit "agent") m); setBookingDetails d]
        else Done []);
  a4 ← get_prop res (lit "action");
  u4 ← (if strict_eq_str a4 (lit "doctors")
        then m ← get_prop res (lit "message");
             d ← get_prop res (lit "doctors");
             Done [setMessages_append (bubble (lit "agent") m); setDoctors d]
        else Done []);
  Done (u1 ++ u2 ++ u3 ++ u4).

Definition sendUserMessage_catch : list update := [setMessages_append apology].

(** The actions that one of the four [if]s of the [try] block tests for. *)
Definition handled_actions : list jsstr :=
  [lit "reply"; lit "slots"; lit "booking_confirmed"; lit "doctors"].

Definition is_handled (action : value) : bool :=
  existsb (strict_eq_str action) handled_actions.

(** From the settling of [mutateAsync(text)] to the end of the function:
    try, catch, finally. *)
Definition sendUserMessage_settled (r : settled) : handler := fun ls =>
  let body :=
    match r with
    | Fulfilled res =>
        match sendUserMessage_try res with
        | Done us => us
        | Thrown _ => sendUserMessage_catch
        end
    | Rejected _ => sendUserMessage_catch
    end in
  Effects (body ++ [setLoading false]) ls [].

(** *** ChatScreen: clearChat and the handlers passed to the children *)

Definition clearChat (ls : storage) : storage :=
  removeItem (lit "session_id")
    (removeItem (lit "chat_booking")
      (removeItem (lit "chat_slots")
        (removeItem (lit "chat_messages") ls))).

(** [onSelect={(d) => { sendUserMessage(d.name); setDoctors([]); }}] *)
Definition onSelect_doctor (session d : value) : outcome handler :=
  name ← get_prop d (lit "name");
  Done (fun ls =>
          let e := sendUserMessage session name ls in
          Effects (queued e ++ [setDoctors (VArr [])]) (stored e) (sent e)).

(** [onClose={() => { setBookingDetails(null); localStorage.removeItem("chat_booking"); }}] *)
Definition onClose_booking : handler := fun ls =>
  Effects [setBookingDetails VNull] (removeItem (lit "chat_booking") ls) [].

(** What can happen to the mounted screen: a child calls
    [sendUserMessage] (ChatInput, SuggestionChips, a slot button), a doctor
    card is selected, the request of a turn settles, the booking card is
    closed. *)
Inductive event : Type :=
  | Send (text : value)
  | SelectDoctor (d : value)
  | Settle (http : settled)
  | CloseBooking.

Definition on_event (session : value) (e : event) : outcome handler :=
  match e with
  | Send text => Done (sendUserMessage session text)
  | SelectDoctor d => onSelect_doctor session d
  | Settle http => Done (sendUserMessage_settled (useChat_return http))
  | CloseBooking => Done onClose_booking
  end.

(** The handler of an event, up to its return ([run]): what it makes of
    the state and of localStorage and what it sends, before the page is
    rendered again and before the persisting effects rewrite the chat
    items.  An exception that escapes an event handler is reported and
    leaves the page as it is: no setter was called before it.  The event
    with the render and the effects that follow it is
    [Display.page_step]. *)
Definition step (e : event) (w : app) : outcome (app * list request) :=
  match on_event (session (screen w)) e with
  | Done h => run h w
  | Thrown _ => Done (w, [])
  end.

(** *** ChatScreen: first render, restoring and persisting effects *)

Definition greeting : value :=
  bubble (lit "agent")
    (VStr (lit "Hello " ++ [55357; 56395]
           ++ lit "! I can help you schedule an appointment." ++ [10; 10]
           ++ lit "What brings you in today?")).

(** The initialiser of [useState] for the session; [uuid] is what
    [crypto.randomUUID()] returns when it is called. *)
Definition useState_session (uuid : jsstr) (ls : storage) : value * storage :=
  let id := getItem (lit "session_id") ls in
  if negb (truthy id)
  then (VStr uuid, setItem (lit "session_id") uuid ls)
  else (id, ls).

Definition first_render (session : value) : state :=
  State session (VArr []) (VArr []) VNull false false (VArr []).

Section Persistence.

(** The platform's JSON.parse and JSON.stringify (the latter followed by
    the conversion to string that setItem applies). *)
Variable JSON_parse : value -> outcome value.
Variable JSON_stringify : value -> jsstr.

(** The effect that restores the chat on mount. *)
Definition restore_effect (ls : storage) : outcome (list update) :=
  let m := getItem (lit "chat_messages") ls in
  let s := getItem (lit "chat_slots") ls in
  let b := getItem (lit "chat_booking") ls in
  u1 ← (if truthy m
        then parsed ← JSON_parse m;
             _ ← get_prop parsed (lit "length");
             Done [setMessages parsed]
        else Done [setMessages (VArr [greeting])]);
  u2 ← (if truthy s
        then parsed ← JSON_parse s;
             _ ← get_prop parsed (lit "length");
             Done [setSlots parsed]
        else Done []);
  u3 ← (if truthy b
        then parsed ← JSON_parse b;
             Done [setBookingDetails parsed]
        else Done []);
  Done (u1 ++ u2 ++ u3 ++ [setInitialized true]).

(** Loading the page: first render of ChatScreen, then the mount effect
    and the render of what it set. *)
Definition page_load (uuid : jsstr) (ls : storage) : outcome app :=
  let '(session, ls') := useState_session uuid ls in
  us ← restore_effect ls';
  s ← commit us (first_render session);
  Done (App ls' s).

(** [clearChat] ends in [window.location.reload()]. *)
Definition clearChat_reload (uuid : jsstr) (w : app) : outcome app :=
  page_load uuid (clearChat (localStorage w)).

(** The three persisting effects, as they run after a render that changed
    their dependencies. *)
Definition persist_messages (s : state) (ls : storage) : outcome storage :=
  if negb (initialized s) then Done ls
  else _ ← get_prop (messages s) (lit "length");
       Done (setItem (lit "chat_messages") (JSON_stringify (messages s)) ls).

Definition persist_slots (s : state) (ls : storage) : outcome storage :=
  if negb (initialized s) then Done ls
  else _ ← get_prop (slots s) (lit "length");
       Done (setItem (lit "chat_slots") (JSON_stringify (slots s)) ls).

Definition persist_booking (s : state) (ls : storage) : outcome storage :=
  if negb (initialized s) then Done ls
  else if truthy (bookingDetails s)
       then Done (setItem (lit "chat_booking") (JSON_stringify (bookingDetails s)) ls)
       else Done ls.

(** What the mount effect makes of an item of localStorage: the parsed
    text of an item that is there, the default otherwise. *)
Definition restores (item : option jsstr) (dflt v : value) : Prop :=
  match item with
  | Some text => text <> [] /\ JSON_parse (VStr text) = Done v
  | None => v = dflt
  end.

End Persistence.

(** *** ChatInput *)

(** [send], with the input's text state: the handler it calls, if any, and
    the text afterwards. *)
Definition ChatInput_send {H} (text : value) (onSend : value -> H)
  : outcome (option H * value) :=
  trimmed ← call_trim text;
  if negb (truthy (VStr trimmed)) then Done (None, text)
  else Done (Some (onSend text), VStr []).

(** *** SlotSelector, DoctorList, DoctorCard *)

(** The elements that a component returns.  Class names are left out;
    [onClick] holds what the click handler calls.  [Text v] is a child
    expression [{v}] with its value, whatever that is: a component returns
    the element so, and it is React that refuses some values as children
    when it mounts the tree ([Display.valid_child], [Display.mounts]). *)
Inductive vnode (H : Type) : Type :=
  | Text (v : value)
  | Elem (tag : string) (attrs : list (string * value)) (onClick : option H)
         (children : list (vnode H))
  | Keyed (key : value) (child : vnode H).
Arguments Text {H} v.
Arguments Elem {H} tag attrs onClick children.
Arguments Keyed {H} key child.

Definition SlotSelector {H} (slots : value) (onSelect : value -> H)
  : outcome (option (vnode H)) :=
  len ← get_prop_opt slots (lit "length");
  if negb (truthy len) then Done None
  else
    buttons ← array_map slots (fun slot i =>
      start_time ← get_prop slot (lit "start_time");
      doctor_name ← get_prop slot (lit "doctor_name");
      Done (Keyed (of_nat i)
              (Elem "button" [] (Some (onSelect start_time))
                 [ Elem "div" [] None
                     [ Elem "p" [] None [Text start_time];
                       Elem "p" [] None [Text doctor_name] ];
                   Elem "span" [] None [Text (VStr (lit "Select"))] ])));
    Done (Some (Elem "div" [] None buttons)).

Definition DoctorCard {H} (doctor : value) (onSelect : value -> H)
  : outcome (vnode H) :=
  image ← get_prop doctor (lit "image");
  alt ← get_prop doctor (lit "name");
  name ← get_prop doctor (lit "name");
  specialization ← get_prop doctor (lit "specialization");
  rating ← get_prop doctor (lit "rating");
  Done (Elem "div" [] (Some (onSelect doctor))
          [ Elem "img" [("src"%string, image); ("alt"%string, alt)] None [];
            Elem "div" [] None
              [ Elem "div" [] None [Text name];
                Elem "div" [] None [Text specialization];
                Elem "div" [] None
                  [ Text (VStr ([11088] ++ lit " ")); Text rating;
                    Text (VStr (lit " / 5.0")) ] ];
            Elem "button" [] None [Text (VStr (lit "Select"))] ]).

Definition DoctorList {H} (doctors : value) (onSelect : value -> H)
  : outcome (vnode H) :=
  empty ← (if negb (truthy doctors) then Done true
           else len ← get_prop doctors (lit "length");
                Done (strict_eq_zero len));
  if (empty : bool)
  then Done (Elem "p" [] None [Text (VStr (lit "No doctors available."))])
  else
    cards ← array_map doctors (fun doc _ =>
      key ← get_prop doc (lit "id");
      card ← DoctorCard doc onSelect;
      Done (Keyed key card));
    Done (Elem "div" [] None cards).

(** Two values agree on a set of fields when each field reads the same
    from both; a rendering reads only those fields when it cannot tell such
    values apart. *)
Definition agree_on (fields : list jsstr) (v1 v2 : value) : Prop :=
  forall k, In k fields -> get_prop v1 k = get_prop v2 k.

Definition reads_only {A} (fields : list jsstr) (render : list value -> A) : Prop :=
  forall l1 l2, Forall2 (agree_on fields) l1 l2 -> render l1 = render l2.

(** What the slot buttons and the doctor cards read of an item. *)
Definition slot_reads : list jsstr := [lit "start_time"; lit "doctor_name"].
Definition doctor_reads : list jsstr :=
  [lit "id"; lit "image"; lit "name"; lit "specialization"; lit "rating"].

End Client.

(** ** The scheduling core *)

Module Core.

Local Open Scope nat_scope.

(** Modelled from the spec: the Doctor record of the data model (the
    directory, a static catalogue, has no source file here).  A time of day
    is a number of minutes since midnight, a date a day number, and
    [weekday_of] its weekday in 0..6. *)
Record Doctor : Type := {
  doctor_id : nat;
  name : string;
  specialization : string;
  rating : Q;
  working_days : list nat;
  working_hours : nat * nat;
  slot_duration_minutes : nat
}.

(** Modelled from the spec: the status of a Booking. *)
Inductive Status : Type := confirmed | cancelled.

#[global] Instance Status_eq_dec : EqDecision Status.
Proof. solve_decision. Defined.

(** Modelled from the spec: the Booking record of the data model. *)
Record Booking : Type := {
  booking_id : string;
  confirmation_code : string;
  b_doctor_id : nat;
  date : nat;
  start_time : nat;
  end_time : nat;
  appointment_type : string;
  patient_name : string;
  patient_phone : string;
  patient_email : string;
  reason : string;
  status : Status
}.

(** Modelled from the spec: the Slot record of the data model. *)
Record Slot : Type := {
  s_start_time : nat;
  s_end_time : nat;
  s_doctor_id : nat;
  available : bool
}.

(** Modelled from the spec: the error taxonomy of the core; [CodesExhausted]
    is the failure of the capped search for a free confirmation code. *)
Inductive error : Type :=
  | NotFound
  | ClosedOnDate
  | Conflict
  | SlotNoLongerAvailable
  | AlreadyCancelled
  | CodesExhausted.

(** Modelled from the spec: the Booking Ledger, the record of all bookings
    in the order of their insertion. *)
Abbreviation Ledger := (list Booking).

(** Modelled from the spec: a confirmed booking occupies its
    (doctor_id, date, start_time). *)
Definition occupies (d day t : nat) (b : Booking) : bool :=
  bool_decide (status b = confirmed) && (b_doctor_id b =? d) && (date b =? day)
  && (start_time b =? t).

(** Modelled from the spec: [insert(booking)], which fails with [Conflict]
    if another confirmed booking already occupies the same
    (doctor_id, date, start_time). *)
Definition insert (b : Booking) (l : Ledger) : error + Ledger :=
  if existsb (occupies (b_doctor_id b) (date b) (start_time b)) l
  then inl Conflict
  else inr (l ++ [b]).

(** Modelled from the spec: [find_confirmed(doctor_id, date)], the occupied
    start times. *)
Definition find_confirmed (d day : nat) (l : Ledger) : list nat :=
  List.map start_time
    (List.filter (fun b => bool_decide (status b = confirmed)
                           && (b_doctor_id b =? d) && (date b =? day)) l).

(** Modelled from the spec: [find_by_code_or_id(token)]. *)
Definition find_by_code_or_id (token : string) (l : Ledger) : error + Booking :=
  match List.find (fun b => String.eqb (booking_id b) token
                            || String.eqb (confirmation_code b) token) l with
  | Some b => inr b
  | None => inl NotFound
  end.

(** Modelled from the spec: a booking with its status set to cancelled. *)
Definition mark_cancelled (b : Booking) : Booking :=
  {| booking_id := booking_id b; confirmation_code := confirmation_code b;
     b_doctor_id := b_doctor_id b; date := date b; start_time := start_time b;
     end_time := end_time b; appointment_type := appointment_type b;
     patient_name := patient_name b; patient_phone := patient_phone b;
     patient_email := patient_email b; reason := reason b;
     status := cancelled |}.

(** Modelled from the spec: the Ledger's [cancel(booking_id)], which fails
    with [AlreadyCancelled] if the status is already cancelled. *)
Definition ledger_cancel (id : string) (l : Ledger) : error + Ledger :=
  match List.find (fun b => String.eqb (booking_id b) id) l with
  | None => inl NotFound
  | Some b =>
      match status b with
      | cancelled => inl AlreadyCancelled
      | confirmed =>
          inr (List.map (fun b' => if String.eqb (booking_id b') id
                                   then mark_cancelled b' else b') l)
      end
  end.

(** Modelled from the spec: [weekday_of(date)] and [enumerate_slots], the
    fixed-length intervals that fit in the working window, in order. *)
Definition weekday_of (day : nat) : nat := day mod 7.

Definition enumerate_slots (start stop duration : nat) : list (nat * nat) :=
  List.map (fun i => (start + i * duration, start + (i + 1) * duration))
           (seq 0 ((stop - start) / duration)).

(** Modelled from the spec: the Doctor Directory's [get(doctor_id)]. *)
Definition directory_get (id : nat) (dir : list Doctor) : error + Doctor :=
  match List.find (fun d => doctor_id d =? id) dir with
  | Some d => inr d
  | None => inl NotFound
  end.

(** Modelled from the spec: the Availability Engine's [compute_slots],
    steps (1) to (6); [now] is today's date and the time of day. *)
Definition compute_slots (dir : list Doctor) (l : Ledger) (now : nat * nat)
    (id day : nat) (type : string) : error + list Slot :=
  match directory_get id dir with
  | inl e => inl e
  | inr d =>
      if negb (existsb (Nat.eqb (weekday_of day)) (working_days d))
      then inl ClosedOnDate
      else
        let intervals :=
          enumerate_slots (fst (working_hours d)) (snd (working_hours d))
                          (slot_duration_minutes d) in
        let occupied := find_confirmed id day l in
        let marked :=
          List.map (fun iv => {| s_start_time := fst iv; s_end_time := snd iv;
                                 s_doctor_id := id;
                                 available := negb (existsb (Nat.eqb (fst iv)) occupied) |})
                   intervals in
        inr (List.filter (fun s => negb ((day =? fst now) && (s_start_time s <? snd now)))
                         marked)
  end.

(** Modelled from the spec: what a caller of [book] supplies; [codes] are the confirmation codes
    the generator draws, in order, for this call. *)
Record BookRequest : Type := {
  r_doctor_id : nat;
  r_date : nat;
  r_start_time : nat;
  r_appointment_type : string;
  r_patient_name : string;
  r_patient_phone : string;
  r_patient_email : string;
  r_reason : string;
  codes : list string
}.

(** Modelled from the spec: the collision check of a confirmation code
    against the ledger. *)
Definition code_taken (c : string) (l : Ledger) : bool :=
  existsb (fun b => String.eqb (confirmation_code b) c) l.

(** Modelled from the spec: the booking transaction.  It revalidates the
    requested start time against [compute_slots], takes the first drawn
    code that no booking of the ledger carries, builds the identifier from
    a fixed prefix and a suffix that grows with the ledger, and calls
    [insert]. *)
Definition book (dir : list Doctor) (now : nat * nat) (r : BookRequest)
    (l : Ledger) : error + (Booking * Ledger) :=
  match compute_slots dir l now (r_doctor_id r) (r_date r) (r_appointment_type r) with
  | inl ClosedOnDate => inl SlotNoLongerAvailable
  | inl e => inl e
  | inr slots =>
      match List.find (fun s => (s_start_time s =? r_start_time r) && available s) slots with
      | None => inl SlotNoLongerAvailable
      | Some s =>
          match List.find (fun c => negb (code_taken c l)) (codes r) with
          | None => inl CodesExhausted
          | Some code =>
              let b := {| booking_id := "APPT-" +:+ pretty (length l);
                          confirmation_code := code;
                          b_doctor_id := r_doctor_id r; date := r_date r;
                          start_time := r_start_time r; end_time := s_end_time s;
                          appointment_type := r_appointment_type r;
                          patient_name := r_patient_name r;
                          patient_phone := r_patient_phone r;
                          patient_email := r_patient_email r;
                          reason := r_reason r; status := confirmed |} in
              match insert b l with
              | inl e => inl e
              | inr l' => inr (b, l')
              end
          end
      end
  end.

(** Modelled from the spec: [cancel(token)] of the transaction component. *)
Definition cancel (token : string) (l : Ledger) : error + (Booking * Ledger) :=
  match find_by_code_or_id token l with
  | inl e => inl e
  | inr b =>
      match status b with
      | cancelled => inl AlreadyCancelled
      | confirmed =>
          match ledger_cancel (booking_id b) l with
          | inl e => inl e
          | inr l' => inr (mark_cancelled b, l')
          end
      end
  end.

(** Modelled from the spec: the serialization boundary around Ledger
    mutation.  Concurrent requests reach the ledger as a sequence of calls,
    each run to its end before the next; a failed call leaves the ledger as
    it was. *)
Inductive call : Type :=
  | CallBook (now : nat * nat) (r : BookRequest)
  | CallCancel (token : string).

(** Modelled from the spec: one call served inside the boundary. *)
Definition serve (dir : list Doctor) (c : call) (l : Ledger) : Ledger :=
  match c with
  | CallBook now r => match book dir now r l with inr (_, l') => l' | inl _ => l end
  | CallCancel token => match cancel token l with inr (_, l') => l' | inl _ => l end
  end.

(** Modelled from the spec: the calls served one after the other. *)
Definition serve_all (dir : list Doctor) (cs : list call) (l : Ledger) : Ledger :=
  fold_left (fun l c => serve dir c l) cs l.

(** Modelled from the spec: the no-double-booking invariant; no two
    confirmed bookings of the ledger share (doctor_id, date, start_time). *)
Definition no_double_booking (l : Ledger) : Prop :=
  forall i j b1 b2,
    l !! i = Some b1 -> l !! j = Some b2 ->
    status b1 = confirmed -> status b2 = confirmed ->
    (b_doctor_id b1, date b1, start_time b1) = (b_doctor_id b2, date b2, start_time b2) ->
    i = j.

End Core.

(** ** The response contract *)

Module Response.

(** Modelled from the spec: the closed set of response actions of
    [handle_message], and the name each travels under. *)
Inductive Action : Type := reply | slots | doctors | booking_confirmed | cancelled.

Definition action_name (a : Action) : JS.jsstr :=
  JS.lit match a with
         | reply => "reply"
         | slots => "slots"
         | doctors => "doctors"
         | booking_confirmed => "booking_confirmed"
         | cancelled => "cancelled"
         end.

(** Modelled from the spec: the fields of a slot of a [slots] response and
    of a doctor of a [doctors] response. *)
Definition slot_fields : list JS.jsstr :=
  [JS.lit "start_time"; JS.lit "end_time"; JS.lit "doctor_id"; JS.lit "available"].
Definition doctor_fields : list JS.jsstr :=
  [JS.lit "doctor_id"; JS.lit "name"; JS.lit "specialization"; JS.lit "rating"].

(** Modelled from the spec: an object that carries exactly the given
    fields. *)
Definition has_shape (fields : list JS.jsstr) (v : JS.value) : Prop :=
  exists vs, length vs = length fields /\ v = JS.VObj (zip fields vs).

End Response.

(** ** Sample data *)

Module Sample.
Import JS Client.

(** A slot and a doctor as the API examples of the README show them. *)
Definition slot : value :=
  VObj [ (lit "start_time", VStr (lit "09:00"));
         (lit "end_time", VStr (lit "09:30"));
         (lit "doctor_id", VNum 1);
         (lit "available", VBool true) ].

Definition doctor : value :=
  VObj [ (lit "doctor_id", VNum 1);
         (lit "name", VStr (lit "Dr. Ashik Arya"));
         (lit "specialization", VStr (lit "General Physician"));
         (lit "rating", VNum (47 # 10)) ].

Definition session_id : jsstr := lit "7d0c1f0e-5a51-4c0b-9a43-0c2f6f1b8e11".

(** A page in the middle of a chat. *)
Definition page : app :=
  App (<[lit "session_id" := session_id]> ∅)
      (State (VStr session_id)
             (VArr [greeting; bubble (lit "user") (VStr (lit "I have a fever"))])
             (VArr [slot]) VNull false true (VArr [doctor])).

(** JSON.parse on the two texts the samples store. *)
Definition parse (text : value) : outcome value :=
  if strict_eq_str text (lit "[]") then Done (VArr [])
  else if strict_eq_str text (lit "null") then Done VNull
  else Thrown SyntaxError.

(** A doctor who works Monday to Friday from 09:00 to 12:00 in slots of
    30 minutes, and two requests for 10:30 on day 7, a Monday. *)
Definition directory : list Core.Doctor :=
  [ {| Core.doctor_id := 1; Core.name := "Dr. Ashik Arya";
       Core.specialization := "General Physician"; Core.rating := 47 # 10;
       Core.working_days := [0; 1; 2; 3; 4]%nat;
       Core.working_hours := (540, 720)%nat;
       Core.slot_duration_minutes := 30%nat |} ].

Definition request (patient : string) (codes : list string) : Core.BookRequest :=
  {| Core.r_doctor_id := 1; Core.r_date := 7; Core.r_start_time := 630;
     Core.r_appointment_type := "consultation";
     Core.r_patient_name := patient; Core.r_patient_phone := "9876543210";
     Core.r_patient_email := "example@gmail.com"; Core.r_reason := "fever";
     Core.codes := codes |}.

Definition calls : list Core.call :=
  [ Core.CallBook (6, 0)%nat (request "Bipin" ["CDF321"%string]);
    Core.CallBook (6, 0)%nat (request "Asha" ["CDF321"%string; "QRT654"%string]) ].

(** Responses of the chat endpoint. *)
Definition doctors_response : value :=
  VObj [ (lit "action", VStr (lit "doctors"));
         (lit "message", VStr (lit "Here are the available doctors."));
         (lit "doctors", VArr [doctor]) ].

Definition slots_response : value :=
  VObj [ (lit "action", VStr (lit "slots"));
         (lit "message", VStr (lit "Here are the available slots."));
         (lit "slots", VArr [slot]) ].

End Sample.

(** ** The other components of the client *)

Module Views.
Import JS Client.

(** *** MessageBubble *)

(** [MessageBubble({ sender, text })]; its two class names depend on the
    sender and are kept. *)
Definition MessageBubble {H} (sender text : value) : vnode H :=
  let isUser := strict_eq_str sender (lit "user") in
  Elem "div"
    [("className"%string,
      VStr (lit "flex w-full mb-2 "
            ++ (if isUser then lit "justify-end" else lit "justify-start")))]
    None
    [ Elem "div"
        [("className"%string,
          VStr ([10] ++ lit "          px-4 py-2 max-w-[75%] rounded-xl text-sm leading-relaxed"
                ++ [10] ++ lit "          "
                ++ (if isUser
                    then lit "bg-blue-600 text-white rounded-br-none"
                    else lit "bg-gray-100 text-gray-800 rounded-bl-none")
                ++ [10] ++ lit "        "))]
        None
        [Text text] ].

(** *** ChatScreen: the transcript *)

(** The own enumerable property [k] that [{...m}] copies from [m], or
    [undefined]: the fields of an object, the elements of an array, the
    characters of a string; nothing of any other value. *)
Definition spread_prop (m : value) (k : jsstr) : value :=
  match m with
  | VObj fields => assoc k fields
  | VArr l =>
      match array_index k (length l) with
      | Some i => default VUndefined (l !! i)
      | None => VUndefined
      end
  | VStr s =>
      match array_index k (length s) with
      | Some i => from_option (fun c => VStr [c]) VUndefined (s !! i)
      | None => VUndefined
      end
  | _ => VUndefined
  end.

(** [<MessageBubble key={i} {...m} />]: a key that [m] carries replaces
    the index. *)
Definition transcript_entry {H} (m : value) (i : nat) : vnode H :=
  let key := match spread_prop m (lit "key") with
             | VUndefined => of_nat i
             | k => k
             end in
  Keyed key (MessageBubble (spread_prop m (lit "sender")) (spread_prop m (lit "text"))).

(** The chat area up to the selectors: the hint shown for an empty
    transcript, if it is shown, and the bubbles. *)
Definition transcript {H} (messages : value)
  : outcome (option (vnode H) * list (vnode H)) :=
  len ← get_prop messages (lit "length");
  let hint :=
    if strict_eq_zero len
    then Some (Elem "div" [] None
                 [Text (VStr (lit "No messages yet. Say hello! " ++ [55357; 56395]))])
    else None in
  bubbles ← array_map messages (fun m i => Done (transcript_entry m i));
  Done (hint, bubbles).

(** *** BookingConfirmationModal *)

Definition BookingConfirmationModal {H} (details : value) (onClose : H)
  : outcome (vnode H) :=
  date ← get_prop details (lit "date");
  start_time ← get_prop details (lit "start_time");
  confirmation_code ← get_prop details (lit "confirmation_code");
  Done (Elem "div" [] None
          [ Elem "div" [] None
              [ Elem "h2" [] None
                  [Text (VStr ([55356; 57225] ++ lit " Appointment Confirmed!"))];
                Elem "div" [] None
                  [ Elem "p" [] None [Text (VStr ([55357; 56517] ++ lit " ")); Text date];
                    Elem "p" [] None [Text (VStr ([9200] ++ lit " ")); Text start_time];
                    Elem "p" [] None
                      [ Text (VStr ([55357; 56598] ++ lit " Confirmation: "));
                        Text confirmation_code ] ];
                Elem "button" [] (Some onClose) [Text (VStr (lit "Close"))] ] ]).

(** [{bookingDetails && (<BookingConfirmationModal ... />)}] in ChatScreen:
    the value of the expression is [bookingDetails] itself when that is
    falsy. *)
Definition booking_card (bookingDetails : value) : outcome (vnode handler) :=
  if truthy bookingDetails
  then BookingConfirmationModal bookingDetails onClose_booking
  else Done (Text bookingDetails).

(** *** SuggestionChips *)

Definition SuggestionChips {H} (suggestions : value) (onClick : value -> H)
  : outcome (option (vnode H)) :=
  len ← get_prop_opt suggestions (lit "length");
  if negb (truthy len) then Done None
  else
    chips ← array_map suggestions (fun s i =>
      Done (Keyed (of_nat i) (Elem "button" [] (Some (onClick s)) [Text s])));
    Done (Some (Elem "div" [] None chips)).

(** *** ChatInput *)

(** [onKeyDown={(e) => e.key === "Enter" && send()}], with the text state. *)
Definition ChatInput_onKeyDown {H} (key text : value) (onSend : value -> H)
  : outcome (option H * value) :=
  if strict_eq_str key (lit "Enter") then ChatInput_send text onSend
  else Done (None, text).

(** *** State that a run of setter calls leaves *)

(** The entries that the calls [setMessages((p) => [...p, m])] add. *)
Definition appended (us : list update) : list value :=
  flat_map (fun u => match u with setMessages_append m => [m] | _ => [] end) us.

(** Whether a call [setMessages(v)] with a value is among them. *)
Definition replaces (us : list update) : bool :=
  existsb (fun u => match u with setMessages _ => true | _ => false end) us.

Definition doctors_after (us : list update) (before : value) : value :=
  fold_left (fun v u => match u with setDoctors x => x | _ => v end) us before.

Definition bookingDetails_after (us : list update) (before : value) : value :=
  fold_left (fun v u => match u with setBookingDetails x => x | _ => v end) us before.

Definition loading_after (us : list update) (before : bool) : bool :=
  fold_left (fun v u => match u with setLoading x => x | _ => v end) us before.

(** What the setter calls of a settled turn are. *)
Inductive settled_body : list update -> Prop :=
  | body_apology : settled_body [setMessages_append apology]
  | body_none : settled_body []
  | body_reply m : settled_body [setMessages_append (bubble (lit "agent") m)]
  | body_slots m v :
      settled_body [setMessages_append (bubble (lit "agent") m); setSlots v]
  | body_booking m v :
      settled_body [setMessages_append (bubble (lit "agent") m); setBookingDetails v]
  | body_doctors m v :
      settled_body [setMessages_append (bubble (lit "agent") m); setDoctors v].

(** localStorage without the items that hold the empty string. *)
Definition drop_empty (ls : storage) : storage :=
  filter (fun kv => kv.2 <> []) ls.

End Views.

(** ** Rendering: comparisons, children, the screen and its effects *)

Module Display.
Import JS Client Views.

(** *** [x > 0] *)

(** Whether an object literal has an own property of that name. *)
Definition has_key (k : jsstr) (fields : list (jsstr * value)) : bool :=
  existsb (fun kv => bool_decide (kv.1 = k)) fields.

Definition digit (c : N) : option N :=
  if (48 <=? c) && (c <=? 57) then Some (c - 48) else None.

(** A digit of a literal in base 16, 8 or 2. *)
Definition digit_in (radix c : N) : option N :=
  let d := if (48 <=? c) && (c <=? 57) then Some (c - 48)
           else if (97 <=? c) && (c <=? 102) then Some (c - 87)
           else if (65 <=? c) && (c <=? 70) then Some (c - 55)
           else None in
  match d with
  | Some n => if n <? radix then Some n else None
  | None => None
  end.

(** The decimal digits that a string starts with, and the rest of it. *)
Fixpoint digits (s : jsstr) : list N * jsstr :=
  match s with
  | [] => ([], [])
  | c :: rest =>
      match digit c with
      | Some d => let '(ds, r) := digits rest in (d :: ds, r)
      | None => ([], s)
      end
  end.

Definition number_of (ds : list N) : Z :=
  fold_left (fun a d => (10 * a + Z.of_N d)%Z) ds 0%Z.

Definition is_nil {A} (l : list A) : bool :=
  match l with [] => true | _ => false end.

(** ExponentPart, or nothing, up to the end of the string. *)
Definition exponent_part (s : jsstr) : option Z :=
  match s with
  | [] => Some 0%Z
  | c :: r =>
      if (c =? 101) || (c =? 69) then
        let '(sign, r') :=
          match r with
          | d :: r' => if d =? 43 then (1%Z, r')
                       else if d =? 45 then ((-1)%Z, r')
                       else (1%Z, r)
          | [] => (1%Z, r)
          end in
        match digits r' with
        | (d :: ds, []) => Some (sign * number_of (d :: ds))%Z
        | _ => None
        end
      else None
  end.

(** StrUnsignedDecimalLiteral other than Infinity: the integer [m] that its
    digits spell and the power [e] of ten, for the value [m * 10^e]. *)
Definition unsigned_decimal (s : jsstr) : option (Z * Z) :=
  let '(int, r) := digits s in
  match r with
  | c :: r1 =>
      if c =? 46 then
        let '(frac, r2) := digits r1 in
        if is_nil int && is_nil frac then None
        else match exponent_part r2 with
             | Some e => Some (number_of (int ++ frac), (e - Z.of_nat (length frac))%Z)
             | None => None
             end
      else if is_nil int then None
      else match exponent_part r with
           | Some e => Some (number_of int, e)
           | None => None
           end
  | [] => if is_nil int then None else Some (number_of int, 0%Z)
  end.

(** Whether [m * 10^e] rounds to a Number above zero: it does unless it is
    at most half of the least positive Number, 2^-1074. *)
Definition rounds_positive (m e : Z) : bool :=
  (0 <? m)%Z
  && (if (0 <=? e)%Z then true else (10 ^ (- e) <? m * 2 ^ 1075)%Z).

(** NonDecimalIntegerLiteral ([0x], [0o], [0b]): whether it is one, and
    then whether it is above zero. *)
Definition radix_literal (s : jsstr) : option bool :=
  match s with
  | z :: c :: ds =>
      let radix := if (c =? 120) || (c =? 88) then 16
                   else if (c =? 111) || (c =? 79) then 8
                   else if (c =? 98) || (c =? 66) then 2
                   else 0 in
      if (z =? 48) && negb (radix =? 0) && negb (is_nil ds)
         && forallb (fun d => bool_decide (is_Some (digit_in radix d))) ds
      then Some (existsb (fun d => negb (d =? 48)) ds)
      else None
  | _ => None
  end.

(** Whether ToNumber of a string is above zero (StringToNumber: white
    space is stripped, the empty string is 0, what is no StrNumericLiteral
    is NaN). *)
Definition string_gt_zero (s : jsstr) : bool :=
  let t := trim s in
  if bool_decide (t = lit "Infinity") || bool_decide (t = lit "+Infinity") then true
  else
    match radix_literal t with
    | Some b => b
    | None =>
        let unsigned :=
          match t with
          | c :: r => if c =? 43 then Some r else if c =? 45 then None else Some t
          | [] => None
          end in
        match unsigned with
        | Some u =>
            match unsigned_decimal u with
            | Some (m, e) => rounds_positive m e
            | None => false
            end
        | None => false
        end
    end.

(** Whether converting a value to a string (['' + v]) throws: a plain
    object whose own [toString] (no function, in a JSON value) hides
    Object.prototype's; an array, when joining reaches such an object. *)
Fixpoint string_throws (v : value) : bool :=
  match v with
  | VObj fields => has_key (lit "toString") fields
  | VArr l => existsb string_throws l
  | _ => false
  end.

(** [x > 0]: ToPrimitive, then ToNumber.  An object is
    ["[object Object]"], hence NaN; an array is its elements joined by
    commas, hence a number only if it has one element, and then that
    element's ([undefined] and [null] join as the empty string, a number
    reads back as itself). *)
Fixpoint gt_zero (x : value) : outcome bool :=
  match x with
  | VUndefined | VNull => Done false
  | VBool b => Done b
  | VNum q => Done (negb (Qle_bool q 0))
  | VStr s => Done (string_gt_zero s)
  | VObj _ => if string_throws x then Thrown TypeError else Done false
  | VArr l =>
      if string_throws x then Thrown TypeError
      else match l with
           | [e] =>
               match e with
               | VNum q => Done (negb (Qle_bool q 0))
               | VStr s => Done (string_gt_zero s)
               | VArr _ => gt_zero e
               | _ => Done false
               end
           | _ => Done false
           end
  end.

(** *** What React accepts as a child *)

(** A string or a number is rendered as text, a boolean, [null] or
    [undefined] as nothing, an array as its elements; for any other object
    that is no element React throws (Objects are not valid as a React
    child). *)
Fixpoint valid_child (v : value) : bool :=
  match v with
  | VObj _ => false
  | VArr l => forallb valid_child l
  | _ => true
  end.

(** Whether React makes and mounts an element tree without throwing:
    every value among the children is one it accepts, and every key and
    every attribute converts to a string. *)
Fixpoint mounts {H} (n : vnode H) : bool :=
  match n with
  | Text v => valid_child v
  | Elem _ attrs _ children =>
      forallb (fun a => negb (string_throws a.2)) attrs && forallb mounts children
  | Keyed key child => negb (string_throws key) && mounts child
  end.

(** The property [k] of an item as a component reads it. *)
Definition read (item : value) (k : jsstr) : value :=
  match get_prop item k with
  | Done v => v
  | Thrown _ => VUndefined
  end.

(** *** ChatInput: the Send button *)

(** [onClick={send}] *)
Definition ChatInput_onClick {H} (text : value) (onSend : value -> H)
  : outcome (option H * value) :=
  ChatInput_send text onSend.

(** *** ChatScreen: what it renders of its state *)

(** [{slots.length > 0 && (<SlotSelector slots={slots} onSelect={sendUserMessage} />)}] *)
Definition slots_view (session slots : value) : outcome (vnode (outcome handler)) :=
  len ← get_prop slots (lit "length");
  some ← gt_zero len;
  if (some : bool)
  then o ← SlotSelector slots (fun text => Done (sendUserMessage session text));
       Done (default (Text VNull) o)
  else Done (Text (VBool false)).

(** [{doctors.length > 0 && (<DoctorList doctors={doctors} onSelect={...} />)}] *)
Definition doctors_view (session doctors : value)
  : outcome (vnode (outcome handler)) :=
  len ← get_prop doctors (lit "length");
  some ← gt_zero len;
  if (some : bool)
  then DoctorList doctors (onSelect_doctor session)
  else Done (Text (VBool false)).

(** [{loading && (<div ...>three dots</div>)}] *)
Definition loading_view (loading : bool) : vnode (outcome handler) :=
  if loading
  then Elem "div" [] None
         [Elem "div" [] None []; Elem "div" [] None []; Elem "div" [] None []]
  else Text (VBool false).

(** [{bookingDetails && (<BookingConfirmationModal details={bookingDetails} onClose={...} />)}] *)
Definition booking_view (bookingDetails : value)
  : outcome (vnode (outcome handler)) :=
  if truthy bookingDetails
  then BookingConfirmationModal bookingDetails (Done onClose_booking)
  else Done (Text bookingDetails).

(** The children of ChatScreen that depend on its state, in the order of
    the JSX: the hint and the bubbles, the slot buttons, the doctor cards,
    the loading dots, the booking card.  The header with the reset button,
    the scroll anchor, SuggestionChips (called without suggestions, it
    renders nothing) and ChatInput read nothing of the state. *)
Definition ChatScreen (s : state) : outcome (list (vnode (outcome handler))) :=
  '(hint, bubbles) ← transcript (messages s);
  selector ← slots_view (session s) (slots s);
  list ← doctors_view (session s) (doctors s);
  card ← booking_view (bookingDetails s);
  Done (from_option (fun h => [h]) [] hint ++ bubbles
        ++ [selector; list; loading_view (loading s); card]).

(** Rendering the state: ChatScreen returns its elements and React mounts
    them.  An exception of either unmounts the page (there is no error
    boundary).  [mounts] looks at children, keys and attributes; what else
    an entry of the transcript may spread into its bubble (a [ref]) is not
    looked at. *)
Definition display (s : state) : outcome () :=
  tree ← ChatScreen s;
  if forallb mounts tree then Done () else Thrown ReactError.

(** *** An event on the page *)

(** Which state a run of setter calls sets. *)
Definition sets_messages (us : list update) : bool :=
  existsb (fun u => match u with
                    | setMessages _ | setMessages_append _ => true
                    | _ => false
                    end) us.
Definition sets_slots (us : list update) : bool :=
  existsb (fun u => match u with setSlots _ => true | _ => false end) us.
Definition sets_booking (us : list update) : bool :=
  existsb (fun u => match u with setBookingDetails _ => true | _ => false end) us.
Definition sets_initialized (us : list update) : bool :=
  existsb (fun u => match u with setInitialized _ => true | _ => false end) us.

Definition is_response (e : event) : bool :=
  match e with Settle _ => true | _ => false end.

Section Page.

Variable JSON_stringify : value -> jsstr.

(** The persisting effects after a render, in the order they are declared.
    Each runs when one of its dependencies changed.  A call of a setter
    counts as a change of its state: React skips an effect only where the
    setter was called with the value its state has, and there the effect
    would store again what it stored when the state took that value. *)
Definition persisting (us : list update) (s : state) (ls : storage)
  : outcome storage :=
  let all := sets_initialized us in
  ls1 ← (if all || sets_messages us then persist_messages JSON_stringify s ls
         else Done ls);
  ls2 ← (if all || sets_slots us then persist_slots JSON_stringify s ls1
         else Done ls1);
  if all || sets_booking us then persist_booking JSON_stringify s ls2
  else Done ls2.

(** An event on the page, to the end: the handler ([step]), then, if it
    called a setter, the render of the new state and the persisting
    effects. *)
Definition page_step (e : event) (w : app) : outcome (app * list request) :=
  match on_event (session (screen w)) e with
  | Thrown _ => Done (w, [])
  | Done h =>
      let us := queued (h (localStorage w)) in
      '(w', reqs) ← run h w;
      if is_nil us then Done (w', reqs)
      else
        _ ← display (screen w');
        ls ← persisting us (screen w') (localStorage w');
        Done (App ls (screen w'), reqs)
  end.

(** A run of events, each on the page that the one before left, and the
    requests sent along it. *)
Fixpoint page_steps (es : list event) (w : app) : outcome (app * list request) :=
  match es with
  | [] => Done (w, [])
  | e :: rest =>
      '(w1, sent1) ← page_step e w;
      '(w2, sent2) ← page_steps rest w1;
      Done (w2, sent1 ++ sent2)
  end.

End Page.

(** The turns still awaiting their response after a run of events that
    sent [reqs]. *)
Definition in_flight (es : list event) (reqs : list request) : nat :=
  (length reqs - length (filter (fun e => is_response e = true) es))%nat.

End Display.

(** ** More sample data *)

Module Sample2.
Import JS Client.

(** JSON.stringify on what the restored page below persists, the empty
    array, and on [null]. *)
Definition stringify (v : value) : jsstr :=
  match v with
  | VArr [] => lit "[]"
  | _ => lit "null"
  end.

(** JSON.stringify, followed by the conversion to string that setItem
    applies, on the values that the client persists in the samples:
    strings, integers below 10^21, booleans, [null], and arrays and objects
    of such (no key of an object an array index or repeated).  A string is
    quoted with the escapes of QuoteJSONString; an [undefined] element of an
    array is written as null, an [undefined] property is left out. *)
Definition hex_digit (n : N) : N := if n <? 10 then 48 + n else 87 + n.

Definition quote_unit (c : N) : jsstr :=
  if c =? 8 then [92; 98]
  else if c =? 9 then [92; 116]
  else if c =? 10 then [92; 110]
  else if c =? 12 then [92; 102]
  else if c =? 13 then [92; 114]
  else if c =? 34 then [92; 34]
  else if c =? 92 then [92; 92]
  else if (c <? 32) || (is_high_surrogate c || is_low_surrogate c)
       then [92; 117; hex_digit (c / 4096); hex_digit ((c / 256) mod 16);
             hex_digit ((c / 16) mod 16); hex_digit (c mod 16)]
       else [c].

Definition quote (s : jsstr) : jsstr :=
  [34]
  ++ flat_map (fun cp => match cp with
                         | VStr [c] => quote_unit c
                         | VStr units => units
                         | _ => []
                         end) (code_points s)
  ++ [34].

Fixpoint join (parts : list jsstr) : jsstr :=
  match parts with
  | [] => []
  | [part] => part
  | part :: rest => part ++ [44] ++ join rest
  end.

Definition number_text (q : Q) : jsstr :=
  let r := Qred q in
  if (Qden r =? 1)%positive then lit (pretty (Qnum r)) else lit "null".

Fixpoint serialize (v : value) : jsstr :=
  match v with
  | VUndefined => lit "undefined"
  | VNull => lit "null"
  | VBool b => if b then lit "true" else lit "false"
  | VNum q => number_text q
  | VStr s => quote s
  | VArr l =>
      [91] ++ join (map (fun x => match x with
                                  | VUndefined => lit "null"
                                  | _ => serialize x
                                  end) l) ++ [93]
  | VObj fields =>
      [123] ++ join (flat_map (fun '(k, x) => match x with
                                              | VUndefined => []
                                              | _ => [quote k ++ [58] ++ serialize x]
                                              end) fields) ++ [125]
  end.

(** A page that was restored with an empty transcript stored. *)
Definition restored : app :=
  App (<[lit "session_id" := Sample.session_id]> ∅)
      (State (VStr Sample.session_id) (VArr []) (VArr []) VNull false true
             (VArr [Sample.doctor])).

(** A slot without start_time and a doctor without name. *)
Definition bare_slot : value := VObj [(lit "doctor_id", VNum 1)].
Definition bare_doctor : value := VObj [(lit "doctor_id", VNum 1)].

(** The reply of axios when the body has no [response]. *)
Definition empty_reply : value := VObj [(lit "data", VObj [])].

(** The reply of axios that carries the sample slots response. *)
Definition slots_reply : value :=
  VObj [(lit "data", VObj [(lit "response", Sample.slots_response)])].

(** A response with action slots that carries no slots, and the reply of
    axios with it. *)
Definition bare_slots_response : value :=
  VObj [ (lit "action", VStr (lit "slots"));
         (lit "message", VStr (lit "Here are the available slots.")) ].

Definition bare_slots_reply : value :=
  VObj [(lit "data", VObj [(lit "response", bare_slots_response)])].

(** The reply of axios that carries the sample doctors response. *)
Definition doctors_reply : value :=
  VObj [(lit "data", VObj [(lit "response", Sample.doctors_response)])].

End Sample2.

(** * Properties *)

(** ** Strings *)

Module JSFacts.
Import JS.

Lemma trimStart_nil (s : jsstr) : trimStart s = [] <-> blank s = true.
Proof.
  induction s as [|c s IH]; simpl; [tauto|].
  destruct (is_ws c); simpl; [exact IH|].
  split; discriminate.
Qed.

Lemma blank_app (s t : jsstr) : blank (s ++ t) = blank s && blank t.
Proof. apply forallb_app. Qed.

Lemma blank_rev (s : jsstr) : blank (rev s) = blank s.
Proof.
  induction s as [|c s IH]; simpl; [reflexivity|].
  rewrite blank_app, IH. simpl. rewrite andb_true_r. apply andb_comm.
Qed.

Lemma blank_trimStart (s : jsstr) : blank (trimStart s) = blank s.
Proof.
  induction s as [|c s IH]; simpl; [reflexivity|].
  destruct (is_ws c) eqn:E; simpl; [exact IH|].
  rewrite E. reflexivity.
Qed.

(** [text.trim()] is the empty string exactly for a text of whitespace. *)
Lemma trim_nil (s : jsstr) : trim s = [] <-> blank s = true.
Proof.
  unfold trim, trimEnd.
  rewrite <- (blank_trimStart s), <- (blank_rev (trimStart s)),
          <- trimStart_nil.
  split; intros E.
  - apply (f_equal (@rev N)) in E. rewrite rev_involutive in E. exact E.
  - rewrite E. reflexivity.
Qed.

Lemma trim_truthy (s : jsstr) : truthy (VStr (trim s)) = negb (blank s).
Proof.
  destruct (blank s) eqn:B.
  - apply trim_nil in B. rewrite B. reflexivity.
  - destruct (trim s) eqn:T; [|reflexivity].
    apply trim_nil in T. congruence.
Qed.

Lemma get_prop_Done (v : value) (k : jsstr) :
  nullish v = false -> exists a, get_prop v k = Done a.
Proof.
  destruct v; simpl; try discriminate; intros _; eauto.
  - destruct (bool_decide _); [eauto|]. destruct (array_index _ _); eauto.
  - destruct (bool_decide _); [eauto|]. destruct (array_index _ _); eauto.
Qed.

(** A non-empty array has a truthy length. *)
Lemma length_truthy (l : list value) :
  truthy (of_nat (length l)) = match l with [] => false | _ => true end.
Proof. destruct l; reflexivity. Qed.

(** [map] over an array on whose elements the callback does not throw. *)
Lemma mapM_index_Done {A B} (f : A -> nat -> outcome B) (l : list A) (k : nat) :
  (forall i x, l !! i = Some x -> exists y, f x (k + i)%nat = Done y) ->
  exists ys,
    mapM_index f l k = Done ys
    /\ forall i x, l !! i = Some x ->
         exists y, f x (k + i)%nat = Done y /\ ys !! i = Some y.
Proof.
  revert k. induction l as [|x l IH]; intros k Hf; simpl.
  - exists []. split; [reflexivity|]. intros i x E. discriminate.
  - destruct (Hf 0%nat x eq_refl) as [y Hy].
    rewrite Nat.add_0_r in Hy. rewrite Hy. simpl.
    destruct (IH (S k)) as (ys & E & Hys).
    { intros i z Hi. rewrite Nat.add_succ_comm. apply (Hf (S i)). exact Hi. }
    rewrite E. simpl. exists (y :: ys). split; [reflexivity|].
    intros [|i] z Hi; simpl in Hi.
    + injection Hi as <-. rewrite Nat.add_0_r. eauto.
    + destruct (Hys i z Hi) as (y' & F & L).
      rewrite Nat.add_succ_comm in F. eauto.
Qed.

Lemma get_prop_length (l : list value) :
  get_prop (VArr l) (lit "length") = Done (of_nat (length l)).
Proof. reflexivity. Qed.

(** [map] gives the same on two arrays whose elements the callback cannot
    tell apart. *)
Lemma mapM_index_ext {A B} (R : A -> A -> Prop) (f : A -> nat -> outcome B)
    (l1 l2 : list A) (k : nat) :
  (forall x y i, R x y -> f x i = f y i) ->
  Forall2 R l1 l2 -> mapM_index f l1 k = mapM_index f l2 k.
Proof.
  intros Hf F. revert k.
  induction F as [|x y l1 l2 Rxy F IH]; intros k; simpl; [reflexivity|].
  rewrite (Hf x y k Rxy), (IH (S k)). reflexivity.
Qed.

Lemma assoc_zip_absent (k : jsstr) (fields : list jsstr) (vs : list value) :
  ~ In k fields -> assoc k (zip fields vs) = VUndefined.
Proof.
  revert vs. induction fields as [|f fields IH]; intros vs N; [reflexivity|].
  destruct vs as [|v vs]; [reflexivity|]. simpl.
  rewrite bool_decide_eq_false_2 by (intros ->; apply N; left; reflexivity).
  apply IH. intros I. apply N. right. exact I.
Qed.

End JSFacts.

(** ** The chat client *)

Module ClientFacts.
Import JS Client JSFacts.

Lemma sendUserMessage_blank (session : value) (s : jsstr) (ls : storage) :
  blank s = true -> sendUserMessage session (VStr s) ls = Effects [] ls [].
Proof.
  intros B. unfold sendUserMessage, call_trim.
  rewrite trim_truthy, B. reflexivity.
Qed.

Lemma sendUserMessage_text (session : value) (s : jsstr) (ls : storage) :
  blank s = false ->
  sendUserMessage session (VStr s) ls =
    Effects [ setMessages_append (bubble (lit "user") (VStr s));
              setSlots (VArr []); setLoading true ]
            (removeItem (lit "chat_slots") ls)
            [useChat_post session (VStr s)].
Proof.
  intros B. unfold sendUserMessage, call_trim.
  rewrite trim_truthy, B. reflexivity.
Qed.

(** C8: submitting an empty or whitespace-only text changes nothing:
    ChatInput's [send] calls no handler and keeps its text, and
    [sendUserMessage] itself queues no state update, leaves localStorage as
    it is and sends no request, so the page is the same afterwards. *)
Theorem blank_submit_is_noop (s : jsstr) (w : app) :
  blank s = true ->
  ChatInput_send (VStr s) (sendUserMessage (session (screen w)))
    = Done (None, VStr s)
  /\ sendUserMessage (session (screen w)) (VStr s) (localStorage w)
    = Effects [] (localStorage w) []
  /\ step (Send (VStr s)) w = Done (w, []).
Proof.
  intros B. split; [|split].
  - unfold ChatInput_send, call_trim, mbind, outcome_bind.
    rewrite trim_truthy, B. reflexivity.
  - apply sendUserMessage_blank, B.
  - unfold step, run, on_event, mbind, outcome_bind.
    rewrite (sendUserMessage_blank _ _ _ B). destruct w. reflexivity.
Qed.

Lemma get_prop_defined (v : value) (k k' : jsstr) (a : value) :
  get_prop v k = Done a -> exists a', get_prop v k' = Done a'.
Proof.
  destruct v; simpl; try discriminate; intros _; eauto.
  - destruct (bool_decide _); [eauto|]. destruct (array_index _ _); eauto.
  - destruct (bool_decide _); [eauto|]. destruct (array_index _ _); eauto.
Qed.

Lemma strict_eq_str_true (v : value) (s : jsstr) :
  strict_eq_str v s = true -> v = VStr s.
Proof.
  destruct v; simpl; try discriminate.
  intros E. apply bool_decide_eq_true in E. congruence.
Qed.

(** The four tests of the [try] block exclude each other: its updates are
    those of the one action that matches, if any. *)
Lemma sendUserMessage_try_action (res action : value) :
  get_prop res (lit "action") = Done action ->
  exists m sl de dc,
    get_prop res (lit "message") = Done m
    /\ get_prop res (lit "slots") = Done sl
    /\ get_prop res (lit "details") = Done de
    /\ get_prop res (lit "doctors") = Done dc
    /\ sendUserMessage_try res = Done
         (if strict_eq_str action (lit "reply")
          then [setMessages_append (bubble (lit "agent") m)]
          else if strict_eq_str action (lit "slots")
          then [setMessages_append (bubble (lit "agent") m); setSlots sl]
          else if strict_eq_str action (lit "booking_confirmed")
          then [setMessages_append (bubble (lit "agent") m); setBookingDetails de]
          else if strict_eq_str action (lit "doctors")
          then [setMessages_append (bubble (lit "agent") m); setDoctors dc]
          else []).
Proof.
  intros A.
  destruct (get_prop_defined _ _ (lit "message") _ A) as [m M].
  destruct (get_prop_defined _ _ (lit "slots") _ A) as [sl SL].
  destruct (get_prop_defined _ _ (lit "details") _ A) as [de DE].
  destruct (get_prop_defined _ _ (lit "doctors") _ A) as [dc DC].
  exists m, sl, de, dc. repeat (split; [assumption|]).
  unfold sendUserMessage_try. rewrite A, M, SL, DE, DC.
  unfold mbind, outcome_bind.
  destruct (strict_eq_str action (lit "reply")) eqn:E1;
  destruct (strict_eq_str action (lit "slots")) eqn:E2;
  destruct (strict_eq_str action (lit "booking_confirmed")) eqn:E3;
  destruct (strict_eq_str action (lit "doctors")) eqn:E4;
  try reflexivity;
  repeat match goal with
         | E : strict_eq_str _ _ = true |- _ => apply strict_eq_str_true in E
         end;
  match goal with
  | E : ?a = VStr _, E' : ?a = VStr _ |- _ =>
      rewrite E in E'; vm_compute in E'; discriminate E'
  end.
Qed.

Ltac open_app w :=
  destruct w as [?ls [?se ?ms ?sl ?bd ?lo ?ini ?dc]]; simpl in *; subst.

(** A turn with a text that is not blank, up to the [await]. *)
Lemma step_send (s : jsstr) (l : list value) (w : app) :
  blank s = false -> messages (screen w) = VArr l ->
  step (Send (VStr s)) w =
    Done (App (removeItem (lit "chat_slots") (localStorage w))
              (State (session (screen w))
                     (VArr (l ++ [bubble (lit "user") (VStr s)]))
                     (VArr []) (bookingDetails (screen w)) true
                     (initialized (screen w)) (doctors (screen w))),
          [useChat_post (session (screen w)) (VStr s)]).
Proof.
  intros B M. unfold step, run, on_event, mbind, outcome_bind.
  rewrite (sendUserMessage_text _ _ _ B). open_app w. reflexivity.
Qed.

(** C1 (as amended): a response whose action is reply, slots,
    booking_confirmed or doctors adds the response's message to the
    transcript as one agent message; a response with any other action,
    cancelled among them, adds nothing to the transcript.  Of the five
    actions of the response contract the dispatch handles all but
    cancelled. *)
Theorem dispatch_shows_handled_actions
    (res action m : value) (l : list value) (w : app) :
  get_prop res (lit "action") = Done action ->
  get_prop res (lit "message") = Done m ->
  messages (screen w) = VArr l ->
  (exists w',
      run (sendUserMessage_settled (Fulfilled res)) w = Done (w', [])
      /\ messages (screen w') =
           VArr (l ++ if is_handled action then [bubble (lit "agent") m] else []))
  /\ (forall a : Response.Action,
        is_handled (VStr (Response.action_name a)) =
          match a with Response.cancelled => false | _ => true end).
Proof.
  intros A M L. split; [|intros []; reflexivity].
  destruct (sendUserMessage_try_action res action A)
    as (m' & sl' & de & dc' & M' & _ & _ & _ & T).
  assert (m' = m) by congruence. subst m'.
  unfold run, sendUserMessage_settled. cbn [queued stored sent].
  rewrite T. unfold is_handled, handled_actions. cbn [existsb].
  open_app w.
  destruct (strict_eq_str action (lit "reply"));
    [eexists; split; reflexivity|].
  destruct (strict_eq_str action (lit "slots"));
    [eexists; split; reflexivity|].
  destruct (strict_eq_str action (lit "booking_confirmed"));
    [eexists; split; reflexivity|].
  destruct (strict_eq_str action (lit "doctors"));
    [eexists; split; reflexivity|].
  eexists; split; [reflexivity|]. simpl. rewrite app_nil_r. reflexivity.
Qed.

(** C1 (as stated) fails: a response with action cancelled, one of the
    five actions of the response contract, leaves the transcript as it was;
    its message is not shown. *)
Lemma cancelled_action_is_not_shown :
  let res := VObj [ (lit "action", VStr (Response.action_name Response.cancelled));
                    (lit "message", VStr (lit "Appointment cancelled successfully.")) ] in
  let w := App ∅ (State (VStr (lit "s-1")) (VArr [greeting]) (VArr []) VNull
                        true true (VArr [])) in
  exists w',
    run (sendUserMessage_settled (Fulfilled res)) w = Done (w', [])
    /\ messages (screen w') = VArr [greeting]
    /\ messages (screen w') <>
         VArr [greeting;
               bubble (lit "agent") (VStr (lit "Appointment cancelled successfully."))].
Proof.
  cbv zeta. eexists. split; [vm_compute; reflexivity|].
  split; [reflexivity|]. vm_compute. discriminate.
Qed.

(** The [try] block throws only on a response that is [undefined] or
    [null], at its first read, before any setter is called. *)
Lemma sendUserMessage_try_Thrown (res : value) (e : exn) :
  sendUserMessage_try res = Thrown e -> nullish res = true.
Proof.
  intros T. destruct (get_prop res (lit "action")) as [action|] eqn:A.
  - destruct (sendUserMessage_try_action res action A)
      as (? & ? & ? & ? & _ & _ & _ & _ & T').
    congruence.
  - destruct (nullish res) eqn:N; [reflexivity|].
    destruct (get_prop_Done res (lit "action") N) as [a A']. congruence.
Qed.

(** C3: when the request of a turn is rejected (axios rejects, or the
    reply has no body to read [response] from), the transcript gains the
    apology as its one new message, nothing else of the page changes but
    the loading flag, and a next turn posts under the same session. *)
Theorem rejected_turn_apologises (http : settled) (e : exn) (l : list value)
    (w : app) :
  useChat_return http = Rejected e ->
  messages (screen w) = VArr l ->
  exists w',
    step (Settle http) w = Done (w', [])
    /\ messages (screen w') =
         VArr (l ++ [bubble (lit "agent")
                       (VStr (lit "Sorry, something went wrong. Please try again."))])
    /\ session (screen w') = session (screen w)
    /\ localStorage w' = localStorage w
    /\ slots (screen w') = slots (screen w)
    /\ doctors (screen w') = doctors (screen w)
    /\ bookingDetails (screen w') = bookingDetails (screen w)
    /\ forall s, blank s = false ->
         exists w'',
           step (Send (VStr s)) w' =
             Done (w'', [useChat_post (session (screen w)) (VStr s)]).
Proof.
  intros R L.
  assert (S : step (Settle http) w = run (sendUserMessage_settled (Rejected e)) w).
  { unfold step, on_event. rewrite R. reflexivity. }
  rewrite S. clear S R.
  open_app w. eexists. split; [reflexivity|].
  simpl. repeat (split; [reflexivity|]).
  intros s B. eexists.
  erewrite step_send; [reflexivity|exact B|reflexivity].
Qed.

(** C4: a turn with a text that is not blank sends one request, a POST to
    the chat endpoint whose body has the two fields message and session_id,
    holding the text and the session; and what the dispatch of
    [sendUserMessage] receives is the field [response] of the reply body. *)
Theorem one_call_per_turn (s : jsstr) (l : list value) (w : app) :
  blank s = false ->
  messages (screen w) = VArr l ->
  (exists w',
      step (Send (VStr s)) w =
        Done (w', [POST (lit "http://localhost:8000/api/chat")
                        (VObj [(lit "message", VStr s);
                               (lit "session_id", session (screen w))])]))
  /\ (forall res data response,
        get_prop res (lit "data") = Done data ->
        get_prop data (lit "response") = Done response ->
        on_event (session (screen w)) (Settle (Fulfilled res)) =
          Done (sendUserMessage_settled (Fulfilled response))).
Proof.
  intros B L. split.
  - eexists. rewrite (step_send s l w B L). reflexivity.
  - intros res data response D R. unfold on_event, useChat_return.
    rewrite D. unfold mbind, outcome_bind. rewrite R. reflexivity.
Qed.

Lemma commit_slots (us : list update) (s s' : state) :
  commit us s = Done s' -> slots s' = slots_after us (slots s).
Proof.
  revert s. induction us as [|u us IH]; intros s; simpl.
  - intros [= <-]. reflexivity.
  - destruct (apply_update u s) as [s1|] eqn:U; simpl; [|discriminate].
    intros C. rewrite (IH _ C). f_equal.
    destruct u; simpl in U;
      try (destruct (spread (messages s)); simpl in U; [|discriminate]);
      injection U as <-; reflexivity.
Qed.

Lemma run_slots (h : handler) (w w' : app) (reqs : list request) :
  run h w = Done (w', reqs) ->
  slots (screen w') = slots_after (queued (h (localStorage w))) (slots (screen w)).
Proof.
  unfold run, mbind, outcome_bind.
  destruct (commit _ _) as [s|] eqn:C; [|discriminate].
  intros [= <- _]. exact (commit_slots _ _ _ C).
Qed.

Lemma sendUserMessage_slots (session text : value) (ls : storage) (v : value) :
  slots_after (queued (sendUserMessage session text ls)) v = v
  \/ slots_after (queued (sendUserMessage session text ls)) v = VArr [].
Proof.
  unfold sendUserMessage.
  destruct (call_trim text); [|left; reflexivity].
  destruct (negb _); [left|right]; reflexivity.
Qed.

(** The slot list after an event: as before, empty, or the slots of a
    response with action slots. *)
Lemma step_slots (e : event) (w1 w2 : app) (reqs : list request) :
  step e w1 = Done (w2, reqs) ->
  slots (screen w2) = slots (screen w1)
  \/ slots (screen w2) = VArr []
  \/ exists http res,
       e = Settle http
       /\ useChat_return http = Fulfilled res
       /\ get_prop res (lit "action") = Done (VStr (lit "slots"))
       /\ get_prop res (lit "slots") = Done (slots (screen w2)).
Proof.
  intros H. unfold step in H.
  destruct e as [text|d|http|]; cbn [on_event] in H.
  - apply run_slots in H. rewrite H.
    destruct (sendUserMessage_slots (session (screen w1)) text
                (localStorage w1) (slots (screen w1))); auto.
  - unfold onSelect_doctor, mbind, outcome_bind in H.
    destruct (get_prop d (lit "name")) as [name|];
      [|injection H as <- _; left; reflexivity].
    apply run_slots in H. rewrite H. cbn [queued].
    unfold slots_after. rewrite fold_left_app. simpl.
    destruct (sendUserMessage_slots (session (screen w1)) name
                (localStorage w1) (slots (screen w1))); auto.
  - apply run_slots in H. rewrite H.
    unfold sendUserMessage_settled. cbn [queued].
    destruct (useChat_return http) as [res|] eqn:R; [|left; reflexivity].
    destruct (get_prop res (lit "action")) as [action|] eqn:A.
    + destruct (sendUserMessage_try_action res action A)
        as (m & sl & de & dc & _ & SL & _ & _ & T).
      rewrite T.
      destruct (strict_eq_str action (lit "reply")); [left; reflexivity|].
      destruct (strict_eq_str action (lit "slots")) eqn:E.
      * right; right. exists http, res.
        apply strict_eq_str_true in E. subst action. auto.
      * destruct (strict_eq_str action (lit "booking_confirmed"));
          [left; reflexivity|].
        destruct (strict_eq_str action (lit "doctors")); left; reflexivity.
    + unfold sendUserMessage_try. rewrite A. left; reflexivity.
  - apply run_slots in H. rewrite H. left; reflexivity.
Qed.

Lemma DoctorCard_Done {H} (d : value) (onSelect : value -> H) :
  nullish d = false ->
  exists attrs kids,
    DoctorCard d onSelect = Done (Elem "div" attrs (Some (onSelect d)) kids).
Proof.
  intros N. unfold DoctorCard.
  destruct (get_prop_Done d (lit "image") N) as [? ->].
  destruct (get_prop_Done d (lit "name") N) as [? ->].
  destruct (get_prop_Done d (lit "specialization") N) as [? ->].
  destruct (get_prop_Done d (lit "rating") N) as [? ->].
  simpl. eauto.
Qed.

(** The card of every doctor of a list calls [onSelect] with that doctor. *)
Lemma DoctorList_cards {H} (ds : list value) (onSelect : value -> H) :
  ds <> [] ->
  Forall (fun d => nullish d = false) ds ->
  exists cards,
    DoctorList (VArr ds) onSelect = Done (Elem "div" [] None cards)
    /\ forall i d, ds !! i = Some d ->
         exists key attrs kids,
           cards !! i = Some (Keyed key (Elem "div" attrs (Some (onSelect d)) kids)).
Proof.
  intros NE F. destruct ds as [|d0 ds0]; [congruence|].
  unfold DoctorList.
  assert (E0 : (if negb (truthy (VArr (d0 :: ds0))) then Done true
                else len ← get_prop (VArr (d0 :: ds0)) (lit "length");
                     Done (strict_eq_zero len)) = Done false) by reflexivity.
  rewrite E0. clear E0. unfold mbind at 1, outcome_bind at 1.
  unfold array_map.
  destruct (mapM_index_Done
              (fun (doc : value) (_ : nat) =>
                 key ← get_prop doc (lit "id");
                 card ← DoctorCard doc onSelect;
                 Done (Keyed key card)) (d0 :: ds0) 0) as (cards & E & Hc).
  { intros i x Hi. apply (proj1 (Forall_lookup _ _) F) in Hi.
    destruct (get_prop_Done x (lit "id") Hi) as [key ->].
    destruct (DoctorCard_Done x onSelect Hi) as (attrs & kids & ->).
    simpl. eauto. }
  rewrite E. exists cards. split; [reflexivity|].
  intros i d Hi. destruct (Hc i d Hi) as (y & Fy & Ly).
  apply (proj1 (Forall_lookup _ _) F) in Hi.
  destruct (get_prop_Done d (lit "id") Hi) as [key K].
  destruct (DoctorCard_Done d onSelect Hi) as (attrs & kids & C).
  rewrite K, C in Fy. simpl in Fy. injection Fy as <-. eauto.
Qed.

(** The button of every slot of a list calls [onSelect] with the slot's
    start_time. *)
Lemma SlotSelector_buttons {H} (ss : list value) (onSelect : value -> H) :
  ss <> [] ->
  Forall (fun slot => nullish slot = false) ss ->
  exists buttons,
    SlotSelector (VArr ss) onSelect = Done (Some (Elem "div" [] None buttons))
    /\ forall i slot, ss !! i = Some slot ->
         exists start_time kids,
           get_prop slot (lit "start_time") = Done start_time
           /\ buttons !! i =
                Some (Keyed (of_nat i)
                        (Elem "button" [] (Some (onSelect start_time)) kids)).
Proof.
  intros NE F. destruct ss as [|s0 ss0]; [congruence|].
  unfold SlotSelector.
  assert (E0 : get_prop_opt (VArr (s0 :: ss0)) (lit "length")
               = Done (of_nat (length (s0 :: ss0)))) by reflexivity.
  rewrite E0. clear E0. unfold mbind at 1, outcome_bind at 1.
  rewrite length_truthy. cbn [negb].
  unfold array_map.
  destruct (mapM_index_Done
              (fun (slot : value) (i : nat) =>
                 start_time ← get_prop slot (lit "start_time");
                 doctor_name ← get_prop slot (lit "doctor_name");
                 Done (Keyed (of_nat i)
                         (Elem "button" [] (Some (onSelect start_time))
                            [ Elem "div" [] None
                                [ Elem "p" [] None [Text start_time];
                                  Elem "p" [] None [Text doctor_name] ];
                              Elem "span" [] None [Text (VStr (lit "Select"))] ])))
              (s0 :: ss0) 0) as (buttons & E & Hb).
  { intros i x Hi. apply (proj1 (Forall_lookup _ _) F) in Hi.
    destruct (get_prop_Done x (lit "start_time") Hi) as [? ->].
    destruct (get_prop_Done x (lit "doctor_name") Hi) as [? ->].
    simpl. eauto. }
  rewrite E. exists buttons. split; [reflexivity|].
  intros i slot Hi. destruct (Hb i slot Hi) as (y & Fy & Ly).
  apply (proj1 (Forall_lookup _ _) F) in Hi.
  destruct (get_prop_Done slot (lit "start_time") Hi) as [st S].
  destruct (get_prop_Done slot (lit "doctor_name") Hi) as [dn D].
  rewrite S, D in Fy. simpl in Fy. injection Fy as <-. eauto.
Qed.

(** C10: the card of a doctor of the displayed list, when selected, sends
    that doctor's name as the text of a turn and empties the doctor list;
    the button of a slot of the displayed list, when selected, sends that
    slot's start_time as the text of a turn.  Both go through
    [sendUserMessage], as a typed text does. *)
Theorem selection_forwards_text (w : app) (l xs : list value) (i : nat)
    (x : value) (t : jsstr) :
  messages (screen w) = VArr l ->
  xs !! i = Some x ->
  Forall (fun v => nullish v = false) xs ->
  blank t = false ->
  (get_prop x (lit "name") = Done (VStr t) ->
   exists cards key attrs kids h w',
     DoctorList (VArr xs) (onSelect_doctor (session (screen w)))
       = Done (Elem "div" [] None cards)
     /\ cards !! i = Some (Keyed key (Elem "div" attrs (Some (Done h)) kids))
     /\ run h w = Done (w', [useChat_post (session (screen w)) (VStr t)])
     /\ step (SelectDoctor x) w = run h w
     /\ messages (screen w') = VArr (l ++ [bubble (lit "user") (VStr t)])
     /\ doctors (screen w') = VArr [])
  /\ (get_prop x (lit "start_time") = Done (VStr t) ->
      exists buttons kids w',
        SlotSelector (VArr xs) (sendUserMessage (session (screen w)))
          = Done (Some (Elem "div" [] None buttons))
        /\ buttons !! i =
             Some (Keyed (of_nat i)
                     (Elem "button" []
                        (Some (sendUserMessage (session (screen w)) (VStr t))) kids))
        /\ run (sendUserMessage (session (screen w)) (VStr t)) w
             = Done (w', [useChat_post (session (screen w)) (VStr t)])
        /\ step (Send (VStr t)) w
             = run (sendUserMessage (session (screen w)) (VStr t)) w
        /\ messages (screen w') = VArr (l ++ [bubble (lit "user") (VStr t)])).
Proof.
  intros L X F B.
  assert (NE : xs <> []) by (intros ->; discriminate).
  pose proof (step_send t l w B L) as E.
  destruct w as [ls [se ms sl bd lo ini dc]].
  cbn [screen session messages localStorage bookingDetails initialized doctors] in *.
  subst ms.
  set (w := App ls (State se (VArr l) sl bd lo ini dc)) in *.
  split; intros P.
  - destruct (DoctorList_cards xs (onSelect_doctor se) NE F) as (cards & R & C).
    destruct (C i x X) as (key & attrs & kids & K).
    unfold onSelect_doctor in K at 1. rewrite P in K.
    unfold mbind, outcome_bind in K.
    eexists cards, key, attrs, kids, _, _.
    split; [exact R|]. split; [exact K|].
    assert (S : step (SelectDoctor x) w
                = run (fun ls =>
                         let e := sendUserMessage se (VStr t) ls in
                         Effects (queued e ++ [setDoctors (VArr [])]) (stored e) (sent e)) w).
    { unfold step, on_event, onSelect_doctor. cbn [w screen session].
      rewrite P. reflexivity. }
    rewrite S. unfold run. cbn zeta.
    rewrite (sendUserMessage_text _ _ _ B). cbn [queued stored sent].
    repeat split; reflexivity.
  - destruct (SlotSelector_buttons xs (sendUserMessage se) NE F)
      as (buttons & R & C).
    destruct (C i x X) as (st & kids & S & K).
    assert (st = VStr t) by congruence. subst st.
    eexists buttons, kids, _.
    split; [exact R|]. split; [exact K|].
    assert (S' : step (Send (VStr t)) w = run (sendUserMessage se (VStr t)) w)
      by reflexivity.
    rewrite <- S', E. repeat split; reflexivity.
Qed.

Ltac in_fields := simpl; repeat first [left; reflexivity | right].

Lemma SlotSelector_reads {H} (onSelect : value -> H) :
  reads_only slot_reads (fun ss => SlotSelector (VArr ss) onSelect).
Proof.
  intros l1 l2 F. unfold SlotSelector, get_prop_opt.
  rewrite !get_prop_length, (Forall2_length _ _ _ F).
  unfold array_map.
  rewrite (mapM_index_ext (agree_on slot_reads) _ l1 l2 0); [reflexivity| |exact F].
  intros x y i A.
  rewrite (A (lit "start_time")) by in_fields.
  rewrite (A (lit "doctor_name")) by in_fields.
  reflexivity.
Qed.

Lemma DoctorCard_reads {H} (onSelect : value -> H) (d1 d2 : value) :
  agree_on doctor_reads d1 d2 -> onSelect d1 = onSelect d2 ->
  DoctorCard d1 onSelect = DoctorCard d2 onSelect.
Proof.
  intros A S. unfold DoctorCard.
  rewrite (A (lit "image")) by in_fields.
  rewrite (A (lit "name")) by in_fields.
  rewrite (A (lit "specialization")) by in_fields.
  rewrite (A (lit "rating")) by in_fields.
  rewrite S. reflexivity.
Qed.

Lemma DoctorList_reads {H} (onSelect : value -> H) :
  (forall d1 d2, agree_on doctor_reads d1 d2 -> onSelect d1 = onSelect d2) ->
  reads_only doctor_reads (fun ds => DoctorList (VArr ds) onSelect).
Proof.
  intros S l1 l2 F. unfold DoctorList.
  rewrite !get_prop_length, (Forall2_length _ _ _ F).
  unfold array_map.
  rewrite (mapM_index_ext (agree_on doctor_reads) _ l1 l2 0); [reflexivity| |exact F].
  intros x y i A.
  rewrite (A (lit "id")) by in_fields.
  rewrite (DoctorCard_reads onSelect x y A (S x y A)). reflexivity.
Qed.

Lemma onSelect_doctor_reads (session d1 d2 : value) :
  agree_on doctor_reads d1 d2 ->
  onSelect_doctor session d1 = onSelect_doctor session d2.
Proof.
  intros A. unfold onSelect_doctor.
  rewrite (A (lit "name")) by in_fields. reflexivity.
Qed.

(** C6 (as amended): of a slot the slot buttons read start_time and
    doctor_name and nothing else; of a doctor the doctor list and its
    cards, with the handler ChatScreen gives them, read id, image, name,
    specialization and rating and nothing else.  The fields doctor_name,
    image and id are outside the shapes of the response contract: on a slot
    or a doctor that carries exactly the fields of its shape they read as
    undefined. *)
Theorem components_read_listed_fields :
  (forall H (onSelect : value -> H),
      reads_only slot_reads (fun ss => SlotSelector (VArr ss) onSelect))
  /\ (forall session : value,
        reads_only doctor_reads
          (fun ds => DoctorList (VArr ds) (onSelect_doctor session)))
  /\ (forall slot, Response.has_shape Response.slot_fields slot ->
        get_prop slot (lit "doctor_name") = Done VUndefined)
  /\ (forall doctor, Response.has_shape Response.doctor_fields doctor ->
        get_prop doctor (lit "image") = Done VUndefined
        /\ get_prop doctor (lit "id") = Done VUndefined).
Proof.
  split; [|split; [|split]].
  - intros H onSelect. apply SlotSelector_reads.
  - intros session. apply DoctorList_reads.
    intros d1 d2. apply onSelect_doctor_reads.
  - intros slot (vs & _ & ->). cbn [get_prop]. f_equal.
    apply assoc_zip_absent. vm_compute. intuition discriminate.
  - intros doctor (vs & _ & ->). cbn [get_prop].
    split; f_equal; apply assoc_zip_absent; vm_compute; intuition discriminate.
Qed.

(** C6 (as stated) fails: two slots with the same start_time, end_time,
    doctor_id and available are rendered differently when their
    doctor_name differs, and two doctors with the same doctor_id, name,
    specialization and rating are rendered differently when their image
    differs. *)
Lemma components_read_outside_shapes :
  let slot (doctor_name : string) :=
    VObj [ (lit "start_time", VStr (lit "09:00"));
           (lit "end_time", VStr (lit "09:30"));
           (lit "doctor_id", VNum 1);
           (lit "available", VBool true);
           (lit "doctor_name", VStr (lit doctor_name)) ] in
  let doctor (image : string) :=
    VObj [ (lit "doctor_id", VNum 1);
           (lit "name", VStr (lit "Dr. Ashik Arya"));
           (lit "specialization", VStr (lit "General Physician"));
           (lit "rating", VNum (47 # 10));
           (lit "image", VStr (lit image)) ] in
  (agree_on Response.slot_fields (slot "Dr. Ashik Arya") (slot "Dr. Meera Nair")
   /\ SlotSelector (VArr [slot "Dr. Ashik Arya"]) (fun v => v)
      <> SlotSelector (VArr [slot "Dr. Meera Nair"]) (fun v => v))
  /\ (agree_on Response.doctor_fields (doctor "/a.png") (doctor "/b.png")
      /\ DoctorList (VArr [doctor "/a.png"]) (fun v => v)
         <> DoctorList (VArr [doctor "/b.png"]) (fun v => v)).
Proof.
  cbv zeta. split; split.
  - intros k I. simpl in I.
    repeat (destruct I as [<-|I]; [reflexivity|]). destruct I.
  - vm_compute. discriminate.
  - intros k I. simpl in I.
    repeat (destruct I as [<-|I]; [reflexivity|]). destruct I.
  - vm_compute. discriminate.
Qed.

Ltac storage_lookup :=
  unfold getItem, setItem, removeItem;
  repeat first
    [ rewrite lookup_insert_eq
    | rewrite lookup_delete_eq
    | rewrite lookup_insert_ne by (vm_compute; discriminate)
    | rewrite lookup_delete_ne by (vm_compute; discriminate) ].

Lemma clearChat_lookup (ls : storage) (k : jsstr) :
  In k [lit "session_id"; lit "chat_messages"; lit "chat_slots"; lit "chat_booking"] ->
  clearChat ls !! k = None.
Proof.
  intros I. simpl in I. unfold clearChat.
  repeat (destruct I as [<-|I]; [storage_lookup; reflexivity|]). destruct I.
Qed.

Lemma useState_session_other (uuid : jsstr) (ls : storage) (k : jsstr) :
  k <> lit "session_id" -> snd (useState_session uuid ls) !! k = ls !! k.
Proof.
  intros N. unfold useState_session.
  destruct (negb _); [|reflexivity]. simpl. unfold setItem.
  apply lookup_insert_ne. congruence.
Qed.

Section Reload.

Variable JSON_parse : value -> outcome value.
Variable JSON_stringify : value -> jsstr.

(** The persisting effects write chat_messages, chat_slots and
    chat_booking and no other item. *)
Lemma persist_other_items (s : state) (ls ls' : storage) (k : jsstr) :
  ~ In k [lit "chat_messages"; lit "chat_slots"; lit "chat_booking"] ->
  persist_messages JSON_stringify s ls = Done ls'
  \/ persist_slots JSON_stringify s ls = Done ls'
  \/ persist_booking JSON_stringify s ls = Done ls' ->
  ls' !! k = ls !! k.
Proof.
  intros N. simpl in N.
  unfold persist_messages, persist_slots, persist_booking, setItem,
         mbind, outcome_bind.
  destruct (negb (initialized s)); [intros [H|[H|H]]; congruence|].
  intros [H|[H|H]].
  - destruct (get_prop (messages s) _); [|discriminate].
    injection H as <-. apply lookup_insert_ne. tauto.
  - destruct (get_prop (slots s) _); [|discriminate].
    injection H as <-. apply lookup_insert_ne. tauto.
  - destruct (truthy (bookingDetails s)); injection H as <-;
      [apply lookup_insert_ne; tauto|reflexivity].
Qed.

(** After a send on a restored page, what the persisting effect stores
    under chat_slots is the empty list. *)
Lemma persist_slots_after_send (s : jsstr) (l : list value) (w : app) :
  blank s = false ->
  messages (screen w) = VArr l ->
  initialized (screen w) = true ->
  exists w' reqs,
    step (Send (VStr s)) w = Done (w', reqs)
    /\ persist_slots JSON_stringify (screen w') (localStorage w')
       = Done (setItem (lit "chat_slots") (JSON_stringify (VArr []))
                       (localStorage w')).
Proof.
  intros B L I. eexists _, _. rewrite (step_send s l w B L).
  split; [reflexivity|].
  unfold persist_slots. cbn [screen initialized slots localStorage].
  rewrite I. reflexivity.
Qed.

(** The slot list after a response with action slots was handled. *)
Lemma step_slots_response (http : settled) (res sl : value) (w1 w2 : app)
    (reqs : list request) :
  useChat_return http = Fulfilled res ->
  get_prop res (lit "action") = Done (VStr (lit "slots")) ->
  get_prop res (lit "slots") = Done sl ->
  step (Settle http) w1 = Done (w2, reqs) ->
  slots (screen w2) = sl /\ reqs = [].
Proof.
  intros R A S St.
  destruct (sendUserMessage_try_action res _ A)
    as (m & sl' & de & dc & _ & Hs & _ & _ & T).
  assert (sl' = sl) by congruence. subst sl'.
  unfold step in St. cbn [on_event] in St.
  split.
  - apply run_slots in St. rewrite St.
    unfold sendUserMessage_settled. rewrite R, T. reflexivity.
  - unfold run, mbind, outcome_bind in St.
    destruct (commit _ _); [|discriminate St].
    injection St as _ <-. reflexivity.
Qed.

(** C9 (as amended): a send with a text that is not blank leaves, at its
    [await], an empty slot list on the screen and no chat_slots item in
    localStorage, and what the persisting effect then stores under
    chat_slots is the empty list.  No event but an arriving response makes
    an empty slot list other than empty.  An event changes the slot list
    only by emptying it, except a response with action slots, which sets it
    to the slots it carries; every such response does, whichever turn it
    answers. *)
Theorem send_empties_slots_until_response (s : jsstr) (l : list value) (w : app) :
  blank s = false ->
  messages (screen w) = VArr l ->
  (exists w',
      step (Send (VStr s)) w = Done (w', [useChat_post (session (screen w)) (VStr s)])
      /\ slots (screen w') = VArr []
      /\ localStorage w' !! lit "chat_slots" = None
      /\ (initialized (screen w) = true ->
          persist_slots JSON_stringify (screen w') (localStorage w')
          = Done (setItem (lit "chat_slots") (JSON_stringify (VArr []))
                          (localStorage w'))))
  /\ (forall e w1 w2 reqs,
        step e w1 = Done (w2, reqs) ->
        (forall http, e <> Settle http) ->
        slots (screen w1) = VArr [] ->
        slots (screen w2) = VArr [])
  /\ (forall e w1 w2 reqs,
        step e w1 = Done (w2, reqs) ->
        slots (screen w2) = slots (screen w1)
        \/ slots (screen w2) = VArr []
        \/ exists http res,
             e = Settle http
             /\ useChat_return http = Fulfilled res
             /\ get_prop res (lit "action") = Done (VStr (lit "slots"))
             /\ get_prop res (lit "slots") = Done (slots (screen w2)))
  /\ (forall http res sl w1 w2 reqs,
        useChat_return http = Fulfilled res ->
        get_prop res (lit "action") = Done (VStr (lit "slots")) ->
        get_prop res (lit "slots") = Done sl ->
        step (Settle http) w1 = Done (w2, reqs) ->
        slots (screen w2) = sl /\ reqs = []).
Proof.
  intros B L. split; [|split; [|split; [exact step_slots|exact step_slots_response]]].
  - eexists. rewrite (step_send s l w B L). split; [reflexivity|].
    split; [reflexivity|]. split; [apply lookup_delete_eq|].
    intros I. unfold persist_slots. cbn [screen initialized slots localStorage].
    rewrite I. reflexivity.
  - intros e w1 w2 reqs St N E.
    destruct (step_slots e w1 w2 reqs St) as [K|[K|(http & res & -> & _)]].
    + congruence.
    + exact K.
    + exfalso. exact (N http eq_refl).
Qed.

(** C5 (as amended): [clearChat] removes the four items; the page it reloads
    takes as its session whatever [crypto.randomUUID()] returns, stores it
    under session_id and posts the next turn under it.  The code compares
    nothing: the session differs from the one discarded exactly when the
    UUID returned does.  A page that loads with a stored session takes
    that one and leaves it stored. *)
Theorem reset_takes_session_from_randomUUID (uuid : jsstr) (w : app) :
  (forall k, In k [lit "session_id"; lit "chat_messages"; lit "chat_slots";
                   lit "chat_booking"] ->
             clearChat (localStorage w) !! k = None)
  /\ (exists w',
        clearChat_reload JSON_parse uuid w = Done w'
        /\ session (screen w') = VStr uuid
        /\ (session (screen w') <> session (screen w)
            <-> VStr uuid <> session (screen w))
        /\ localStorage w' !! lit "session_id" = Some uuid
        /\ forall s, blank s = false ->
             exists w'',
               step (Send (VStr s)) w' =
                 Done (w'', [useChat_post (VStr uuid) (VStr s)]))
  /\ (forall (ls : storage) (id uuid' : jsstr),
        ls !! lit "session_id" = Some id -> id <> [] ->
        useState_session uuid' ls = (VStr id, ls)
        /\ forall w', page_load JSON_parse uuid' ls = Done w' ->
              session (screen w') = VStr id
              /\ localStorage w' !! lit "session_id" = Some id).
Proof.
  split; [|split].
  - intros k. apply clearChat_lookup.
  - unfold clearChat_reload, page_load, useState_session, getItem.
    rewrite (clearChat_lookup _ (lit "session_id")) by in_fields.
    cbn [truthy negb]. unfold restore_effect, getItem, setItem.
    rewrite !lookup_insert_ne by (vm_compute; discriminate).
    rewrite (clearChat_lookup _ (lit "chat_messages")) by in_fields.
    rewrite (clearChat_lookup _ (lit "chat_slots")) by in_fields.
    rewrite (clearChat_lookup _ (lit "chat_booking")) by in_fields.
    eexists. split; [reflexivity|]. cbn [screen session localStorage].
    split; [reflexivity|]. split; [reflexivity|].
    split; [apply lookup_insert_eq|].
    intros s B. eexists.
    erewrite step_send; [reflexivity|exact B|reflexivity].
  - intros ls id uuid' S N.
    assert (U : useState_session uuid' ls = (VStr id, ls)).
    { unfold useState_session, getItem. rewrite S.
      destruct id; [congruence|reflexivity]. }
    split; [exact U|].
    intros w' P. unfold page_load in P. rewrite U in P.
    unfold mbind, outcome_bind in P.
    destruct (restore_effect JSON_parse ls) as [us|]; [|discriminate].
    destruct (commit us (first_render (VStr id))) as [st|] eqn:C; [|discriminate].
    injection P as <-. split; [|exact S]. cbn [screen].
    change (VStr id) with (session (first_render (VStr id))).
    revert C. generalize (first_render (VStr id)).
    assert (G : forall s, commit us s = Done st -> session st = session s).
    { induction us as [|u us IH]; intros s0; simpl.
      - intros [= <-]. reflexivity.
      - destruct (apply_update u s0) as [s1|] eqn:A; simpl; [|discriminate].
        intros C. rewrite (IH _ C).
        destruct u; simpl in A;
          try (destruct (spread (messages s0)); simpl in A; [|discriminate]);
          injection A as <-; reflexivity. }
    exact G.
Qed.

Lemma restores_getItem (ls : storage) (k : jsstr) (dflt v : value) :
  restores JSON_parse (ls !! k) dflt v ->
  if truthy (getItem k ls) then JSON_parse (getItem k ls) = Done v
  else v = dflt.
Proof.
  unfold restores, getItem. destruct (ls !! k) as [text|]; [|auto].
  intros [N P]. destruct text; [congruence|exact P].
Qed.


End Reload.

(** C5 (as stated) fails when [crypto.randomUUID()] returns the
    identifier that the reset discarded: the reloaded page then has the
    session it had, stores it again and posts the next turn under it. *)
Lemma reset_can_repeat_session :
  exists w' w'',
    clearChat_reload Sample.parse Sample.session_id Sample.page = Done w'
    /\ session (screen w') = session (screen Sample.page)
    /\ localStorage w' !! lit "session_id"
         = localStorage Sample.page !! lit "session_id"
    /\ step (Send (VStr (lit "hello"))) w'
         = Done (w'', [useChat_post (session (screen Sample.page))
                         (VStr (lit "hello"))]).
Proof.
  destruct (clearChat_reload Sample.parse Sample.session_id Sample.page)
    as [w'|] eqn:R; [|vm_compute in R; discriminate R].
  vm_compute in R. injection R as <-.
  eexists _, _. split; [reflexivity|]. split; [reflexivity|].
  split; [vm_compute; reflexivity|].
  erewrite step_send; [reflexivity|reflexivity|reflexivity].
Qed.

(** C9 (as stated) fails when turns overlap.  Two texts are sent from the
    sample page one after the other, and the response to the first, with
    action slots, arrives while the second request is awaited: the slots of
    the earlier turn are displayed, and the loading flag is off, while the
    later turn is in flight. *)
Lemma earlier_slots_show_during_later_turn :
  exists w1 w2 w3,
    step (Send (VStr (lit "tomorrow morning"))) Sample.page
      = Done (w1, [useChat_post (session (screen Sample.page))
                     (VStr (lit "tomorrow morning"))])
    /\ step (Send (VStr (lit "or the day after"))) w1
       = Done (w2, [useChat_post (session (screen Sample.page))
                      (VStr (lit "or the day after"))])
    /\ slots (screen w2) = VArr []
    /\ step (Settle (Fulfilled Sample2.slots_reply)) w2 = Done (w3, [])
    /\ slots (screen w3) = VArr [Sample.slot]
    /\ loading (screen w3) = false.
Proof.
  eexists _, _, _.
  split; [erewrite step_send; [reflexivity|reflexivity|reflexivity]|].
  split; [erewrite step_send; [reflexivity|reflexivity|reflexivity]|].
  split; [reflexivity|]. split; [vm_compute; reflexivity|].
  split; reflexivity.
Qed.

End ClientFacts.

(** ** The booking ledger *)

Module CoreFacts.
Import Core.

Local Open Scope nat_scope.

Lemma lookup_map {A B} (f : A -> B) (l : list A) (i : nat) :
  List.map f l !! i = f <$> l !! i.
Proof.
  revert i. induction l as [|x l IH]; intros [|i]; simpl; try reflexivity.
  apply IH.
Qed.

Lemma occupies_true (b b' : Booking) :
  status b' = confirmed ->
  (b_doctor_id b', date b', start_time b') = (b_doctor_id b, date b, start_time b) ->
  occupies (b_doctor_id b) (date b) (start_time b) b' = true.
Proof.
  intros S [= D T U]. unfold occupies.
  rewrite bool_decide_eq_true_2 by exact S.
  rewrite D, T, U, !Nat.eqb_refl. reflexivity.
Qed.

Lemma not_occupied (b b' : Booking) (l : Ledger) (i : nat) :
  existsb (occupies (b_doctor_id b) (date b) (start_time b)) l = false ->
  l !! i = Some b' -> status b' = confirmed ->
  (b_doctor_id b', date b', start_time b') <> (b_doctor_id b, date b, start_time b).
Proof.
  intros E L S K.
  assert (X : existsb (occupies (b_doctor_id b) (date b) (start_time b)) l = true).
  { apply existsb_exists. exists b'. split.
    - apply list_elem_of_In. eapply list_elem_of_lookup_2. exact L.
    - apply occupies_true; assumption. }
  congruence.
Qed.

(** [insert] keeps the ledger free of double bookings. *)
Lemma insert_no_double_booking (b : Booking) (l l' : Ledger) :
  no_double_booking l -> insert b l = inr l' -> no_double_booking l'.
Proof.
  unfold insert. intros Inv.
  destruct (existsb _ l) eqn:E; [discriminate|]. intros [= <-].
  intros i j b1 b2 Hi Hj S1 S2 K.
  apply lookup_app_Some in Hi, Hj.
  destruct Hi as [Hi|[Li Hi]], Hj as [Hj|[Lj Hj]].
  - exact (Inv i j b1 b2 Hi Hj S1 S2 K).
  - apply list_lookup_singleton_Some in Hj. destruct Hj as [_ <-].
    exfalso. exact (not_occupied b b1 l i E Hi S1 K).
  - apply list_lookup_singleton_Some in Hi. destruct Hi as [_ <-].
    exfalso. exact (not_occupied b b2 l j E Hj S2 (eq_sym K)).
  - apply list_lookup_singleton_Some in Hi, Hj. lia.
Qed.

(** Cancelling bookings keeps the ledger free of double bookings. *)
Lemma map_cancel_no_double_booking (f : Booking -> Booking) (l : Ledger) :
  (forall b, f b = b \/ status (f b) = cancelled) ->
  no_double_booking l -> no_double_booking (List.map f l).
Proof.
  intros Hf Inv i j b1 b2 Hi Hj S1 S2 K.
  rewrite lookup_map in Hi, Hj.
  destruct (l !! i) as [a1|] eqn:Ei; [|discriminate].
  destruct (l !! j) as [a2|] eqn:Ej; [|discriminate].
  simpl in Hi, Hj. injection Hi as <-. injection Hj as <-.
  destruct (Hf a1) as [F1|F1]; [|congruence].
  destruct (Hf a2) as [F2|F2]; [|congruence].
  rewrite F1 in *. rewrite F2 in *.
  exact (Inv i j a1 a2 Ei Ej S1 S2 K).
Qed.

Lemma book_no_double_booking (dir : list Doctor) (now : nat * nat)
    (r : BookRequest) (l l' : Ledger) (b : Booking) :
  no_double_booking l -> book dir now r l = inr (b, l') -> no_double_booking l'.
Proof.
  intros Inv. unfold book.
  destruct (compute_slots _ _ _ _ _ _) as [[]|slots]; try discriminate.
  destruct (List.find _ slots) as [s|]; [|discriminate].
  destruct (List.find _ (codes r)) as [code|]; [|discriminate].
  destruct (insert _ l) as [e|l1] eqn:I; [discriminate|].
  intros [= _ <-]. exact (insert_no_double_booking _ _ _ Inv I).
Qed.

Lemma cancel_no_double_booking (token : string) (l l' : Ledger) (b : Booking) :
  no_double_booking l -> cancel token l = inr (b, l') -> no_double_booking l'.
Proof.
  intros Inv. unfold cancel.
  destruct (find_by_code_or_id token l) as [e|b0]; [discriminate|].
  destruct (status b0); [|discriminate].
  unfold ledger_cancel.
  destruct (List.find _ l) as [b1|]; [|discriminate].
  destruct (status b1); [|discriminate].
  intros [= _ <-]. apply map_cancel_no_double_booking; [|exact Inv].
  intros b'. destruct (String.eqb _ _); [right|left]; reflexivity.
Qed.

Lemma serve_no_double_booking (dir : list Doctor) (c : call) (l : Ledger) :
  no_double_booking l -> no_double_booking (serve dir c l).
Proof.
  intros Inv. destruct c as [now r|token]; simpl.
  - destruct (book dir now r l) as [e|[b l']] eqn:B; [exact Inv|].
    exact (book_no_double_booking _ _ _ _ _ _ Inv B).
  - destruct (cancel token l) as [e|[b l']] eqn:C; [exact Inv|].
    exact (cancel_no_double_booking _ _ _ _ Inv C).
Qed.

(** C2: whatever calls of [book] and [cancel] reach the ledger, in
    whatever order the serialization boundary lets them through, no two
    confirmed bookings of the ledger share (doctor_id, date, start_time),
    provided none did before. *)
Theorem no_double_booking_invariant (dir : list Doctor) (cs : list call)
    (l : Ledger) :
  no_double_booking l -> no_double_booking (serve_all dir cs l).
Proof.
  unfold serve_all. revert l.
  induction cs as [|c cs IH]; intros l Inv; simpl; [exact Inv|].
  apply IH, serve_no_double_booking, Inv.
Qed.

(** Of two requests for the same slot the second finds it taken. *)
Example second_request_finds_slot_taken :
  exists b l,
    book Sample.directory (6, 0) (Sample.request "Bipin" ["CDF321"%string]) []
      = inr (b, l)
    /\ (b_doctor_id b, date b, start_time b, status b) = (1, 7, 630, confirmed)
    /\ book Sample.directory (6, 0)
         (Sample.request "Asha" ["CDF321"%string; "QRT654"%string]) l
       = inl SlotNoLongerAvailable.
Proof. eexists _, _. split; [reflexivity|]. split; reflexivity. Qed.

End CoreFacts.

(** ** The properties at sample inputs *)

Module Witness.
Import JS Client.

(** A text of a space, a tab and a no-break space, submitted on the sample page. *)
Lemma blank_submit_is_noop_witness :
  blank [32; 9; 160] = true
  /\ step (Send (VStr [32; 9; 160])) Sample.page = Done (Sample.page, []).
Proof.
  split; [reflexivity|].
  apply (ClientFacts.blank_submit_is_noop [32; 9; 160] Sample.page).
  reflexivity.
Defined.

(** The sample doctors response arrives on the sample page. *)
Lemma dispatch_shows_handled_actions_witness :
  get_prop Sample.doctors_response (lit "action") = Done (VStr (lit "doctors"))
  /\ get_prop Sample.doctors_response (lit "message")
       = Done (VStr (lit "Here are the available doctors."))
  /\ messages (screen Sample.page)
       = VArr [greeting; bubble (lit "user") (VStr (lit "I have a fever"))]
  /\ exists w',
       run (sendUserMessage_settled (Fulfilled Sample.doctors_response)) Sample.page
         = Done (w', [])
       /\ messages (screen w') =
            VArr ([greeting; bubble (lit "user") (VStr (lit "I have a fever"))]
                  ++ if is_handled (VStr (lit "doctors"))
                     then [bubble (lit "agent")
                             (VStr (lit "Here are the available doctors."))]
                     else []).
Proof.
  split; [reflexivity|]. split; [reflexivity|]. split; [reflexivity|].
  apply (ClientFacts.dispatch_shows_handled_actions
           Sample.doctors_response (VStr (lit "doctors"))
           (VStr (lit "Here are the available doctors."))
           [greeting; bubble (lit "user") (VStr (lit "I have a fever"))]
           Sample.page); reflexivity.
Defined.

(** The request of a turn on the sample page is rejected by axios. *)
Lemma rejected_turn_apologises_witness :
  useChat_return (Rejected AxiosError) = Rejected AxiosError
  /\ messages (screen Sample.page)
    = VArr [greeting; bubble (lit "user") (VStr (lit "I have a fever"))]
  /\ exists w',
       step (Settle (Rejected AxiosError)) Sample.page = Done (w', [])
       /\ messages (screen w') =
            VArr ([greeting; bubble (lit "user") (VStr (lit "I have a fever"))]
                  ++ [bubble (lit "agent")
                        (VStr (lit "Sorry, something went wrong. Please try again."))])
       /\ session (screen w') = session (screen Sample.page)
       /\ localStorage w' = localStorage Sample.page.
Proof.
  split; [reflexivity|]. split; [reflexivity|].
  destruct (ClientFacts.rejected_turn_apologises (Rejected AxiosError) AxiosError
              [greeting; bubble (lit "user") (VStr (lit "I have a fever"))]
              Sample.page eq_refl eq_refl) as (w' & S & M & I & L & _).
  exists w'. repeat split; assumption.
Defined.

(** A text sent from the sample page. *)
Lemma one_call_per_turn_witness :
  blank (lit "tomorrow morning") = false
  /\ messages (screen Sample.page)
       = VArr [greeting; bubble (lit "user") (VStr (lit "I have a fever"))]
  /\ exists w',
       step (Send (VStr (lit "tomorrow morning"))) Sample.page =
         Done (w', [POST (lit "http://localhost:8000/api/chat")
                         (VObj [(lit "message", VStr (lit "tomorrow morning"));
                                (lit "session_id", VStr Sample.session_id)])]).
Proof.
  split; [reflexivity|]. split; [reflexivity|].
  apply (ClientFacts.one_call_per_turn (lit "tomorrow morning")
           [greeting; bubble (lit "user") (VStr (lit "I have a fever"))]
           Sample.page); reflexivity.
Defined.

(** A text sent from the sample page, which displays one slot. *)
Lemma send_empties_slots_until_response_witness :
  blank (lit "tomorrow morning") = false
  /\ messages (screen Sample.page)
       = VArr [greeting; bubble (lit "user") (VStr (lit "I have a fever"))]
  /\ slots (screen Sample.page) = VArr [Sample.slot]
  /\ exists w',
       step (Send (VStr (lit "tomorrow morning"))) Sample.page
         = Done (w', [useChat_post (session (screen Sample.page))
                        (VStr (lit "tomorrow morning"))])
       /\ slots (screen w') = VArr []
       /\ localStorage w' !! lit "chat_slots" = None
       /\ persist_slots Sample2.stringify (screen w') (localStorage w')
          = Done (setItem (lit "chat_slots") (lit "[]") (localStorage w')).
Proof.
  split; [reflexivity|]. split; [reflexivity|]. split; [reflexivity|].
  destruct (proj1 (ClientFacts.send_empties_slots_until_response Sample2.stringify
              (lit "tomorrow morning")
              [greeting; bubble (lit "user") (VStr (lit "I have a fever"))]
              Sample.page eq_refl eq_refl)) as (w' & S & E & L & P).
  exists w'. split; [exact S|]. split; [exact E|]. split; [exact L|].
  exact (P eq_refl).
Defined.

(** The card of the sample doctor is selected on the sample page. *)
Lemma selection_forwards_text_witness :
  messages (screen Sample.page)
    = VArr [greeting; bubble (lit "user") (VStr (lit "I have a fever"))]
  /\ [Sample.doctor] !! 0%nat = Some Sample.doctor
  /\ Forall (fun v => nullish v = false) [Sample.doctor]
  /\ blank (lit "Dr. Ashik Arya") = false
  /\ get_prop Sample.doctor (lit "name") = Done (VStr (lit "Dr. Ashik Arya"))
  /\ exists w',
       step (SelectDoctor Sample.doctor) Sample.page
         = Done (w', [useChat_post (VStr Sample.session_id)
                        (VStr (lit "Dr. Ashik Arya"))])
       /\ doctors (screen w') = VArr [].
Proof.
  assert (F : Forall (fun v => nullish v = false) [Sample.doctor])
    by (repeat constructor).
  split; [reflexivity|]. split; [reflexivity|].
  split; [exact F|]. split; [reflexivity|]. split; [reflexivity|].
  destruct (proj1 (ClientFacts.selection_forwards_text Sample.page
              [greeting; bubble (lit "user") (VStr (lit "I have a fever"))]
              [Sample.doctor] 0 Sample.doctor (lit "Dr. Ashik Arya")
              eq_refl eq_refl F eq_refl) eq_refl)
    as (cards & key & attrs & kids & h & w' & _ & _ & R & S & _ & D).
  exists w'. split; [rewrite S; exact R|exact D].
Defined.

(** The sample slot and doctor carry exactly the fields of their shapes. *)
Lemma components_read_listed_fields_witness :
  Response.has_shape Response.slot_fields Sample.slot
  /\ get_prop Sample.slot (lit "doctor_name") = Done VUndefined
  /\ Response.has_shape Response.doctor_fields Sample.doctor
  /\ get_prop Sample.doctor (lit "image") = Done VUndefined
  /\ get_prop Sample.doctor (lit "id") = Done VUndefined.
Proof.
  assert (S : Response.has_shape Response.slot_fields Sample.slot).
  { exists [VStr (lit "09:00"); VStr (lit "09:30"); VNum 1; VBool true].
    split; reflexivity. }
  assert (D : Response.has_shape Response.doctor_fields Sample.doctor).
  { exists [VNum 1; VStr (lit "Dr. Ashik Arya");
            VStr (lit "General Physician"); VNum (47 # 10)].
    split; reflexivity. }
  destruct ClientFacts.components_read_listed_fields as (_ & _ & Hs & Hd).
  split; [exact S|]. split; [exact (Hs _ S)|]. split; [exact D|].
  exact (Hd _ D).
Defined.

(** The sample page is reset and reloads with a new UUID. *)
Lemma reset_takes_session_from_randomUUID_witness :
  exists w',
       clearChat_reload Sample.parse (lit "c2a7e3d4-0000-4000-8000-5f5e5d5c5b5a")
         Sample.page = Done w'
       /\ session (screen w') = VStr (lit "c2a7e3d4-0000-4000-8000-5f5e5d5c5b5a")
       /\ session (screen w') <> session (screen Sample.page)
       /\ localStorage w' !! lit "session_id"
            = Some (lit "c2a7e3d4-0000-4000-8000-5f5e5d5c5b5a").
Proof.
  destruct (ClientFacts.reset_takes_session_from_randomUUID Sample.parse
              (lit "c2a7e3d4-0000-4000-8000-5f5e5d5c5b5a") Sample.page)
    as (_ & (w' & R & S & N & L & _) & _).
  exists w'. split; [exact R|]. split; [exact S|]. split; [|exact L].
  apply N. vm_compute. discriminate.
Defined.


(** Two requests for the same slot reach an empty ledger: one booking. *)
Lemma no_double_booking_invariant_witness :
  Core.no_double_booking []
  /\ Core.no_double_booking (Core.serve_all Sample.directory Sample.calls [])
  /\ length (Core.serve_all Sample.directory Sample.calls []) = 1%nat.
Proof.
  assert (E : Core.no_double_booking []).
  { intros i j b1 b2 H. discriminate H. }
  split; [exact E|]. split; [|reflexivity].
  apply (CoreFacts.no_double_booking_invariant Sample.directory Sample.calls [] E).
Defined.

End Witness.

(** ** More of the chat client: what the events keep *)

Module EventFacts.
Import JS Client Views JSFacts ClientFacts.

(** Setter calls without a [setMessages(v)], committed to a state whose
    transcript is an array: the commit succeeds, and each field is what
    the calls for it leave. *)
Lemma commit_handler (us : list update) (s : state) (l : list value) :
  replaces us = false ->
  messages s = VArr l ->
  exists s',
    commit us s = Done s'
    /\ messages s' = VArr (l ++ appended us)
    /\ session s' = session s
    /\ slots s' = slots_after us (slots s)
    /\ doctors s' = doctors_after us (doctors s)
    /\ bookingDetails s' = bookingDetails_after us (bookingDetails s)
    /\ loading s' = loading_after us (loading s)
    /\ initialized s' = fold_left (fun v u => match u with setInitialized x => x | _ => v end)
                                  us (initialized s).
Proof.
  revert s l. induction us as [|u us IH]; intros s l R M.
  - exists s. simpl. rewrite app_nil_r. repeat split; auto.
  - simpl in R. apply orb_false_elim in R. destruct R as [Ru R].
    destruct s as [se ms sl bd lo ini dc]. simpl in M. subst ms.
    destruct u; try discriminate Ru; simpl;
      match goal with
      | |- exists s', commit us ?s0 = _ /\ _ =>
          destruct (IH s0 _ R eq_refl) as (s' & C & Hm & Hs & Hsl & Hd & Hb & Hl & Hi)
      end;
      exists s'; simpl in *;
      rewrite ?Hm, <- ?app_assoc; repeat split; auto.
Qed.

Lemma commit_session (us : list update) (s s' : state) :
  commit us s = Done s' -> session s' = session s.
Proof.
  revert s. induction us as [|u us IH]; intros s; simpl.
  - intros [= <-]. reflexivity.
  - destruct (apply_update u s) as [s1|] eqn:A; simpl; [|discriminate].
    intros C. rewrite (IH _ C).
    destruct u; simpl in A;
      try (destruct (spread (messages s)); simpl in A; [|discriminate]);
      injection A as <-; reflexivity.
Qed.

Lemma sendUserMessage_settled_body (r : settled) (ls : storage) :
  exists body,
    sendUserMessage_settled r ls = Effects (body ++ [setLoading false]) ls []
    /\ settled_body body.
Proof.
  unfold sendUserMessage_settled.
  destruct r as [res|e]; [|eexists; split; [reflexivity|constructor]].
  destruct (get_prop res (lit "action")) as [action|] eqn:A.
  - destruct (sendUserMessage_try_action res action A)
      as (m & sl & de & dc & _ & _ & _ & _ & T).
    rewrite T. eexists. split; [reflexivity|].
    destruct (strict_eq_str action (lit "reply")); [constructor|].
    destruct (strict_eq_str action (lit "slots")); [constructor|].
    destruct (strict_eq_str action (lit "booking_confirmed")); [constructor|].
    destruct (strict_eq_str action (lit "doctors")); constructor.
  - unfold sendUserMessage_try. rewrite A. eexists. split; [reflexivity|constructor].
Qed.

(** What a handler of the screen does, whatever the event. *)
Lemma event_effects (session : value) (e : event) (h : handler) (ls : storage) :
  on_event session e = Done h ->
  replaces (queued (h ls)) = false
  /\ (length (appended (queued (h ls))) <= 1)%nat
  /\ (stored (h ls) = ls
      \/ stored (h ls) = removeItem (lit "chat_slots") ls
      \/ stored (h ls) = removeItem (lit "chat_booking") ls)
  /\ (sent (h ls) = [] \/ exists text, sent (h ls) = [useChat_post session text]).
Proof.
  assert (S : forall text,
             let e := sendUserMessage session text ls in
             replaces (queued e) = false
             /\ (length (appended (queued e)) <= 1)%nat
             /\ (stored e = ls \/ stored e = removeItem (lit "chat_slots") ls
                 \/ stored e = removeItem (lit "chat_booking") ls)
             /\ (sent e = [] \/ exists text', sent e = [useChat_post session text'])
             /\ forall x, replaces (queued e ++ [setDoctors x]) = false
                          /\ appended (queued e ++ [setDoctors x]) = appended (queued e)).
  { intros text. unfold sendUserMessage.
    destruct (call_trim text); [|simpl; repeat split; auto].
    destruct (negb _); simpl; repeat split; eauto. }
  destruct e as [text|d|http|]; cbn [on_event].
  - intros [= <-]. destruct (S text) as (A & B & C & D & _). auto.
  - unfold onSelect_doctor, mbind, outcome_bind.
    destruct (get_prop d (lit "name")) as [name|]; [|discriminate].
    intros [= <-]. cbn [queued stored sent].
    destruct (S name) as (A & B & C & D & E). destruct (E (VArr [])) as [E1 E2].
    rewrite E1, E2. auto.
  - intros [= <-].
    destruct (sendUserMessage_settled_body (useChat_return http) ls) as (body & -> & B).
    cbn [queued stored sent]. destruct B; simpl; repeat split; auto.
  - intros [= <-]. simpl. repeat split; auto.
Qed.

(** An event on a page whose transcript is an array: the page after it. *)
Lemma step_handler (e : event) (w : app) (l : list value) :
  messages (screen w) = VArr l ->
  exists w' reqs added,
    step e w = Done (w', reqs)
    /\ messages (screen w') = VArr (l ++ added)
    /\ (length added <= 1)%nat.
Proof.
  intros M. unfold step.
  destruct (on_event (session (screen w)) e) as [h|x] eqn:E.
  - destruct (event_effects _ _ _ (localStorage w) E) as (R & A & _).
    destruct (commit_handler _ _ _ R M) as (s' & C & Hm & _).
    unfold run, mbind, outcome_bind. rewrite C.
    eexists _, _, _. split; [reflexivity|]. split; [exact Hm|exact A].
  - exists w, [], []. rewrite app_nil_r. auto.
Qed.

(** X2: no event changes the session of the screen or the session_id item
    of localStorage, an event sends at most one request, and a request it
    sends is a POST of useChat under the session of the screen. *)
Theorem session_is_kept (e : event) (w w' : app) (reqs : list request) :
  step e w = Done (w', reqs) ->
  session (screen w') = session (screen w)
  /\ localStorage w' !! lit "session_id" = localStorage w !! lit "session_id"
  /\ (reqs = [] \/ exists text, reqs = [useChat_post (session (screen w)) text]).
Proof.
  unfold step.
  destruct (on_event (session (screen w)) e) as [h|x] eqn:E;
    [|intros [= <- <-]; auto].
  destruct (event_effects _ _ _ (localStorage w) E) as (_ & _ & St & Se).
  unfold run, mbind, outcome_bind.
  destruct (commit _ _) as [s'|] eqn:C; [|discriminate].
  intros [= <- <-]. cbn [screen localStorage].
  split; [exact (commit_session _ _ _ C)|]. split; [|exact Se].
  destruct St as [->|[->| ->]]; [reflexivity| |];
    apply lookup_delete_ne; vm_compute; discriminate.
Qed.

(** X5: a reply whose body is [null] or [undefined], or whose body has no
    [response] (or a [null] one), is answered like a rejected request: the
    transcript gains the apology and nothing else is shown. *)
Theorem reply_without_response_apologises (res data : value) (w : app)
    (l : list value) :
  get_prop res (lit "data") = Done data ->
  nullish data = true
  \/ (exists response, get_prop data (lit "response") = Done response
                       /\ nullish response = true) ->
  messages (screen w) = VArr l ->
  exists w',
    step (Settle (Fulfilled res)) w = Done (w', [])
    /\ messages (screen w') = VArr (l ++ [apology])
    /\ slots (screen w') = slots (screen w)
    /\ doctors (screen w') = doctors (screen w)
    /\ bookingDetails (screen w') = bookingDetails (screen w).
Proof.
  intros D N M.
  assert (Q : queued (sendUserMessage_settled (useChat_return (Fulfilled res))
                        (localStorage w))
              = [setMessages_append apology; setLoading false]).
  { unfold useChat_return. rewrite D. unfold mbind, outcome_bind.
    destruct N as [N|(response & R & N)].
    - destruct data; try discriminate N; reflexivity.
    - rewrite R. unfold sendUserMessage_settled, sendUserMessage_try.
      destruct response; try discriminate N; reflexivity. }
  unfold step, on_event, run, mbind, outcome_bind.
  assert (E : forall r, sendUserMessage_settled r (localStorage w)
                = Effects (queued (sendUserMessage_settled r (localStorage w)))
                          (localStorage w) []) by reflexivity.
  rewrite E, Q. cbn [queued stored sent].
  destruct w as [ls [se ms sl bd lo ini dc]]. simpl in M. subst ms.
  eexists. split; [reflexivity|]. repeat split; reflexivity.
Qed.

Lemma commit_doctors (us : list update) (s s' : state) :
  commit us s = Done s' ->
  doctors s' = doctors_after us (doctors s)
  /\ bookingDetails s' = bookingDetails_after us (bookingDetails s).
Proof.
  revert s. induction us as [|u us IH]; intros s; simpl.
  - intros [= <-]. auto.
  - destruct (apply_update u s) as [s1|] eqn:U; simpl; [|discriminate].
    intros C. destruct (IH _ C) as [-> ->].
    destruct u; simpl in U;
      try (destruct (spread (messages s)); simpl in U; [|discriminate]);
      injection U as <-; auto.
Qed.

(** X6: the doctor list changes in two ways only: selecting a card empties
    it, and a response with action doctors sets it to the doctors it
    carries.  A typed text, a selected slot, any other response and
    closing the booking card leave it displayed. *)
Theorem doctors_change_only_by_selection_or_response
    (e : event) (w w' : app) (reqs : list request) :
  step e w = Done (w', reqs) ->
  doctors (screen w') = doctors (screen w)
  \/ (exists d, e = SelectDoctor d /\ doctors (screen w') = VArr [])
  \/ (exists http res,
        e = Settle http
        /\ useChat_return http = Fulfilled res
        /\ get_prop res (lit "action") = Done (VStr (lit "doctors"))
        /\ get_prop res (lit "doctors") = Done (doctors (screen w'))).
Proof.
  unfold step.
  destruct (on_event (session (screen w)) e) as [h|x] eqn:E;
    [|intros [= <- _]; auto].
  unfold run, mbind, outcome_bind.
  destruct (commit _ _) as [s'|] eqn:C; [|discriminate].
  intros [= <- _]. cbn [screen].
  apply commit_doctors in C. destruct C as [-> _].
  destruct e as [text|d|http|]; cbn [on_event] in E.
  - injection E as <-. left. unfold sendUserMessage.
    destruct (call_trim text); [|reflexivity].
    destruct (negb _); reflexivity.
  - unfold onSelect_doctor, mbind, outcome_bind in E.
    destruct (get_prop d (lit "name")) as [name|]; [|discriminate].
    injection E as <-. right; left. exists d. split; [reflexivity|].
    cbn [queued]. unfold doctors_after. rewrite fold_left_app. reflexivity.
  - injection E as <-. unfold sendUserMessage_settled. cbn [queued].
    destruct (useChat_return http) as [res|] eqn:R; [|left; reflexivity].
    destruct (get_prop res (lit "action")) as [action|] eqn:A.
    + destruct (sendUserMessage_try_action res action A)
        as (m & sl & de & dc & _ & _ & _ & DC & T).
      rewrite T.
      destruct (strict_eq_str action (lit "reply")); [left; reflexivity|].
      destruct (strict_eq_str action (lit "slots")); [left; reflexivity|].
      destruct (strict_eq_str action (lit "booking_confirmed"));
        [left; reflexivity|].
      destruct (strict_eq_str action (lit "doctors")) eqn:T4;
        [|left; reflexivity].
      right; right. exists http, res.
      apply strict_eq_str_true in T4. subst action. auto.
    + unfold sendUserMessage_try. rewrite A. left; reflexivity.
  - injection E as <-. left; reflexivity.
Qed.

(** X21: the booking details change in two ways only: closing the card
    sets them to null, and a response with action booking_confirmed sets
    them to the details it carries.  A typed text, a selected slot or
    doctor and any other response leave the card as it is. *)
Theorem booking_changes_only_by_close_or_response
    (e : event) (w w' : app) (reqs : list request) :
  step e w = Done (w', reqs) ->
  bookingDetails (screen w') = bookingDetails (screen w)
  \/ (e = CloseBooking /\ bookingDetails (screen w') = VNull)
  \/ (exists http res,
        e = Settle http
        /\ useChat_return http = Fulfilled res
        /\ get_prop res (lit "action") = Done (VStr (lit "booking_confirmed"))
        /\ get_prop res (lit "details") = Done (bookingDetails (screen w'))).
Proof.
  unfold step.
  destruct (on_event (session (screen w)) e) as [h|x] eqn:E;
    [|intros [= <- _]; auto].
  unfold run, mbind, outcome_bind.
  destruct (commit _ _) as [s'|] eqn:C; [|discriminate].
  intros [= <- _]. cbn [screen].
  apply commit_doctors in C. destruct C as [_ ->].
  destruct e as [text|d|http|]; cbn [on_event] in E.
  - injection E as <-. left. unfold sendUserMessage.
    destruct (call_trim text); [|reflexivity].
    destruct (negb _); reflexivity.
  - unfold onSelect_doctor, mbind, outcome_bind in E.
    destruct (get_prop d (lit "name")) as [name|]; [|discriminate].
    injection E as <-. left. cbn [queued].
    unfold bookingDetails_after. rewrite fold_left_app. cbn [fold_left].
    unfold sendUserMessage.
    destruct (call_trim name); [|reflexivity].
    destruct (negb _); reflexivity.
  - injection E as <-. unfold sendUserMessage_settled. cbn [queued].
    destruct (useChat_return http) as [res|] eqn:R; [|left; reflexivity].
    destruct (get_prop res (lit "action")) as [action|] eqn:A.
    + destruct (sendUserMessage_try_action res action A)
        as (m & sl & de & dc & _ & _ & DE & _ & T).
      rewrite T.
      destruct (strict_eq_str action (lit "reply")); [left; reflexivity|].
      destruct (strict_eq_str action (lit "slots")); [left; reflexivity|].
      destruct (strict_eq_str action (lit "booking_confirmed")) eqn:T3.
      * right; right. exists http, res.
        apply strict_eq_str_true in T3. subst action. auto.
      * destruct (strict_eq_str action (lit "doctors")); left; reflexivity.
    + unfold sendUserMessage_try. rewrite A. left; reflexivity.
  - injection E as <-. right; left. auto.
Qed.

(** X7: selecting a doctor whose name is not a text to send (it is
    missing, not a string, or blank) sends nothing and adds nothing to the
    transcript, and still empties the doctor list. *)
Theorem doctor_without_name_empties_list (d name : value) (w : app) :
  get_prop d (lit "name") = Done name ->
  (forall s, name = VStr s -> blank s = true) ->
  step (SelectDoctor d) w =
    Done (App (localStorage w)
              (State (session (screen w)) (messages (screen w)) (slots (screen w))
                     (bookingDetails (screen w)) (loading (screen w))
                     (initialized (screen w)) (VArr [])),
          []).
Proof.
  intros N B. unfold step, on_event, onSelect_doctor. rewrite N.
  unfold mbind, outcome_bind, run. cbn zeta beta.
  assert (S : sendUserMessage (session (screen w)) name (localStorage w)
              = Effects [] (localStorage w) []).
  { destruct name; try reflexivity.
    apply sendUserMessage_blank, B. reflexivity. }
  rewrite S. reflexivity.
Qed.

End EventFacts.

(** ** More of the chat client: what the components render *)

Module ViewFacts.
Import JS Client Views Display JSFacts ClientFacts.

Lemma mapM_index_length {A B} (f : A -> nat -> outcome B) (l : list A) (k : nat)
    (ys : list B) :
  mapM_index f l k = Done ys -> length ys = length l.
Proof.
  revert k ys. induction l as [|x l IH]; intros k ys; simpl.
  - intros [= <-]. reflexivity.
  - destruct (f x k) as [y|]; simpl; [|discriminate].
    destruct (mapM_index f l (S k)) as [ys'|] eqn:E; simpl; [|discriminate].
    intros [= <-]. simpl. f_equal. exact (IH _ _ E).
Qed.

(** [map] with a callback that never throws. *)
Lemma mapM_index_pure {A B} (g : A -> nat -> B) (l : list A) (k : nat) :
  mapM_index (fun x i => Done (g x i)) l k
  = Done (imap (fun i x => g x (k + i)%nat) l).
Proof.
  revert k. induction l as [|x l IH]; intros k; simpl; [reflexivity|].
  rewrite IH. simpl. rewrite Nat.add_0_r. do 2 f_equal.
  apply imap_ext. intros i y _. simpl. f_equal. lia.
Qed.

(** [map] with a callback that throws a TypeError on some element. *)
Lemma mapM_index_Thrown {A B} (f : A -> nat -> outcome B) (bad : A -> Prop)
    (l : list A) (k : nat) :
  (forall x i, bad x -> f x i = Thrown TypeError) ->
  (forall x i, ~ bad x -> exists y, f x i = Done y) ->
  (forall x, bad x \/ ~ bad x) ->
  Exists bad l -> mapM_index f l k = Thrown TypeError.
Proof.
  intros Hb Hg Dec Ex. revert k.
  induction l as [|x l IH]; intros k; [inversion Ex|]. simpl.
  destruct (Dec x) as [Bx|Gx].
  - rewrite (Hb x k Bx). reflexivity.
  - destruct (Hg x k Gx) as [y ->]. simpl.
    rewrite IH; [reflexivity|].
    apply Exists_cons in Ex. destruct Ex as [Bx|Ex]; [contradiction|exact Ex].
Qed.

Lemma nullish_dec (v : value) : nullish v = true \/ ~ nullish v = true.
Proof. destruct (nullish v); [left|right]; congruence. Qed.

Lemma get_prop_nullish_Thrown (v : value) (k : jsstr) :
  nullish v = true -> get_prop v k = Thrown TypeError.
Proof. destruct v; try discriminate; reflexivity. Qed.

(** [map] with a callback: what holds of every result holds of the
    list. *)
Lemma mapM_index_forallb {A B} (f : A -> nat -> outcome B) (p : B -> bool)
    (q : A -> bool) (l : list A) (k : nat) (ys : list B) :
  (forall x i y, f x i = Done y -> p y = q x) ->
  mapM_index f l k = Done ys -> forallb p ys = forallb q l.
Proof.
  intros Hf. revert k ys. induction l as [|x l IH]; intros k ys; simpl.
  - intros [= <-]. reflexivity.
  - destruct (f x k) as [y|] eqn:F; simpl; [|discriminate].
    destruct (mapM_index f l (S k)) as [ys'|] eqn:E; simpl; [|discriminate].
    intros [= <-]. simpl. rewrite (Hf _ _ _ F), (IH _ _ E). reflexivity.
Qed.

(** A value that React accepts as a child converts to a string. *)
Lemma valid_child_string : forall v, valid_child v = true -> string_throws v = false.
Proof.
  fix IH 1. intros [| |b|q|str|items|fields]; simpl; try reflexivity; [|discriminate].
  induction items as [|x xs IHl]; simpl; [reflexivity|].
  intros V. apply andb_prop in V. destruct V as [Vx Vxs].
  rewrite (IH x Vx). exact (IHl Vxs).
Qed.

Lemma read_Done (v : value) (k : jsstr) (a : value) :
  get_prop v k = Done a -> read v k = a.
Proof. unfold read. intros ->. reflexivity. Qed.

Lemma SlotSelector_Thrown {H} (onSelect : value -> H) (ss : list value) :
  Exists (fun v => nullish v = true) ss ->
  SlotSelector (VArr ss) onSelect = Thrown TypeError.
Proof.
  intros Ex.
  assert (NE : ss <> []) by (intros ->; inversion Ex).
  unfold SlotSelector, get_prop_opt. rewrite get_prop_length.
  unfold mbind at 1, outcome_bind at 1. rewrite length_truthy.
  destruct ss as [|s0 ss0]; [congruence|]. cbn [negb].
  unfold array_map.
  rewrite (mapM_index_Thrown _ (fun v => nullish v = true)); [reflexivity| | | |exact Ex].
  - intros x i B.
    rewrite (get_prop_nullish_Thrown x (lit "start_time") B). reflexivity.
  - intros x i G. apply not_true_is_false in G.
    destruct (get_prop_Done x (lit "start_time") G) as [? ->].
    destruct (get_prop_Done x (lit "doctor_name") G) as [? ->].
    simpl. eauto.
  - apply nullish_dec.
Qed.

(** The buttons that SlotSelector returns for an array. *)
Lemma SlotSelector_Done {H} (onSelect : value -> H) (ss : list value)
    (tree : vnode H) :
  SlotSelector (VArr ss) onSelect = Done (Some tree) ->
  ss <> []
  /\ Forall (fun v => nullish v = false) ss
  /\ exists buttons,
       tree = Elem "div" [] None buttons
       /\ length buttons = length ss
       /\ mounts tree
          = forallb (fun slot => valid_child (read slot (lit "start_time"))
                                 && valid_child (read slot (lit "doctor_name"))) ss.
Proof.
  intros R.
  assert (NE : ss <> []) by (intros ->; discriminate R).
  split; [exact NE|].
  assert (F : Forall (fun v => nullish v = false) ss).
  { apply Forall_forall. intros x I.
    destruct (nullish x) eqn:N; [|reflexivity].
    rewrite (SlotSelector_Thrown onSelect ss) in R; [discriminate R|].
    apply Exists_exists. exists x. auto. }
  split; [exact F|].
  unfold SlotSelector, get_prop_opt in R. rewrite get_prop_length in R.
  unfold mbind at 1, outcome_bind at 1 in R. rewrite length_truthy in R.
  destruct ss as [|s0 ss0]; [congruence|]. cbn [negb] in R.
  unfold array_map in R. unfold mbind at 1, outcome_bind at 1 in R.
  match type of R with
  | match ?m with _ => _ end = _ => destruct m as [bs|] eqn:E; [|discriminate R]
  end.
  injection R as <-. exists bs. split; [reflexivity|].
  split; [exact (mapM_index_length _ _ _ _ E)|].
  change (mounts (Elem "div" [] None bs)) with (forallb (@mounts H) bs).
  eapply mapM_index_forallb; [|exact E].
  intros x i y Fx. unfold mbind, outcome_bind in Fx.
  destruct (get_prop x (lit "start_time")) as [st|] eqn:S; [|discriminate Fx].
  destruct (get_prop x (lit "doctor_name")) as [dn|] eqn:D; [|discriminate Fx].
  injection Fx as <-.
  rewrite (read_Done _ _ _ S), (read_Done _ _ _ D). simpl.
  destruct (valid_child st), (valid_child dn); reflexivity.
Qed.

(** X9: in ChatInput the Send button and the Enter key both call [send],
    and no other key does anything.  [send] hands a text that is not blank
    to the screen as typed, untrimmed, and empties the input; for a blank
    text it does nothing.  The screen posts and shows the text as typed. *)
Theorem send_button_and_enter_send_as_typed (s : jsstr) (key : value) (w : app)
    (l : list value) :
  blank s = false ->
  messages (screen w) = VArr l ->
  ChatInput_onClick (VStr s) (sendUserMessage (session (screen w)))
    = Done (Some (sendUserMessage (session (screen w)) (VStr s)), VStr [])
  /\ ChatInput_onKeyDown (VStr (lit "Enter")) (VStr s)
       (sendUserMessage (session (screen w)))
     = ChatInput_onClick (VStr s) (sendUserMessage (session (screen w)))
  /\ (strict_eq_str key (lit "Enter") = false ->
      ChatInput_onKeyDown key (VStr s) (sendUserMessage (session (screen w)))
        = Done (None, VStr s))
  /\ (forall b, blank b = true ->
        ChatInput_onClick (VStr b) (sendUserMessage (session (screen w)))
          = Done (None, VStr b)
        /\ ChatInput_onKeyDown (VStr (lit "Enter")) (VStr b)
             (sendUserMessage (session (screen w)))
           = Done (None, VStr b))
  /\ exists w',
       run (sendUserMessage (session (screen w)) (VStr s)) w
         = Done (w', [useChat_post (session (screen w)) (VStr s)])
       /\ messages (screen w') = VArr (l ++ [bubble (lit "user") (VStr s)]).
Proof.
  intros B M.
  assert (K : strict_eq_str (VStr (lit "Enter")) (lit "Enter") = true)
    by reflexivity.
  assert (C : forall t, ChatInput_onClick (VStr t) (sendUserMessage (session (screen w)))
                = if blank t then Done (None, VStr t)
                  else Done (Some (sendUserMessage (session (screen w)) (VStr t)),
                             VStr [])).
  { intros t. unfold ChatInput_onClick, ChatInput_send, call_trim, mbind, outcome_bind.
    rewrite trim_truthy. destruct (blank t); reflexivity. }
  split; [rewrite C, B; reflexivity|].
  split; [unfold ChatInput_onKeyDown; rewrite K; reflexivity|].
  split; [intros N; unfold ChatInput_onKeyDown; rewrite N; reflexivity|].
  split.
  - intros b Bb. unfold ChatInput_onKeyDown. rewrite K.
    change (ChatInput_send (VStr b) (sendUserMessage (session (screen w))))
      with (ChatInput_onClick (VStr b) (sendUserMessage (session (screen w)))).
    rewrite C, Bb. split; reflexivity.
  - pose proof (step_send s l w B M) as S.
    change (step (Send (VStr s)) w)
      with (run (sendUserMessage (session (screen w)) (VStr s)) w) in S.
    rewrite S. eexists. split; reflexivity.
Qed.

(** X10: a bubble shows on which side it is by whether its sender is the
    string "user", and by nothing else of the sender: two bubbles with the
    same text look the same exactly when both or neither are the user's. *)
Theorem bubble_side_is_by_user (H : Type) (sender sender' text : value) :
  @MessageBubble H sender text = MessageBubble sender' text
  <-> strict_eq_str sender (lit "user") = strict_eq_str sender' (lit "user").
Proof.
  unfold MessageBubble. split.
  - intros E.
    destruct (strict_eq_str sender (lit "user")),
             (strict_eq_str sender' (lit "user"));
      try reflexivity; vm_compute in E; discriminate E.
  - intros ->. reflexivity.
Qed.

(** X11: ChatScreen builds the chat area exactly when the transcript is
    an array: one bubble per entry, in order, and the hint for an empty
    transcript exactly when there is no entry; an entry made by the screen,
    [{ sender, text }], is the bubble of that sender and text under its
    index as key.  The bubbles pass React's checks of children and keys
    exactly when the text of every entry is a valid child (no plain
    object) and the key that an entry carries, if any, converts to a
    string. *)
Theorem transcript_renders_arrays (H : Type) (messages : value) :
  (forall l, messages = VArr l ->
     exists hint bubbles,
       @transcript H messages = Done (hint, bubbles)
       /\ (hint = None <-> l <> [])
       /\ length bubbles = length l
       /\ (forall i m, l !! i = Some m -> bubbles !! i = Some (transcript_entry m i))
       /\ (forall i sender text,
             l !! i = Some (bubble sender text) ->
             bubbles !! i = Some (Keyed (of_nat i) (MessageBubble (VStr sender) text)))
       /\ (forall h, hint = Some h -> mounts h = true)
       /\ forallb mounts bubbles
          = forallb (fun m => negb (string_throws (spread_prop m (lit "key")))
                              && valid_child (spread_prop m (lit "text"))) l)
  /\ ((forall l, messages <> VArr l) -> @transcript H messages = Thrown TypeError).
Proof.
  split.
  - intros l ->. unfold transcript. rewrite get_prop_length.
    unfold mbind, outcome_bind, array_map. rewrite mapM_index_pure.
    eexists _, _. split; [reflexivity|].
    split; [|split; [apply length_imap|split; [|split; [|split]]]].
    + destruct l; simpl; split; congruence.
    + intros i m L. rewrite list_lookup_imap, L. reflexivity.
    + intros i sender text L. rewrite list_lookup_imap, L. reflexivity.
    + intros h E. destruct (strict_eq_zero _); [|discriminate E].
      injection E as <-. reflexivity.
    + eapply mapM_index_forallb; [|apply mapM_index_pure].
      intros m i y [= <-]. unfold transcript_entry. cbn [mounts].
      assert (K : string_throws
                    match spread_prop m (lit "key") with
                    | VUndefined => of_nat i
                    | k => k
                    end
                  = string_throws (spread_prop m (lit "key")))
        by (destruct (spread_prop m (lit "key")); reflexivity).
      rewrite K. unfold MessageBubble. simpl.
      destruct (string_throws _), (valid_child _); reflexivity.
  - intros N. unfold transcript.
    destruct messages as [| |b|q|str|items|fields]; try reflexivity.
    exfalso. eapply N. reflexivity.
Qed.

(** X12: SlotSelector returns nothing for [undefined], [null] and the
    empty array; for an array of slots none of which is [undefined] or
    [null] it returns one button per slot, and React mounts the buttons
    exactly when [start_time] and [doctor_name] of every slot are valid
    children (no plain object); an array with an [undefined] or [null]
    element makes it throw a TypeError. *)
Theorem SlotSelector_renders (H : Type) (onSelect : value -> H) :
  (forall slots, nullish slots = true -> SlotSelector slots onSelect = Done None)
  /\ SlotSelector (VArr []) onSelect = Done None
  /\ (forall ss, ss <> [] -> Forall (fun v => nullish v = false) ss ->
        exists buttons,
          SlotSelector (VArr ss) onSelect = Done (Some (Elem "div" [] None buttons))
          /\ length buttons = length ss
          /\ mounts (Elem "div" [] None buttons)
             = forallb (fun slot => valid_child (read slot (lit "start_time"))
                                    && valid_child (read slot (lit "doctor_name"))) ss)
  /\ (forall ss, Exists (fun v => nullish v = true) ss ->
        SlotSelector (VArr ss) onSelect = Thrown TypeError).
Proof.
  split; [|split; [reflexivity|split]].
  - intros slots N. destruct slots; try discriminate N; reflexivity.
  - intros ss NE F.
    destruct (SlotSelector_buttons ss onSelect NE F) as (buttons & R & _).
    exists buttons. split; [exact R|].
    destruct (SlotSelector_Done onSelect ss _ R) as (_ & _ & bs & E & L & M).
    injection E as ->. split; [exact L|exact M].
  - intros ss. apply SlotSelector_Thrown.
Qed.

(** X13: DoctorList shows "No doctors available." for every falsy value
    and for the empty array; for an array of doctors none of which is
    [undefined] or [null] it returns one card per doctor, and React mounts
    the cards exactly when [name], [specialization] and [rating] of every
    doctor are valid children (no plain object) and [id] and [image]
    convert to a string; an array with an [undefined] or [null] element
    makes it throw a TypeError. *)
Theorem DoctorList_renders (H : Type) (onSelect : value -> H) :
  (forall doctors, truthy doctors = false ->
     DoctorList doctors onSelect
     = Done (Elem "p" [] None [Text (VStr (lit "No doctors available."))]))
  /\ DoctorList (VArr []) onSelect
     = Done (Elem "p" [] None [Text (VStr (lit "No doctors available."))])
  /\ (forall ds, ds <> [] -> Forall (fun v => nullish v = false) ds ->
        exists cards,
          DoctorList (VArr ds) onSelect = Done (Elem "div" [] None cards)
          /\ length cards = length ds
          /\ mounts (Elem "div" [] None cards)
             = forallb (fun d => negb (string_throws (read d (lit "id")))
                                 && negb (string_throws (read d (lit "image")))
                                 && valid_child (read d (lit "name"))
                                 && valid_child (read d (lit "specialization"))
                                 && valid_child (read d (lit "rating"))) ds)
  /\ (forall ds, Exists (fun v => nullish v = true) ds ->
        DoctorList (VArr ds) onSelect = Thrown TypeError).
Proof.
  split; [|split; [reflexivity|split]].
  - intros doctors T. unfold DoctorList. rewrite T. reflexivity.
  - intros ds NE F.
    destruct (DoctorList_cards ds onSelect NE F) as (cards & R & _).
    exists cards. split; [exact R|].
    destruct ds as [|d0 ds0]; [congruence|].
    unfold DoctorList in R.
    assert (E0 : (if negb (truthy (VArr (d0 :: ds0))) then Done true
                  else len ← get_prop (VArr (d0 :: ds0)) (lit "length");
                       Done (strict_eq_zero len)) = Done false) by reflexivity.
    rewrite E0 in R. clear E0.
    unfold array_map in R. unfold mbind at 1 2, outcome_bind at 1 2 in R.
    match type of R with
    | match ?m with _ => _ end = _ => destruct m as [cs|] eqn:E; [|discriminate R]
    end.
    injection R as <-. split; [exact (mapM_index_length _ _ _ _ E)|].
    change (mounts (Elem "div" [] None cs)) with (forallb (@mounts H) cs).
    eapply mapM_index_forallb; [|exact E].
    intros x i y Fx. unfold DoctorCard, mbind, outcome_bind in Fx.
    destruct (get_prop x (lit "id")) as [id|] eqn:I; [|discriminate Fx].
    destruct (get_prop x (lit "image")) as [image|] eqn:G; [|discriminate Fx].
    destruct (get_prop x (lit "name")) as [name|] eqn:N; [|discriminate Fx].
    destruct (get_prop x (lit "specialization")) as [sp|] eqn:P; [|discriminate Fx].
    destruct (get_prop x (lit "rating")) as [rating|] eqn:T; [|discriminate Fx].
    injection Fx as <-.
    rewrite (read_Done _ _ _ I), (read_Done _ _ _ G), (read_Done _ _ _ N),
            (read_Done _ _ _ P), (read_Done _ _ _ T).
    simpl.
    destruct (valid_child name) eqn:V;
      [rewrite (valid_child_string _ V)|destruct (string_throws name)];
      destruct (string_throws id), (string_throws image), (valid_child sp),
               (valid_child rating); reflexivity.
  - intros ds Ex.
    destruct ds as [|d0 ds0]; [inversion Ex|].
    unfold DoctorList.
    assert (E0 : (if negb (truthy (VArr (d0 :: ds0))) then Done true
                  else len ← get_prop (VArr (d0 :: ds0)) (lit "length");
                       Done (strict_eq_zero len)) = Done false) by reflexivity.
    rewrite E0. clear E0. unfold mbind at 1, outcome_bind at 1.
    unfold array_map.
    rewrite (mapM_index_Thrown _ (fun v => nullish v = true)); [reflexivity| | | |exact Ex].
    + intros x i B.
      rewrite (get_prop_nullish_Thrown x (lit "id") B). reflexivity.
    + intros x i G. apply not_true_is_false in G.
      destruct (get_prop_Done x (lit "id") G) as [? ->].
      destruct (DoctorCard_Done x onSelect G) as (? & ? & ->).
      simpl. eauto.
    + apply nullish_dec.
Qed.

(** X14: SuggestionChips returns nothing without suggestions
    ([undefined], as ChatScreen calls it, [null], or the empty array); for
    any other array it returns one chip per suggestion, in order, whose
    click hands that suggestion to [onClick], and React mounts the chips
    exactly when every suggestion is a valid child (no plain object). *)
Theorem SuggestionChips_renders (H : Type) (onClick : value -> H) :
  (forall suggestions, nullish suggestions = true ->
     SuggestionChips suggestions onClick = Done None)
  /\ SuggestionChips (VArr []) onClick = Done None
  /\ (forall ss, ss <> [] ->
        exists chips,
          SuggestionChips (VArr ss) onClick = Done (Some (Elem "div" [] None chips))
          /\ length chips = length ss
          /\ (forall i s, ss !! i = Some s ->
                chips !! i =
                  Some (Keyed (of_nat i) (Elem "button" [] (Some (onClick s)) [Text s])))
          /\ mounts (Elem "div" [] None chips) = forallb valid_child ss).
Proof.
  split; [|split; [reflexivity|]].
  - intros suggestions N. destruct suggestions; try discriminate N; reflexivity.
  - intros ss NE. unfold SuggestionChips, get_prop_opt. rewrite get_prop_length.
    unfold mbind, outcome_bind. rewrite length_truthy.
    destruct ss as [|s0 ss0]; [congruence|]. cbn [negb].
    unfold array_map. rewrite mapM_index_pure.
    eexists. split; [reflexivity|]. split; [apply length_imap|]. split.
    + intros i s L. rewrite list_lookup_imap, L. reflexivity.
    + match goal with
      | |- mounts (Elem _ _ _ ?cs) = _ =>
          change (mounts (Elem "div" [] None cs)) with (forallb (@mounts H) cs)
      end.
      eapply (mapM_index_forallb
                (fun s i => Done (Keyed (of_nat i)
                                    (Elem "button" [] (Some (onClick s)) [Text s]))));
        [|apply (mapM_index_pure
                   (fun s i => Keyed (of_nat i)
                                 (Elem "button" [] (Some (onClick s)) [Text s])))].
      intros s i y [= <-]. simpl. destruct (valid_child s); reflexivity.
Qed.

(** X15: for falsy booking details ChatScreen builds no modal, and the
    value it renders in its place shows nothing; for truthy ones the modal
    is built whatever they hold.  The modal reads date, start_time and
    confirmation_code of the details and nothing else, its button calls
    the handler that closes it, and React mounts it exactly when the three
    are valid children (no plain object). *)
Theorem booking_card_renders (bookingDetails : value) :
  (truthy bookingDetails = false ->
   booking_card bookingDetails = Done (Text bookingDetails)
   /\ mounts (Text bookingDetails : vnode handler) = true)
  /\ (truthy bookingDetails = true ->
      exists date start_time confirmation_code kids,
        get_prop bookingDetails (lit "date") = Done date
        /\ get_prop bookingDetails (lit "start_time") = Done start_time
        /\ get_prop bookingDetails (lit "confirmation_code") = Done confirmation_code
        /\ booking_card bookingDetails
           = Done (Elem "div" [] None
                     [Elem "div" [] None
                        (kids ++ [Elem "button" [] (Some onClose_booking)
                                    [Text (VStr (lit "Close"))]])])
        /\ mounts (Elem "div" [] None
                     [Elem "div" [] None
                        (kids ++ [Elem "button" [] (Some onClose_booking)
                                    [Text (VStr (lit "Close"))]])])
           = valid_child date && valid_child start_time
             && valid_child confirmation_code
        /\ forall details',
             agree_on [lit "date"; lit "start_time"; lit "confirmation_code"]
                      bookingDetails details' ->
             BookingConfirmationModal details' onClose_booking
               = booking_card bookingDetails).
Proof.
  split.
  - intros T. unfold booking_card. rewrite T. split; [reflexivity|].
    destruct bookingDetails; try discriminate T; reflexivity.
  - intros T. unfold booking_card. rewrite T.
    assert (N : nullish bookingDetails = false)
      by (destruct bookingDetails; try discriminate T; reflexivity).
    destruct (get_prop_Done bookingDetails (lit "date") N) as [date D].
    destruct (get_prop_Done bookingDetails (lit "start_time") N) as [st S].
    destruct (get_prop_Done bookingDetails (lit "confirmation_code") N) as [cc C].
    exists date, st, cc. eexists. repeat (split; [eassumption|]).
    unfold BookingConfirmationModal. rewrite D, S, C.
    split; [|split].
    + unfold mbind, outcome_bind.
      instantiate (1 := [_; _]). reflexivity.
    + simpl. destruct (valid_child date), (valid_child st), (valid_child cc);
        reflexivity.
    + intros details' A.
      rewrite <- (A (lit "date")) by in_fields.
      rewrite <- (A (lit "start_time")) by in_fields.
      rewrite <- (A (lit "confirmation_code")) by in_fields.
      rewrite D, S, C. reflexivity.
Qed.

(** X8: where the slot buttons are displayed (SlotSelector returns them
    and React mounts them), the button of a slot whose start_time is not
    a string (it is missing, a number, ...) does nothing when it is
    selected: nothing is sent and the page stays as it is. *)
Theorem slot_without_start_time_is_inert (ss : list value) (i : nat)
    (slot start_time : value) (w : app) (tree : vnode handler) :
  ss !! i = Some slot ->
  SlotSelector (VArr ss) (sendUserMessage (session (screen w))) = Done (Some tree) ->
  mounts tree = true ->
  get_prop slot (lit "start_time") = Done start_time ->
  (forall s, start_time <> VStr s) ->
  valid_child start_time = true
  /\ exists buttons kids h,
       tree = Elem "div" [] None buttons
       /\ buttons !! i = Some (Keyed (of_nat i) (Elem "button" [] (Some h) kids))
       /\ run h w = Done (w, [])
       /\ step (Send start_time) w = Done (w, []).
Proof.
  intros X R M S N.
  destruct (SlotSelector_Done _ _ _ R) as (NE & F & bs & -> & _ & Mt).
  destruct (SlotSelector_buttons ss (sendUserMessage (session (screen w))) NE F)
    as (buttons & R' & C).
  assert (bs = buttons) by congruence. subst bs.
  destruct (C i slot X) as (st & kids & S' & K).
  assert (st = start_time) by congruence. subst st.
  split.
  - rewrite Mt in M.
    pose proof (proj1 (forallb_forall _ _) M slot) as V.
    apply list_elem_of_lookup_2, list_elem_of_In in X.
    specialize (V X). apply andb_prop in V.
    rewrite (read_Done _ _ _ S) in V. tauto.
  - assert (E : forall ls, sendUserMessage (session (screen w)) start_time ls
                           = Effects [] ls []).
    { intros ls. destruct start_time; try reflexivity. exfalso. eapply N. reflexivity. }
    assert (Rn : run (sendUserMessage (session (screen w)) start_time) w = Done (w, [])).
    { unfold run. rewrite E. destruct w. reflexivity. }
    eexists buttons, kids, _. split; [reflexivity|]. split; [exact K|].
    split; exact Rn.
Qed.

End ViewFacts.

(** ** More of the chat client: localStorage across reloads *)

Module ReloadFacts.
Import JS Client Views JSFacts ClientFacts EventFacts.

Section Reload.

Variable JSON_parse : value -> outcome value.
Variable JSON_stringify : value -> jsstr.

(** The screen after a page load whose stored items parse. *)
Lemma page_load_restored (uuid : jsstr) (ls : storage) (pm ps pb : value) :
  restores JSON_parse (ls !! lit "chat_messages") (VArr [greeting]) pm ->
  nullish pm = false ->
  restores JSON_parse (ls !! lit "chat_slots") (VArr []) ps ->
  nullish ps = false ->
  restores JSON_parse (ls !! lit "chat_booking") VNull pb ->
  page_load JSON_parse uuid ls =
    Done (App (useState_session uuid ls).2
              (State (useState_session uuid ls).1 pm ps pb false true (VArr []))).
Proof.
  intros RM NM RS NS RB. unfold page_load.
  pose proof (useState_session_other uuid ls) as O.
  destruct (useState_session uuid ls) as [sess ls']. cbn [fst snd] in *.
  rewrite <- (O (lit "chat_messages")) in RM by (vm_compute; discriminate).
  rewrite <- (O (lit "chat_slots")) in RS by (vm_compute; discriminate).
  rewrite <- (O (lit "chat_booking")) in RB by (vm_compute; discriminate).
  apply restores_getItem in RM, RS, RB.
  destruct (get_prop_Done pm (lit "length") NM) as [lm LM].
  destruct (get_prop_Done ps (lit "length") NS) as [lp LP].
  unfold restore_effect, mbind, outcome_bind.
  destruct (truthy (getItem (lit "chat_messages") ls'));
    [rewrite RM, LM|subst pm];
    (destruct (truthy (getItem (lit "chat_slots") ls'));
       [rewrite RS, LP|subst ps]);
    (destruct (truthy (getItem (lit "chat_booking") ls'));
       [rewrite RB|subst pb]);
    reflexivity.
Qed.

(** X16: the reset of the chat always succeeds and gives the screen of a
    first visit, whatever the page held and whatever JSON.parse does: the
    greeting alone, no slots, doctors or booking, not loading, under the
    new session.  [clearChat] removes its four items and no other. *)
Theorem reset_gives_first_screen (uuid : jsstr) (w : app) :
  clearChat_reload JSON_parse uuid w =
    Done (App (setItem (lit "session_id") uuid (clearChat (localStorage w)))
              (State (VStr uuid) (VArr [greeting]) (VArr []) VNull false true
                     (VArr [])))
  /\ forall k,
       ~ In k [lit "session_id"; lit "chat_messages"; lit "chat_slots";
               lit "chat_booking"] ->
       clearChat (localStorage w) !! k = localStorage w !! k.
Proof.
  split.
  - unfold clearChat_reload.
    rewrite (page_load_restored uuid _ (VArr [greeting]) (VArr []) VNull).
    + unfold useState_session, getItem.
      rewrite (clearChat_lookup _ (lit "session_id")) by in_fields. reflexivity.
    + rewrite (clearChat_lookup _ (lit "chat_messages")) by in_fields. reflexivity.
    + reflexivity.
    + rewrite (clearChat_lookup _ (lit "chat_slots")) by in_fields. reflexivity.
    + reflexivity.
    + rewrite (clearChat_lookup _ (lit "chat_booking")) by in_fields. reflexivity.
  - intros k N. simpl in N. unfold clearChat, removeItem.
    rewrite !lookup_delete_ne by tauto. reflexivity.
Qed.

(** X17: a stored transcript that JSON.parse rejects, or that parses to
    [null], makes the mount effect throw: the page does not come up. *)
Theorem corrupt_transcript_fails_mount (uuid text : jsstr) (ls : storage) :
  ls !! lit "chat_messages" = Some text ->
  text <> [] ->
  (exists e, JSON_parse (VStr text) = Thrown e)
  \/ (exists v, JSON_parse (VStr text) = Done v /\ nullish v = true) ->
  exists e, page_load JSON_parse uuid ls = Thrown e.
Proof.
  intros L N P. unfold page_load.
  assert (O : (useState_session uuid ls).2 !! lit "chat_messages" = Some text).
  { rewrite useState_session_other by (vm_compute; discriminate). exact L. }
  destruct (useState_session uuid ls) as [sess ls']. cbn [snd] in O.
  unfold restore_effect, getItem. rewrite O.
  destruct text as [|c text]; [congruence|]. cbn [truthy].
  unfold mbind, outcome_bind.
  destruct P as [(e & ->)|(v & -> & Nv)]; [eexists; reflexivity|].
  rewrite (ViewFacts.get_prop_nullish_Thrown v (lit "length") Nv).
  eexists; reflexivity.
Qed.

(** X18: a refresh keeps the chat.  After the three persisting effects
    ran on a restored page, a page load gives back the transcript, the slot
    list and truthy booking details as they were, under the stored session;
    the doctor list and the loading flag are not stored and start over.
    What is needed: JSON.parse undoes JSON.stringify on the three values,
    and falsy booking details come with no stored booking. *)
Theorem refresh_keeps_chat (uuid id : jsstr) (w : app) :
  let s := screen w in
  let roundtrip v :=
    JSON_stringify v <> [] /\ JSON_parse (VStr (JSON_stringify v)) = Done v in
  initialized s = true ->
  localStorage w !! lit "session_id" = Some id -> id <> [] ->
  nullish (messages s) = false -> roundtrip (messages s) ->
  nullish (slots s) = false -> roundtrip (slots s) ->
  (if truthy (bookingDetails s) then roundtrip (bookingDetails s)
   else localStorage w !! lit "chat_booking" = None) ->
  exists ls',
    (ls1 ← persist_messages JSON_stringify s (localStorage w);
     ls2 ← persist_slots JSON_stringify s ls1;
     persist_booking JSON_stringify s ls2) = Done ls'
    /\ page_load JSON_parse uuid ls' =
         Done (App ls'
                 (State (VStr id) (messages s) (slots s)
                        (if truthy (bookingDetails s) then bookingDetails s else VNull)
                        false true (VArr []))).
Proof.
  cbv zeta. intros I S N Nm [Em Rm] Ns [Es Rs] B.
  unfold persist_messages, persist_slots, persist_booking. rewrite I.
  destruct (get_prop_Done (messages (screen w)) (lit "length") Nm) as [? ->].
  destruct (get_prop_Done (slots (screen w)) (lit "length") Ns) as [? ->].
  cbn [negb mbind outcome_bind]. unfold mbind, outcome_bind.
  destruct (truthy (bookingDetails (screen w))) eqn:T.
  - destruct B as [Eb Rb]. eexists. split; [reflexivity|].
    rewrite (page_load_restored uuid _ (messages (screen w)) (slots (screen w))
               (bookingDetails (screen w))); try assumption.
    + unfold useState_session. storage_lookup. rewrite S.
      destruct id; [congruence|]. reflexivity.
    + storage_lookup. split; assumption.
    + storage_lookup. split; assumption.
    + storage_lookup. split; assumption.
  - eexists. split; [reflexivity|].
    rewrite (page_load_restored uuid _ (messages (screen w)) (slots (screen w)) VNull);
      try assumption.
    + unfold useState_session. storage_lookup. rewrite S.
      destruct id; [congruence|]. reflexivity.
    + storage_lookup. split; assumption.
    + storage_lookup. split; assumption.
    + storage_lookup. rewrite B. reflexivity.
Qed.

(** The booking details after a page load without a stored booking. *)
Lemma page_load_without_booking (uuid : jsstr) (ls : storage) (w : app) :
  ls !! lit "chat_booking" = None ->
  page_load JSON_parse uuid ls = Done w ->
  bookingDetails (screen w) = VNull.
Proof.
  intros L. unfold page_load.
  assert (O : (useState_session uuid ls).2 !! lit "chat_booking" = None).
  { rewrite useState_session_other by (vm_compute; discriminate). exact L. }
  destruct (useState_session uuid ls) as [sess ls']. cbn [snd] in O.
  assert (G : getItem (lit "chat_booking") ls' = VNull)
    by (unfold getItem; rewrite O; reflexivity).
  unfold restore_effect. rewrite G. cbn [truthy].
  unfold mbind, outcome_bind.
  destruct (truthy (getItem (lit "chat_messages") ls')).
  - destruct (JSON_parse _) as [pm|]; [|discriminate].
    destruct (get_prop pm _); [|discriminate].
    destruct (truthy (getItem (lit "chat_slots") ls')).
    + destruct (JSON_parse _) as [ps|]; [|discriminate].
      destruct (get_prop ps _); [|discriminate].
      intros [= <-]. reflexivity.
    + intros [= <-]. reflexivity.
  - destruct (truthy (getItem (lit "chat_slots") ls')).
    + destruct (JSON_parse _) as [ps|]; [|discriminate].
      destruct (get_prop ps _); [|discriminate].
      intros [= <-]. reflexivity.
    + intros [= <-]. reflexivity.
Qed.

(** X19: closing the booking card always succeeds, and the card stays
    closed: the details are null, the stored booking is gone, the
    persisting effect stores nothing in its place, and a page load from
    then on starts without booking details. *)
Theorem closed_booking_stays_closed (uuid : jsstr) (w : app) :
  exists w',
    step CloseBooking w = Done (w', [])
    /\ bookingDetails (screen w') = VNull
    /\ localStorage w' !! lit "chat_booking" = None
    /\ persist_booking JSON_stringify (screen w') (localStorage w')
       = Done (localStorage w')
    /\ forall w'', page_load JSON_parse uuid (localStorage w') = Done w'' ->
                   bookingDetails (screen w'') = VNull.
Proof.
  destruct w as [ls [se ms sl bd lo ini dc]].
  eexists. split; [reflexivity|]. cbn [screen localStorage bookingDetails].
  split; [reflexivity|]. split; [apply lookup_delete_eq|].
  split.
  - unfold persist_booking. cbn [initialized bookingDetails truthy].
    destruct (negb ini); reflexivity.
  - intros w''. apply page_load_without_booking, lookup_delete_eq.
Qed.

Lemma getItem_drop_empty (k : jsstr) (ls : storage) :
  truthy (getItem k (drop_empty ls)) = truthy (getItem k ls)
  /\ (truthy (getItem k ls) = true -> getItem k (drop_empty ls) = getItem k ls).
Proof.
  unfold getItem, drop_empty.
  destruct (ls !! k) as [text|] eqn:L.
  - destruct text as [|c text].
    + rewrite map_lookup_filter_None_2; [split; [reflexivity|discriminate]|].
      right. intros x Lx. rewrite L in Lx. injection Lx as <-. simpl. tauto.
    + erewrite map_lookup_filter_Some_2; [split; reflexivity|exact L|].
      simpl. discriminate.
  - rewrite map_lookup_filter_None_2; [split; reflexivity|]. left. exact L.
Qed.

(** X20: an item of localStorage that holds the empty string counts as
    absent: the page loads to the same screen as without such items (a new
    session for an empty session_id, the greeting for an empty
    chat_messages, and JSON.parse is not called on it). *)
Theorem empty_items_count_as_absent (uuid : jsstr) (ls : storage) :
  (w ← page_load JSON_parse uuid (drop_empty ls); Done (screen w))
  = (w ← page_load JSON_parse uuid ls; Done (screen w)).
Proof.
  assert (G : forall k ls1 ls2 (A : Type) (f : value -> A) (d : A),
             truthy (getItem k ls1) = truthy (getItem k ls2) ->
             (truthy (getItem k ls2) = true -> getItem k ls1 = getItem k ls2) ->
             (if truthy (getItem k ls1) then f (getItem k ls1) else d)
             = (if truthy (getItem k ls2) then f (getItem k ls2) else d)).
  { intros k ls1 ls2 A f d T E. rewrite T.
    destruct (truthy (getItem k ls2)); [rewrite E|]; reflexivity. }
  assert (K : forall k, k <> lit "session_id" ->
             let a := (useState_session uuid (drop_empty ls)).2 in
             let b := (useState_session uuid ls).2 in
             truthy (getItem k a) = truthy (getItem k b)
             /\ (truthy (getItem k b) = true -> getItem k a = getItem k b)).
  { intros k N. cbv zeta.
    assert (E : forall l : storage, getItem k (useState_session uuid l).2 = getItem k l).
    { intros l. unfold getItem. rewrite useState_session_other by exact N.
      reflexivity. }
    rewrite !E. apply getItem_drop_empty. }
  assert (F : (useState_session uuid (drop_empty ls)).1 = (useState_session uuid ls).1).
  { unfold useState_session.
    destruct (getItem_drop_empty (lit "session_id") ls) as [T E]. rewrite T.
    destruct (truthy (getItem (lit "session_id") ls)); [apply E|]; reflexivity. }
  unfold page_load.
  destruct (useState_session uuid (drop_empty ls)) as [s1 a].
  destruct (useState_session uuid ls) as [s2 b]. cbn [fst snd] in *. subst s2.
  assert (R : restore_effect JSON_parse a = restore_effect JSON_parse b).
  { unfold restore_effect.
    destruct (K (lit "chat_messages")) as [T1 E1]; [vm_compute; discriminate|].
    destruct (K (lit "chat_slots")) as [T2 E2]; [vm_compute; discriminate|].
    destruct (K (lit "chat_booking")) as [T3 E3]; [vm_compute; discriminate|].
    cbv zeta.
    rewrite (G (lit "chat_messages") a b _
               (fun m => parsed ← JSON_parse m;
                         _ ← get_prop parsed (lit "length");
                         Done [setMessages parsed]) _ T1 E1).
    rewrite (G (lit "chat_slots") a b _
               (fun s => parsed ← JSON_parse s;
                         _ ← get_prop parsed (lit "length");
                         Done [setSlots parsed]) _ T2 E2).
    rewrite (G (lit "chat_booking") a b _
               (fun x => parsed ← JSON_parse x;
                         Done [setBookingDetails parsed]) _ T3 E3).
    reflexivity. }
  rewrite R. unfold mbind, outcome_bind.
  destruct (restore_effect JSON_parse b) as [us|]; [|reflexivity].
  destruct (commit us (first_render s1)); reflexivity.
Qed.

End Reload.

End ReloadFacts.

(** ** The page: an event with its render and its effects *)

Module PageFacts.
Import JS Client Views Display JSFacts ClientFacts EventFacts ViewFacts.

Lemma commit_loading (us : list update) (s s' : state) :
  commit us s = Done s' -> loading s' = loading_after us (loading s).
Proof.
  revert s. induction us as [|u us IH]; intros s; simpl.
  - intros [= <-]. reflexivity.
  - destruct (apply_update u s) as [s1|] eqn:U; simpl; [|discriminate].
    intros C. rewrite (IH _ C). f_equal.
    destruct u; simpl in U;
      try (destruct (spread (messages s)); simpl in U; [|discriminate]);
      injection U as <-; reflexivity.
Qed.

Lemma clearChat_other (ls : storage) (k : jsstr) :
  ~ In k [lit "session_id"; lit "chat_messages"; lit "chat_slots"; lit "chat_booking"] ->
  clearChat ls !! k = ls !! k.
Proof.
  intros N. simpl in N. unfold clearChat, removeItem.
  rewrite !lookup_delete_ne by tauto. reflexivity.
Qed.

(** What the handler of an event leaves in localStorage. *)
Lemma step_items (e : event) (w w1 : app) (reqs : list request) (k : jsstr) :
  step e w = Done (w1, reqs) ->
  localStorage w1 !! k = localStorage w !! k
  \/ (localStorage w1 !! k = None
      /\ (k = lit "chat_slots" \/ k = lit "chat_booking")).
Proof.
  unfold step.
  destruct (on_event (session (screen w)) e) as [h|x] eqn:E;
    [|intros [= <- _]; auto].
  destruct (event_effects _ _ _ (localStorage w) E) as (_ & _ & St & _).
  unfold run, mbind, outcome_bind.
  destruct (commit _ _) as [s'|]; [|discriminate].
  intros [= <- _]. cbn [localStorage]. unfold removeItem in St.
  destruct St as [->|[->| ->]]; [auto| |].
  - destruct (decide (lit "chat_slots" = k)) as [<-|N].
    + right. split; [apply lookup_delete_eq|auto].
    + left. apply lookup_delete_ne, N.
  - destruct (decide (lit "chat_booking" = k)) as [<-|N].
    + right. split; [apply lookup_delete_eq|auto].
    + left. apply lookup_delete_ne, N.
Qed.

(** A response with action slots, at the handler's return. *)
Lemma settle_slots_response (http : settled) (res sl : value) (w : app)
    (l : list value) :
  useChat_return http = Fulfilled res ->
  get_prop res (lit "action") = Done (VStr (lit "slots")) ->
  get_prop res (lit "slots") = Done sl ->
  messages (screen w) = VArr l ->
  exists m,
    get_prop res (lit "message") = Done m
    /\ step (Settle http) w
       = Done (App (localStorage w)
                   (State (session (screen w))
                          (VArr (l ++ [bubble (lit "agent") m]))
                          sl (bookingDetails (screen w)) false
                          (initialized (screen w)) (doctors (screen w))),
               []).
Proof.
  intros R A S M.
  destruct (sendUserMessage_try_action res _ A) as (m & sl' & de & dc & Hm & Hs & _ & _ & T).
  assert (sl' = sl) by congruence. subst sl'.
  exists m. split; [exact Hm|].
  unfold step, on_event, run, sendUserMessage_settled. rewrite R, T.
  open_app w. reflexivity.
Qed.

(** A response with action doctors, at the handler's return. *)
Lemma step_doctors_response (http : settled) (res ds : value) (w : app)
    (l : list value) :
  useChat_return http = Fulfilled res ->
  get_prop res (lit "action") = Done (VStr (lit "doctors")) ->
  get_prop res (lit "doctors") = Done ds ->
  messages (screen w) = VArr l ->
  exists m,
    get_prop res (lit "message") = Done m
    /\ step (Settle http) w
       = Done (App (localStorage w)
                   (State (session (screen w))
                          (VArr (l ++ [bubble (lit "agent") m]))
                          (slots (screen w)) (bookingDetails (screen w)) false
                          (initialized (screen w)) ds),
               []).
Proof.
  intros R A S M.
  destruct (sendUserMessage_try_action res _ A) as (m & sl & de & dc & Hm & _ & _ & Hd & T).
  assert (dc = ds) by congruence. subst dc.
  exists m. split; [exact Hm|].
  unfold step, on_event, run, sendUserMessage_settled. rewrite R, T.
  open_app w. reflexivity.
Qed.

(** ChatScreen cannot render a slot list or a doctor list that is
    [undefined] or [null]: it reads their length. *)
Lemma display_nullish_list (s : state) :
  nullish (slots s) = true \/ nullish (doctors s) = true ->
  exists e, display s = Thrown e.
Proof.
  intros N. unfold display, ChatScreen, mbind, outcome_bind.
  destruct (transcript (messages s)) as [[hint bubbles]|]; [|eauto].
  destruct (slots_view (session s) (slots s)) as [selector|] eqn:V; [|eauto].
  destruct (doctors_view (session s) (doctors s)) as [lst|] eqn:V'; [|eauto].
  exfalso. destruct N as [N|N].
  - unfold slots_view in V.
    rewrite (get_prop_nullish_Thrown _ _ N) in V. discriminate V.
  - unfold doctors_view in V'.
    rewrite (get_prop_nullish_Thrown _ _ N) in V'. discriminate V'.
Qed.





Section Page.

Variable JSON_stringify : value -> jsstr.

Lemma persisting_other_items (us : list update) (s : state) (ls ls' : storage)
    (k : jsstr) :
  ~ In k [lit "chat_messages"; lit "chat_slots"; lit "chat_booking"] ->
  persisting JSON_stringify us s ls = Done ls' ->
  ls' !! k = ls !! k.
Proof.
  intros N. unfold persisting, mbind, outcome_bind.
  destruct (sets_initialized us || sets_messages us).
  - destruct (persist_messages JSON_stringify s ls) as [ls1|] eqn:P1; [|discriminate].
    rewrite <- (persist_other_items (fun v => Done v) JSON_stringify s ls ls1 k N (or_introl P1)).
    clear P1. revert ls1.
    assert (G : forall ls1,
               (ls2 ← (if sets_initialized us || sets_slots us
                       then persist_slots JSON_stringify s ls1 else Done ls1);
                if sets_initialized us || sets_booking us
                then persist_booking JSON_stringify s ls2 else Done ls2) = Done ls' ->
               ls' !! k = ls1 !! k); [|exact G].
    intros ls1. unfold mbind, outcome_bind.
    destruct (sets_initialized us || sets_slots us).
    + destruct (persist_slots JSON_stringify s ls1) as [ls2|] eqn:P2; [|discriminate].
      rewrite <- (persist_other_items (fun v => Done v) JSON_stringify s ls1 ls2 k N
                    (or_intror (or_introl P2))).
      destruct (sets_initialized us || sets_booking us).
      * intros P3. exact (persist_other_items (fun v => Done v) JSON_stringify s ls2 ls' k N
                            (or_intror (or_intror P3))).
      * intros [= <-]. reflexivity.
    + destruct (sets_initialized us || sets_booking us).
      * intros P3. exact (persist_other_items (fun v => Done v) JSON_stringify s ls1 ls' k N
                            (or_intror (or_intror P3))).
      * intros [= <-]. reflexivity.
  - destruct (sets_initialized us || sets_slots us).
    + destruct (persist_slots JSON_stringify s ls) as [ls2|] eqn:P2; [|discriminate].
      rewrite <- (persist_other_items (fun v => Done v) JSON_stringify s ls ls2 k N
                    (or_intror (or_introl P2))).
      destruct (sets_initialized us || sets_booking us).
      * intros P3. exact (persist_other_items (fun v => Done v) JSON_stringify s ls2 ls' k N
                            (or_intror (or_intror P3))).
      * intros [= <-]. reflexivity.
    + destruct (sets_initialized us || sets_booking us).
      * intros P3. exact (persist_other_items (fun v => Done v) JSON_stringify s ls ls' k N
                            (or_intror (or_intror P3))).
      * intros [= <-]. reflexivity.
Qed.

(** What an event on the page is made of. *)
Lemma page_step_Done (e : event) (w w' : app) (reqs : list request) :
  page_step JSON_stringify e w = Done (w', reqs) ->
  exists w1,
    step e w = Done (w1, reqs)
    /\ screen w' = screen w1
    /\ (w' = w1
        \/ exists us,
             display (screen w1) = Done ()
             /\ persisting JSON_stringify us (screen w1) (localStorage w1)
                = Done (localStorage w')).
Proof.
  unfold page_step, step.
  destruct (on_event (session (screen w)) e) as [h|x];
    [|intros [= <- <-]; exists w; auto].
  destruct (run h w) as [[w1 r]|]; [|discriminate]. cbn [mbind outcome_bind].
  destruct (is_nil _).
  - intros [= <- <-]. exists w1. auto.
  - destruct (display (screen w1)) as [[]|] eqn:D; [|discriminate].
    cbn [mbind outcome_bind].
    destruct (persisting _ _ _ _) as [ls|] eqn:P; [|discriminate].
    cbn [mbind outcome_bind]. intros [= <- <-]. exists w1.
    split; [reflexivity|]. split; [reflexivity|]. right. eauto.
Qed.

(** The slot list after an event on the page. *)
Lemma page_step_slots (e : event) (w1 w2 : app) (reqs : list request) :
  page_step JSON_stringify e w1 = Done (w2, reqs) ->
  slots (screen w2) = slots (screen w1)
  \/ slots (screen w2) = VArr []
  \/ exists http res,
       e = Settle http
       /\ useChat_return http = Fulfilled res
       /\ get_prop res (lit "action") = Done (VStr (lit "slots"))
       /\ get_prop res (lit "slots") = Done (slots (screen w2)).
Proof.
  intros P. destruct (page_step_Done _ _ _ _ P) as (w & S & -> & _).
  exact (step_slots _ _ _ _ S).
Qed.

(** While no response arrives, an empty slot list stays empty. *)
Lemma page_steps_keep_slots_empty (es : list event) (w1 w2 : app)
    (reqs : list request) :
  forallb (fun e => negb (is_response e)) es = true ->
  slots (screen w1) = VArr [] ->
  page_steps JSON_stringify es w1 = Done (w2, reqs) ->
  slots (screen w2) = VArr [].
Proof.
  revert w1 reqs. induction es as [|e es IH]; intros w1 reqs N E; simpl.
  - intros [= <- _]. exact E.
  - simpl in N. apply andb_prop in N. destruct N as [Ne N].
    destruct (page_step JSON_stringify e w1) as [[w' r1]|] eqn:S; [|discriminate].
    cbn [mbind outcome_bind].
    destruct (page_steps JSON_stringify es w') as [[w'' r2]|] eqn:S'; [|discriminate].
    cbn [mbind outcome_bind]. intros [= <- _].
    apply (IH w' r2 N); [|exact S'].
    destruct (page_step_slots e w1 w' r1 S) as [K|[K|(http & res & -> & _)]].
    + congruence.
    + exact K.
    + discriminate Ne.
Qed.

(** A send with a text that is not blank, with its render and effects. *)
Lemma page_step_send (s : jsstr) (l : list value) (w w' : app)
    (reqs : list request) :
  blank s = false ->
  messages (screen w) = VArr l ->
  page_step JSON_stringify (Send (VStr s)) w = Done (w', reqs) ->
  reqs = [useChat_post (session (screen w)) (VStr s)]
  /\ slots (screen w') = VArr []
  /\ messages (screen w') = VArr (l ++ [bubble (lit "user") (VStr s)])
  /\ localStorage w' !! lit "chat_slots"
     = (if initialized (screen w) then Some (JSON_stringify (VArr [])) else None)
  /\ localStorage w' !! lit "chat_messages"
     = (if initialized (screen w)
        then Some (JSON_stringify (VArr (l ++ [bubble (lit "user") (VStr s)])))
        else localStorage w !! lit "chat_messages").
Proof.
  intros B M. unfold page_step, on_event, run.
  rewrite (sendUserMessage_text _ _ _ B). cbn [queued stored sent is_nil].
  open_app w. unfold mbind, outcome_bind.
  cbn [spread session messages slots bookingDetails loading initialized doctors
       screen localStorage].
  destruct (display _) as [[]|]; [|discriminate].
  unfold persisting, persist_messages, persist_slots, persist_booking,
         mbind, outcome_bind.
  cbn [sets_initialized sets_messages sets_slots sets_booking existsb orb
       initialized messages slots get_prop].
  destruct ini; cbn [negb];
    intros [= <- <-]; cbn [screen slots messages localStorage].
  - repeat split; unfold setItem.
    + apply lookup_insert_eq.
    + rewrite lookup_insert_ne by (vm_compute; discriminate).
      apply lookup_insert_eq.
  - repeat split; unfold removeItem.
    + apply lookup_delete_eq.
    + apply lookup_delete_ne. vm_compute; discriminate.
Qed.

(** A settled request, with the render and the effects that follow. *)
Lemma page_step_settle (http : settled) (w w' : app) (reqs : list request) :
  page_step JSON_stringify (Settle http) w = Done (w', reqs) ->
  loading (screen w') = false
  /\ reqs = []
  /\ (exists w1, step (Settle http) w = Done (w1, [])
                 /\ localStorage w1 = localStorage w
                 /\ screen w' = screen w1)
  /\ forall k, ~ In k [lit "chat_messages"; lit "chat_slots"; lit "chat_booking"] ->
       localStorage w' !! k = localStorage w !! k.
Proof.
  intros P. destruct (page_step_Done _ _ _ _ P) as (w1 & S & E & D).
  assert (G : loading (screen w1) = false /\ reqs = []
              /\ localStorage w1 = localStorage w).
  { revert S. unfold step, on_event, run, mbind, outcome_bind.
    destruct (sendUserMessage_settled_body (useChat_return http) (localStorage w))
      as (body & -> & Bd).
    cbn [queued stored sent].
    destruct (commit _ _) as [s1|] eqn:C; [|discriminate].
    intros [= <- <-]. cbn [screen localStorage].
    rewrite (commit_loading _ _ _ C). unfold loading_after.
    rewrite fold_left_app. auto. }
  destruct G as (Lo & -> & St).
  split; [rewrite E; exact Lo|]. split; [reflexivity|].
  split; [exists w1; auto|].
  intros k N.
  destruct D as [->|(us & _ & Pe)]; [rewrite St; reflexivity|].
  rewrite (persisting_other_items us _ _ _ k N Pe), St. reflexivity.
Qed.

(** X23: a send with a text that is not blank, followed on the page
    through its render and its persisting effects: one request is sent,
    the slot list is empty, and on a restored page chat_slots holds the
    text of the empty list and chat_messages the text of the transcript
    with the user's entry; whatever events follow, the slot list stays
    empty until a response arrives. *)
Theorem sent_turn_keeps_slots_empty (s : jsstr) (l : list value) (w w' : app)
    (reqs : list request) :
  blank s = false ->
  messages (screen w) = VArr l ->
  page_step JSON_stringify (Send (VStr s)) w = Done (w', reqs) ->
  reqs = [useChat_post (session (screen w)) (VStr s)]
  /\ slots (screen w') = VArr []
  /\ messages (screen w') = VArr (l ++ [bubble (lit "user") (VStr s)])
  /\ localStorage w' !! lit "chat_slots"
     = (if initialized (screen w) then Some (JSON_stringify (VArr [])) else None)
  /\ localStorage w' !! lit "chat_messages"
     = (if initialized (screen w)
        then Some (JSON_stringify (VArr (l ++ [bubble (lit "user") (VStr s)])))
        else localStorage w !! lit "chat_messages")
  /\ forall es w'' reqs',
       forallb (fun e => negb (is_response e)) es = true ->
       page_steps JSON_stringify es w' = Done (w'', reqs') ->
       slots (screen w'') = VArr [].
Proof.
  intros B L P.
  destruct (page_step_send s l w w' reqs B L P) as (R & E & M & C & C').
  repeat (split; [assumption|]).
  intros es w'' reqs' N S.
  exact (page_steps_keep_slots_empty es w' w'' reqs' N E S).
Qed.

(** X24: turns overlap.  When two texts are sent one after the other and
    the response to the first, with action slots, arrives while the second
    request is awaited, and the page stays displayed, then the slots of
    that response are on the screen and the loading flag is off although
    one turn is still in flight. *)
Theorem overlapping_turns_show_earlier_slots (a b : jsstr) (http : settled)
    (res sl : value) (l : list value) (w w' : app) (reqs : list request) :
  blank a = false ->
  blank b = false ->
  messages (screen w) = VArr l ->
  useChat_return http = Fulfilled res ->
  get_prop res (lit "action") = Done (VStr (lit "slots")) ->
  get_prop res (lit "slots") = Done sl ->
  page_steps JSON_stringify [Send (VStr a); Send (VStr b); Settle http] w
    = Done (w', reqs) ->
  reqs = [ useChat_post (session (screen w)) (VStr a);
           useChat_post (session (screen w)) (VStr b) ]
  /\ in_flight [Send (VStr a); Send (VStr b); Settle http] reqs = 1%nat
  /\ slots (screen w') = sl
  /\ loading (screen w') = false.
Proof.
  intros Ba Bb L R A S. cbn [page_steps].
  destruct (page_step JSON_stringify (Send (VStr a)) w) as [[w1 r1]|] eqn:P1;
    [|discriminate]. cbn [mbind outcome_bind].
  destruct (page_step JSON_stringify (Send (VStr b)) w1) as [[w2 r2]|] eqn:P2;
    [|discriminate]. cbn [mbind outcome_bind].
  destruct (page_step JSON_stringify (Settle http) w2) as [[w3 r3]|] eqn:P3;
    [|discriminate]. cbn [mbind outcome_bind].
  intros [= <- <-].
  destruct (page_step_send a l w w1 r1 Ba L P1) as (-> & _ & M1 & _).
  destruct (page_step_Done _ _ _ _ P1) as (w1' & St1 & E1 & _).
  assert (Se : session (screen w1) = session (screen w)).
  { rewrite E1. rewrite (step_send a l w Ba L) in St1.
    injection St1 as <-. reflexivity. }
  destruct (page_step_send b _ w1 w2 r2 Bb M1 P2) as (-> & _ & _ & _).
  destruct (page_step_settle http w2 w3 r3 P3) as (Lo & -> & _ & _).
  destruct (page_step_Done _ _ _ _ P3) as (w3' & St3 & E3 & _).
  destruct (ClientFacts.step_slots_response http res sl w2 w3' [] R A S St3)
    as [Sl _].
  rewrite Se. split; [reflexivity|]. split; [reflexivity|].
  split; [rewrite E3; exact Sl|exact Lo].
Qed.

(** X1: as long as the page stays displayed through a run of events, each
    with its render and its persisting effects, the transcript only grows:
    the entries it had stay in place, in order, and each event adds at most
    one entry behind them. *)
Theorem transcript_only_grows (es : list event) (w w' : app)
    (reqs : list request) (l : list value) :
  page_steps JSON_stringify es w = Done (w', reqs) ->
  messages (screen w) = VArr l ->
  exists added,
    messages (screen w') = VArr (l ++ added)
    /\ (length added <= length es)%nat.
Proof.
  revert w reqs l. induction es as [|e es IH]; intros w reqs l; simpl.
  - intros [= <- _] M. exists []. rewrite app_nil_r. auto.
  - destruct (page_step JSON_stringify e w) as [[w1 r1]|] eqn:S; [|discriminate].
    cbn [mbind outcome_bind].
    destruct (page_steps JSON_stringify es w1) as [[w2 r2]|] eqn:S'; [|discriminate].
    cbn [mbind outcome_bind]. intros [= <- _] M.
    destruct (page_step_Done _ _ _ _ S) as (w0 & St & E & _).
    destruct (step_handler e w l M) as (w0' & reqs' & a1 & St' & M1 & L1).
    rewrite St in St'. injection St' as <- _.
    rewrite <- E in M1.
    destruct (IH w1 r2 _ S' M1) as (a2 & M2 & L2).
    exists (a1 ++ a2). rewrite app_assoc. split; [exact M2|].
    rewrite length_app. lia.
Qed.

(** X3: an event, with its render and its persisting effects, changes no
    item of localStorage other than chat_messages, chat_slots and
    chat_booking.  Its handler writes nothing: up to the handler's return
    an item is as it was, or it is chat_slots or chat_booking and gone; the
    three chat items are written by the persisting effects.  The handler of
    the reset button, [clearChat], removes the three and session_id and
    leaves every other item. *)
Theorem events_keep_other_items (e : event) (w w' : app) (reqs : list request)
    (k : jsstr) :
  page_step JSON_stringify e w = Done (w', reqs) ->
  (~ In k [lit "chat_messages"; lit "chat_slots"; lit "chat_booking"] ->
   localStorage w' !! k = localStorage w !! k)
  /\ (exists w1,
        step e w = Done (w1, reqs)
        /\ (localStorage w1 !! k = localStorage w !! k
            \/ (localStorage w1 !! k = None
                /\ (k = lit "chat_slots" \/ k = lit "chat_booking"))))
  /\ (In k [lit "session_id"; lit "chat_messages"; lit "chat_slots"; lit "chat_booking"]
      -> clearChat (localStorage w) !! k = None)
  /\ (~ In k [lit "session_id"; lit "chat_messages"; lit "chat_slots"; lit "chat_booking"]
      -> clearChat (localStorage w) !! k = localStorage w !! k).
Proof.
  intros P. destruct (page_step_Done _ _ _ _ P) as (w1 & S & _ & D).
  split; [|split; [|split]].
  - intros N.
    assert (H1 : localStorage w1 !! k = localStorage w !! k).
    { destruct (step_items e w w1 reqs k S) as [K|(_ & [-> | ->])]; [exact K| |];
        exfalso; apply N; simpl; auto. }
    destruct D as [->|(us & _ & Pe)]; [exact H1|].
    rewrite (persisting_other_items us _ _ _ k N Pe). exact H1.
  - exists w1. split; [exact S|]. exact (step_items e w w1 reqs k S).
  - apply clearChat_lookup.
  - apply clearChat_other.
Qed.

(** X4: whenever the settling of a request, whatever it settles with,
    leaves the page displayed, the loading flag is off and nothing was
    sent.  The handler itself leaves localStorage untouched; the persisting
    effects that follow it rewrite the chat items and nothing else. *)
Theorem settled_turn_ends_loading (http : settled) (w w' : app)
    (reqs : list request) :
  page_step JSON_stringify (Settle http) w = Done (w', reqs) ->
  loading (screen w') = false
  /\ reqs = []
  /\ (exists w1, step (Settle http) w = Done (w1, [])
                 /\ localStorage w1 = localStorage w
                 /\ screen w' = screen w1)
  /\ forall k, ~ In k [lit "chat_messages"; lit "chat_slots"; lit "chat_booking"] ->
       localStorage w' !! k = localStorage w !! k.
Proof. exact (page_step_settle http w w' reqs). Qed.



(** X22: ChatScreen reads the length of the slot list and of the doctor
    list when it renders.  A response with action slots whose [slots] is
    missing or [null], or with action doctors whose [doctors] is, is taken
    into the state by the handler, and the render that follows throws: the
    page is unmounted. *)
Theorem response_without_list_unmounts (http : settled) (res items : value)
    (w : app) (l : list value) :
  useChat_return http = Fulfilled res ->
  messages (screen w) = VArr l ->
  nullish items = true ->
  (get_prop res (lit "action") = Done (VStr (lit "slots"))
   /\ get_prop res (lit "slots") = Done items)
  \/ (get_prop res (lit "action") = Done (VStr (lit "doctors"))
      /\ get_prop res (lit "doctors") = Done items) ->
  (exists w1, step (Settle http) w = Done (w1, [])
              /\ (slots (screen w1) = items \/ doctors (screen w1) = items))
  /\ exists e, page_step JSON_stringify (Settle http) w = Thrown e.
Proof.
  intros R M N A.
  assert (G : exists w1,
             step (Settle http) w = Done (w1, [])
             /\ (slots (screen w1) = items \/ doctors (screen w1) = items)).
  { destruct A as [[A S]|[A S]].
    - destruct (settle_slots_response http res items w l R A S M) as (m & _ & St).
      eexists. split; [exact St|]. left. reflexivity.
    - destruct (step_doctors_response http res items w l R A S M) as (m & _ & St).
      eexists. split; [exact St|]. right. reflexivity. }
  split; [exact G|].
  destruct G as (w1 & St & Li).
  destruct (display_nullish_list (screen w1)) as [e D].
  { destruct Li as [-> | ->]; auto. }
  exists e. revert St. unfold page_step, step, on_event.
  destruct (sendUserMessage_settled_body (useChat_return http) (localStorage w))
    as (body & Q & _).
  intros St. rewrite St. cbn [mbind outcome_bind].
  rewrite Q. cbn [queued].
  assert (Ni : is_nil (body ++ [setLoading false]) = false)
    by (destruct body; reflexivity).
  rewrite Ni, D. reflexivity.
Qed.

End Page.

End PageFacts.

(** ** More properties at sample inputs *)

Module WitnessMore.
Import JS Client Views Display.

(** A text is sent from the sample page. *)
Lemma session_is_kept_witness :
  exists w' reqs,
    step (Send (VStr (lit "tomorrow morning"))) Sample.page = Done (w', reqs)
    /\ session (screen w') = session (screen Sample.page)
    /\ localStorage w' !! lit "session_id"
       = localStorage Sample.page !! lit "session_id".
Proof.
  destruct (step (Send (VStr (lit "tomorrow morning"))) Sample.page)
    as [[w' reqs]|] eqn:S; [|vm_compute in S; discriminate S].
  exists w', reqs. split; [reflexivity|].
  destruct (EventFacts.session_is_kept _ _ _ _ S) as (A & B & _). auto.
Defined.

(** A text is sent from the sample page, and the booking card is closed
    before the response arrives. *)
Lemma sent_turn_keeps_slots_empty_witness :
  exists w' reqs w'' reqs',
    blank (lit "tomorrow morning") = false
    /\ messages (screen Sample.page)
       = VArr [greeting; bubble (lit "user") (VStr (lit "I have a fever"))]
    /\ page_step Sample2.serialize (Send (VStr (lit "tomorrow morning"))) Sample.page
       = Done (w', reqs)
    /\ localStorage w' !! lit "chat_slots" = Some (lit "[]")
    /\ page_steps Sample2.serialize [CloseBooking] w' = Done (w'', reqs')
    /\ slots (screen w'') = VArr [].
Proof.
  destruct (page_step Sample2.serialize (Send (VStr (lit "tomorrow morning")))
              Sample.page) as [[w' reqs]|] eqn:S; [|vm_compute in S; discriminate S].
  destruct (PageFacts.sent_turn_keeps_slots_empty Sample2.serialize
              (lit "tomorrow morning")
              [greeting; bubble (lit "user") (VStr (lit "I have a fever"))]
              Sample.page w' reqs eq_refl eq_refl S) as (_ & _ & _ & C & _ & K).
  destruct (page_steps Sample2.serialize [CloseBooking] w') as [[w'' reqs']|] eqn:S';
    [|vm_compute in S; injection S as <- _; vm_compute in S'; discriminate S'].
  exists w', reqs, w'', reqs'. split; [reflexivity|]. split; [reflexivity|].
  split; [reflexivity|]. split; [exact C|].
  split; [exact S'|]. exact (K [CloseBooking] w'' reqs' eq_refl S').
Defined.

(** Two texts are sent from the sample page and the sample slots response
    arrives. *)
Lemma overlapping_turns_show_earlier_slots_witness :
  exists w' reqs,
    page_steps Sample2.serialize
      [ Send (VStr (lit "tomorrow morning"));
        Send (VStr (lit "or the day after"));
        Settle (Fulfilled Sample2.slots_reply) ] Sample.page = Done (w', reqs)
    /\ length reqs = 2%nat
    /\ slots (screen w') = VArr [Sample.slot]
    /\ loading (screen w') = false.
Proof.
  destruct (page_steps Sample2.serialize
              [ Send (VStr (lit "tomorrow morning"));
                Send (VStr (lit "or the day after"));
                Settle (Fulfilled Sample2.slots_reply) ] Sample.page)
    as [[w' reqs]|] eqn:S; [|vm_compute in S; discriminate S].
  destruct (PageFacts.overlapping_turns_show_earlier_slots Sample2.serialize
              (lit "tomorrow morning") (lit "or the day after")
              (Fulfilled Sample2.slots_reply) Sample.slots_response
              (VArr [Sample.slot])
              [greeting; bubble (lit "user") (VStr (lit "I have a fever"))]
              Sample.page w' reqs eq_refl eq_refl eq_refl eq_refl eq_refl eq_refl S)
    as (R & _ & Sl & Lo).
  exists w', reqs. split; [reflexivity|]. split; [rewrite R; reflexivity|].
  split; assumption.
Defined.

(** A text is sent from the sample page and the doctors response arrives. *)
Lemma transcript_only_grows_witness :
  exists w' reqs added,
    page_steps Sample2.serialize
      [Send (VStr (lit "tomorrow morning"));
       Settle (Fulfilled Sample2.doctors_reply)] Sample.page = Done (w', reqs)
    /\ messages (screen Sample.page)
       = VArr [greeting; bubble (lit "user") (VStr (lit "I have a fever"))]
    /\ messages (screen w')
       = VArr ([greeting; bubble (lit "user") (VStr (lit "I have a fever"))] ++ added)
    /\ (length added <= 2)%nat.
Proof.
  destruct (page_steps Sample2.serialize
              [Send (VStr (lit "tomorrow morning"));
               Settle (Fulfilled Sample2.doctors_reply)] Sample.page)
    as [[w' reqs]|] eqn:S; [|vm_compute in S; discriminate S].
  destruct (PageFacts.transcript_only_grows Sample2.serialize _ _ _ _
              [greeting; bubble (lit "user") (VStr (lit "I have a fever"))]
              S eq_refl) as (added & M & L).
  exists w', reqs, added. auto.
Defined.

(** The booking card is closed on the sample page. *)
Lemma events_keep_other_items_witness :
  exists w' reqs,
    page_step Sample2.serialize CloseBooking Sample.page = Done (w', reqs)
    /\ ~ In (lit "session_id")
            [lit "chat_messages"; lit "chat_slots"; lit "chat_booking"]
    /\ localStorage w' !! lit "session_id"
       = localStorage Sample.page !! lit "session_id".
Proof.
  destruct (page_step Sample2.serialize CloseBooking Sample.page)
    as [[w' reqs]|] eqn:S; [|vm_compute in S; discriminate S].
  assert (N : ~ In (lit "session_id")
                   [lit "chat_messages"; lit "chat_slots"; lit "chat_booking"]).
  { simpl. intros [E|[E|[E|[]]]]; vm_compute in E; discriminate E. }
  exists w', reqs. split; [reflexivity|]. split; [exact N|].
  exact (proj1 (PageFacts.events_keep_other_items Sample2.serialize _ _ _ _
                  (lit "session_id") S) N).
Defined.

(** The reply with the doctors response settles a turn on the sample page. *)
Lemma settled_turn_ends_loading_witness :
  exists w' reqs,
    page_step Sample2.serialize (Settle (Fulfilled Sample2.doctors_reply)) Sample.page
      = Done (w', reqs)
    /\ loading (screen w') = false
    /\ reqs = [].
Proof.
  destruct (page_step Sample2.serialize (Settle (Fulfilled Sample2.doctors_reply))
              Sample.page) as [[w' reqs]|] eqn:S; [|vm_compute in S; discriminate S].
  exists w', reqs. split; [reflexivity|].
  destruct (PageFacts.settled_turn_ends_loading Sample2.serialize _ _ _ _ S)
    as (L & R & _).
  auto.
Defined.

(** A reply whose body is the empty object arrives on the sample page. *)
Lemma reply_without_response_apologises_witness :
  get_prop Sample2.empty_reply (lit "data") = Done (VObj [])
  /\ get_prop (VObj []) (lit "response") = Done VUndefined
  /\ nullish VUndefined = true
  /\ exists w',
       step (Settle (Fulfilled Sample2.empty_reply)) Sample.page = Done (w', [])
       /\ messages (screen w')
          = VArr ([greeting; bubble (lit "user") (VStr (lit "I have a fever"))]
                  ++ [apology]).
Proof.
  split; [reflexivity|]. split; [reflexivity|]. split; [reflexivity|].
  destruct (EventFacts.reply_without_response_apologises
              Sample2.empty_reply (VObj []) Sample.page
              [greeting; bubble (lit "user") (VStr (lit "I have a fever"))]
              eq_refl
              (or_intror (ex_intro _ VUndefined (conj eq_refl eq_refl)))
              eq_refl) as (w' & S & M & _).
  exists w'. split; assumption.
Defined.

(** The card of the sample doctor is selected on the sample page. *)
Lemma doctors_change_only_by_selection_or_response_witness :
  exists w' reqs,
    step (SelectDoctor Sample.doctor) Sample.page = Done (w', reqs)
    /\ (doctors (screen w') = doctors (screen Sample.page)
        \/ (exists d, SelectDoctor Sample.doctor = SelectDoctor d
                      /\ doctors (screen w') = VArr [])
        \/ exists http res,
             SelectDoctor Sample.doctor = Settle http
             /\ useChat_return http = Fulfilled res
             /\ get_prop res (lit "action") = Done (VStr (lit "doctors"))
             /\ get_prop res (lit "doctors") = Done (doctors (screen w'))).
Proof.
  destruct (step (SelectDoctor Sample.doctor) Sample.page)
    as [[w' reqs]|] eqn:S; [|vm_compute in S; discriminate S].
  exists w', reqs. split; [reflexivity|].
  exact (EventFacts.doctors_change_only_by_selection_or_response _ _ _ _ S).
Defined.

(** The booking card is closed on the sample page. *)
Lemma booking_changes_only_by_close_or_response_witness :
  exists w' reqs,
    step CloseBooking Sample.page = Done (w', reqs)
    /\ (bookingDetails (screen w') = bookingDetails (screen Sample.page)
        \/ (CloseBooking = CloseBooking /\ bookingDetails (screen w') = VNull)
        \/ exists http res,
             CloseBooking = Settle http
             /\ useChat_return http = Fulfilled res
             /\ get_prop res (lit "action") = Done (VStr (lit "booking_confirmed"))
             /\ get_prop res (lit "details") = Done (bookingDetails (screen w'))).
Proof.
  destruct (step CloseBooking Sample.page)
    as [[w' reqs]|] eqn:S; [|vm_compute in S; discriminate S].
  exists w', reqs. split; [reflexivity|].
  exact (EventFacts.booking_changes_only_by_close_or_response _ _ _ _ S).
Defined.

(** A doctor without name is selected on the sample page. *)
Lemma doctor_without_name_empties_list_witness :
  get_prop Sample2.bare_doctor (lit "name") = Done VUndefined
  /\ (forall s, VUndefined = VStr s -> blank s = true)
  /\ exists w',
       step (SelectDoctor Sample2.bare_doctor) Sample.page = Done (w', [])
       /\ doctors (screen w') = VArr []
       /\ messages (screen w') = messages (screen Sample.page).
Proof.
  assert (B : forall s, VUndefined = VStr s -> blank s = true)
    by (intros s E; discriminate E).
  split; [reflexivity|]. split; [exact B|].
  eexists. split.
  - apply (EventFacts.doctor_without_name_empties_list
             Sample2.bare_doctor VUndefined Sample.page eq_refl B).
  - split; reflexivity.
Defined.

(** A slot without start_time is displayed and selected. *)
Lemma slot_without_start_time_is_inert_witness :
  exists tree,
    [Sample2.bare_slot] !! 0%nat = Some Sample2.bare_slot
    /\ SlotSelector (VArr [Sample2.bare_slot])
         (sendUserMessage (session (screen Sample.page))) = Done (Some tree)
    /\ mounts tree = true
    /\ get_prop Sample2.bare_slot (lit "start_time") = Done VUndefined
    /\ (forall s, VUndefined <> VStr s)
    /\ step (Send VUndefined) Sample.page = Done (Sample.page, []).
Proof.
  assert (N : forall s, VUndefined <> VStr s) by (intros s E; discriminate E).
  eexists. split; [reflexivity|]. split; [reflexivity|]. split; [reflexivity|].
  split; [reflexivity|]. split; [exact N|].
  destruct (ViewFacts.slot_without_start_time_is_inert
              [Sample2.bare_slot] 0 Sample2.bare_slot VUndefined Sample.page _
              eq_refl eq_refl eq_refl eq_refl N) as (_ & buttons & kids & h & _ & _ & _ & S).
  exact S.
Defined.

(** A text with spaces around it is typed and sent with the button. *)
Lemma send_button_and_enter_send_as_typed_witness :
  blank (lit " hello ") = false
  /\ messages (screen Sample.page)
     = VArr [greeting; bubble (lit "user") (VStr (lit "I have a fever"))]
  /\ ChatInput_onClick (VStr (lit " hello "))
         (sendUserMessage (session (screen Sample.page)))
     = Done (Some (sendUserMessage (session (screen Sample.page))
                     (VStr (lit " hello "))), VStr []).
Proof.
  split; [reflexivity|]. split; [reflexivity|].
  apply (ViewFacts.send_button_and_enter_send_as_typed (lit " hello ")
           (VStr (lit "a")) Sample.page
           [greeting; bubble (lit "user") (VStr (lit "I have a fever"))]);
    reflexivity.
Defined.



(** A slots response without the list arrives on the sample page. *)
Lemma response_without_list_unmounts_witness :
  useChat_return (Fulfilled Sample2.bare_slots_reply)
    = Fulfilled Sample2.bare_slots_response
  /\ get_prop Sample2.bare_slots_response (lit "action") = Done (VStr (lit "slots"))
  /\ get_prop Sample2.bare_slots_response (lit "slots") = Done VUndefined
  /\ (exists w1, step (Settle (Fulfilled Sample2.bare_slots_reply)) Sample.page
                   = Done (w1, [])
                 /\ slots (screen w1) = VUndefined)
  /\ exists e, page_step Sample2.serialize
                 (Settle (Fulfilled Sample2.bare_slots_reply)) Sample.page
               = Thrown e.
Proof.
  split; [reflexivity|]. split; [reflexivity|]. split; [reflexivity|].
  destruct (PageFacts.response_without_list_unmounts Sample2.serialize
              (Fulfilled Sample2.bare_slots_reply) Sample2.bare_slots_response
              VUndefined Sample.page
              [greeting; bubble (lit "user") (VStr (lit "I have a fever"))]
              eq_refl eq_refl eq_refl (or_introl (conj eq_refl eq_refl)))
    as ((w1 & S & _) & U).
  split; [|exact U].
  exists w1. split; [exact S|].
  vm_compute in S. injection S as <-. reflexivity.
Defined.

(** A page loads with the text null stored as transcript. *)
Lemma corrupt_transcript_fails_mount_witness :
  let ls : storage := <[lit "chat_messages" := lit "null"]> ∅ in
  ls !! lit "chat_messages" = Some (lit "null")
  /\ lit "null" <> []
  /\ Sample.parse (VStr (lit "null")) = Done VNull
  /\ exists e, page_load Sample.parse (lit "unused") ls = Thrown e.
Proof.
  cbv zeta.
  assert (L : (<[lit "chat_messages" := lit "null"]> ∅ : storage)
                !! lit "chat_messages" = Some (lit "null"))
    by apply lookup_insert_eq.
  assert (N : lit "null" <> []) by (vm_compute; discriminate).
  split; [exact L|]. split; [exact N|]. split; [reflexivity|].
  apply (ReloadFacts.corrupt_transcript_fails_mount Sample.parse
           (lit "unused") (lit "null") _ L N).
  right. exists VNull. split; reflexivity.
Defined.

(** The restored sample page is persisted and loaded again. *)
Lemma refresh_keeps_chat_witness :
  initialized (screen Sample2.restored) = true
  /\ localStorage Sample2.restored !! lit "session_id" = Some Sample.session_id
  /\ Sample.session_id <> []
  /\ Sample.parse (VStr (Sample2.stringify (VArr []))) = Done (VArr [])
  /\ localStorage Sample2.restored !! lit "chat_booking" = None
  /\ exists ls',
       (ls1 ← persist_messages Sample2.stringify (screen Sample2.restored)
                (localStorage Sample2.restored);
        ls2 ← persist_slots Sample2.stringify (screen Sample2.restored) ls1;
        persist_booking Sample2.stringify (screen Sample2.restored) ls2) = Done ls'
       /\ page_load Sample.parse (lit "unused") ls' =
            Done (App ls'
                    (State (VStr Sample.session_id) (VArr []) (VArr []) VNull
                           false true (VArr []))).
Proof.
  assert (S : localStorage Sample2.restored !! lit "session_id"
              = Some Sample.session_id) by apply lookup_insert_eq.
  assert (N : Sample.session_id <> []) by (vm_compute; discriminate).
  assert (B : localStorage Sample2.restored !! lit "chat_booking" = None).
  { simpl. rewrite lookup_insert_ne by (vm_compute; discriminate).
    apply lookup_empty. }
  assert (R : Sample2.stringify (VArr []) <> []
              /\ Sample.parse (VStr (Sample2.stringify (VArr []))) = Done (VArr [])).
  { split; [vm_compute; discriminate|reflexivity]. }
  split; [reflexivity|]. split; [exact S|]. split; [exact N|].
  split; [reflexivity|]. split; [exact B|].
  exact (ReloadFacts.refresh_keeps_chat Sample.parse Sample2.stringify
           (lit "unused") Sample.session_id Sample2.restored
           eq_refl S N eq_refl R eq_refl R B).
Defined.

End WitnessMore.
